(* ===== verification/_CoqProject ===== *)
-Q . S2P
Prelude.v
Base64.v
Utf8.v
PyScalar.v
Werkzeug.v
Labels.v
Argmax.v
Report.v
Metrics.v
Artifacts.v
Handler.v
Preprocess.v
Pipeline.v
App.v
Server.v
