(* ===== verification/Prelude.v ===== *)
(** * A verification library for the BE_Project traffic classifier

    The program (src/model_handler.py, src/app.py) is a Flask service that
    receives a CSV table of network-flow features, runs a pretrained
    ensemble on it and returns one predicted traffic category per row.

    ** Parts of the program and how they interact

    - [app.py] (the HTTP boundary): [allowed_file], the [index] handler of
      [/] (checks, save to [uploads/], [pd.read_csv], [classifier.predict],
      cleanup, status code), [model_info], the 413 and 500 error handlers.
      It calls the single process-wide [NetworkTrafficClassifier] built at
      start-up, and every request writes to the same upload folder.
    - [model_handler.py] (the [NetworkTrafficClassifier] class):
      [configure_gpu] and [load_models] build the handler state at start-up;
      [preprocess_data] turns the table into the scaled feature matrix and
      the integer labels; [predict] sequences preprocessing, the CNN
      classifier, [np.argmax]/[np.max], the discriminator, the GMM, the
      generator, the evaluation (classification report, NaN repair,
      confusion matrix) and the result dict; [get_model_info] reports the
      state.
    - The pretrained artifacts (Keras models, the GMM and the scaler loaded
      with joblib) and pandas' [read_csv] are library objects; the
      development states what the code relies on from them as type classes
      with laws and proves the code against those.  Werkzeug's
      [secure_filename], a pure string function, is translated.

    ** Files (in dependency order) and what they model

    - [Prelude.v] (this file): Python exceptions ([exn], [exn_kind]) and the
      result type [res] of fallible code, with stdpp's [MRet]/[MBind]
      instances so that code reads [x ← m; k]; [py_try] and [reraise_value]
      for [try/except ... raise ValueError(f"...{e}")]; [mapM] lemmas and
      list-counting lemmas shared by the components; the hint databases
      [pyrt] and [pyrt_rw] and the tactic [inv_res].
    - [Base64.v]: [base64.b64encode] (line 258) as the loop of CPython's
      [binascii.b2a_base64], with the RFC 4648 encoding and decoding as
      its reference.
    - [Utf8.v]: [bytes.decode('utf-8')] (line 258) as CPython's strict
      UTF-8 decoder with its [UnicodeDecodeError] messages.
    - [PyScalar.v]: Python/NumPy scalars: floats with NaN and infinities
      ([pyfloat]), the cells of a pandas table ([cell]), [int(val)] on a
      cell ([py_int], line 92) including the base-10 grammar of [int()] on
      strings, the dtype NumPy gives an array of Python ints and the
      int64 cast with wrap-around ([to_int64], [wrap64]), Python indexing.
    - [Werkzeug.v]: [secure_filename] as app.py line 40 calls it, stage by
      stage on the characters of the name (POSIX separators): NFKD by the
      Unicode decomposition table of the code points below 256, the ASCII
      filter, the separator, split/join, regex and strip stages.
    - [Labels.v]: [LABELS_ISCX], [LATENT_DIM], Keras' [to_categorical]
      (lines 93 and 168) with NumPy's fancy-index write, [LABELS_ISCX[i]].
    - [Argmax.v]: [np.argmax] and [np.max] along axis 1 (lines 155, 159) as
      the scans NumPy runs, and the declarative [Spec.is_argmax].
    - [Report.v]: the dict/list values of the report ([jv]), [np.isnan] on
      them, the first repair loop (lines 201-209: [repair_report]) and
      [fix_nan_recursive] (lines 225-237).
    - [Metrics.v]: scikit-learn's [classification_report(...,
      output_dict=True, zero_division=0)] and [confusion_matrix] as called
      at lines 196-198 and 243.
    - [Artifacts.v]: the classes [Scaler], [Classifier], [Discriminator],
      [Gmm], [Generator], [World] (clock and random generator) and their
      laws.
    - [Handler.v]: the handler record, [configure_gpu], [load_models] as a
      sequence of loads that may fail, [__init__] ([init]),
      [get_model_info].
    - [Preprocess.v]: the table ([frame]) and [preprocess_data].
    - [Pipeline.v]: [predict] in the state-and-error monad [pm W] (the world
      [W] carries the clock and the random generator), its helpers
      [generate_fake_samples], [get_discriminator_features], [evaluate],
      [distribution_of], and, in [Module Scenario], computable artifacts and
      the example run of the specification.
    - [App.v]: [allowed_file]; the [/] route as the sequential [index] over
      an upload folder ([gmap] from paths to contents); [/model-info];
      [Module Demo] fixes [read_csv] for concrete requests.
    - [Server.v]: start-up of the upload folder ([boot]) and the [/] route
      cut at the folder operations into [thread] states, with [step]
      letting any request in flight move (Flask's threaded server);
      requests with distinct paths do not interfere, two that share a path
      race; [Module Race] runs two uploads whose names have one secure
      name, and two that differ.

    ** Theorems (by group; C<n> is the claim id in the doc comment)

    - Pipeline: a successful [predict] has one prediction and confidence
      per row and a distribution summing to the row count (C1); every
      failure is one [ValueError("Error in prediction pipeline: ...")]
      (C2); the report exists only when exactly five labels occur (C10);
      fail-fast when models are not loaded (C19); the confusion-matrix
      image is the base64 text of the saved PNG, which decodes back to it,
      and there is neither report nor image without labels (C20);
      pseudo-labels below 5 (C25); an empty table fails (C26); the report
      has the type [report_ty LABELS_ISCX] (C32); the clock and
      random-generator effects of a run (C33).
    - App: the sequential outcome of a request, a 500 carrying the raising
      stage's own message (C7); whatever the client's file name, the
      upload is saved inside [uploads/] under one nonempty, non-hidden
      path component (C12); 413 and 400 before anything is written (C18);
      [allowed_file] (C28); [/model-info] after start-up (C34).
    - Werkzeug: what [secure_filename] returns: its alphabet, its ends, a
      fixed point, the letters, digits and dashes of the normalised name
      in order, and when it is empty (C11).
    - Server: under every interleaving no upload outlives its request (C3,
      by an invariant of [step]); requests that save at different paths
      are each answered as if alone (C13, by the invariant [isolated]);
      two requests whose names have one secure name race on one path: the
      first is answered with the second's results, the second with a 500
      (C15).  Lemmas: run alone, the step machine ends in the outcome of
      [index] ([index_refined]); a request given five turns is answered
      ([request_answered]); every run that keeps changing the state is
      finite ([requests_terminate], stdpp's [sn]).
    - Report: no NaN remains after [fix_nan_recursive] (C4), which
      preserves the JSON type [typeof] (C31); the first loop raises
      [TypeError] on [None] (C14).
    - Labels: [to_categorical] on int64 labels succeeds exactly on [-k, k)
      and encodes [y mod k] (C5), so [-1] is class 4.
    - Argmax: the scan equals the least index of a maximum (C6); the
      confidence is the predicted class's probability (C22).
    - Preprocess: output shapes (C8); a bad label fails the request (C16);
      the label column is scaled as a feature (C17).
    - Metrics: when the report exists (C9); scores in [0, 1] and zeros for
      a class without support (C24); the repairs do nothing on the report
      (C23).
    - Base64: CPython's [b2a_base64] loop computes the RFC 4648 encoding,
      whatever the 32-bit wrap of [leftchar] (C27).
    - Handler: what [get_model_info] answers after start-up (C21); the
      loaded artifacts form a prefix of the load order (C30).
    - Scalars: [int(str(z)) == z] with any surrounding whitespace (C29).

    ** Modelling choices and bounds

    Floats are exact rationals plus NaN and signed infinities: rounding is
    not modelled and no theorem depends on it.  Integers are [Z] with the
    int64/uint64 ranges and the wrap-around of NumPy's casts written out.
    A [str] is a Rocq string when its code points are below 256, one per
    character: ASCII for the cells of the table ([isspace] and [int()] on
    ASCII), Latin-1 for a client's file name ([str.lower] and NFKD on
    Latin-1).  Two loops take fuel, both enough: [Base64.drain] runs the
    inner [while] of [b2a_base64] with [leftbits] rounds, of which it uses
    at most two ([Base64.b2a_byte_0], [b2a_byte_2], [b2a_byte_4] compute
    it for the three values [leftbits] takes between bytes); and
    [Utf8.utf8_go] gets the length of the input, and any fuel from there
    on gives the same result ([Utf8.utf8_go_fuel]).  Every other
    recursive definition is structural.  Two bounds on the
    step machine of [Server.v]: run alone, four steps take any request
    through it ([Server.index_refined]: the checks and [file.save];
    reading, parsing and [predict]; then either the [os.remove] of the
    success path or the [os.path.exists] and [os.remove] of the [except]
    block); interleaved with others, five of its own steps
    ([Server.rank]), because another request may delete the file before
    the success path's [os.remove], which then raises and sends the
    request through the [except] block.  An answered request no longer
    moves.

    ** Not modelled, and why

    - The imports and the warning filter (model_handler.py lines 1-18,
      app.py lines 1-6): no behaviour.
    - The internals of the Keras models, the GMM and the scaler: weights
      loaded from files the repository does not hold; the code is proved
      against the laws of [Artifacts.v] instead.
    - pandas' [read_csv]: a parser with type inference far outside this
      code; the route is proved for any parser ([App.Uploads]).
    - [print] and matplotlib/seaborn rendering: I/O whose only effect on
      the result is the PNG bytes [buf.read()] returns, taken from the
      [Outputs] interface; their base64 encoding and UTF-8 decoding are
      modelled ([Base64.v], [Utf8.v]).  A [str] is a Rocq string only when
      its code points are below 256, which holds for the base64 text.
    - File names with code points of 256 and above: the NFKD table is
      the one of the code points below 256.
    - NumPy's dtype for a list of Python ints mixing negative values with
      values in [[2^63, 2^64)] is [float64] (NumPy 1.x), whose cast to
      [int64] is platform-specific; the model gives it the object dtype
      and the [OverflowError] of [int64] conversion.  Either way such a
      table fails preprocessing; only the message differs.
    - [int()] on strings with non-ASCII Unicode digits, and NaN outputs of
      the classifier ([np.argmax] and [np.max] on exact rationals).
    - Flask's routing, [render_template] and JSON encoding, and
      [app.run] (app.py line 84) beyond the interleaving of [Server.v]:
      framework code; a page response and the payload constructors stand
      for them.
    - The Windows branch of [secure_filename]: the service runs on POSIX.
*)

From stdpp Require Import base list strings decidable sets.
From Stdlib Require Import ZArith.

Declare Scope py_scope.
Delimit Scope py_scope with py.

(** ** Python exceptions *)

(** The exception classes raised on the modelled paths. *)
Inductive exn_kind :=
  | ValueError
  | TypeError
  | IndexError
  | KeyError
  | ZeroDivisionError
  | OverflowError
  | AttributeError
  | FileNotFoundError
  | UnicodeDecodeError.

#[export] Instance exn_kind_eq_dec : EqDecision exn_kind.
Proof. solve_decision. Defined.

(** An exception value: its class and [str(e)]. *)
Record exn := PyExn { exn_class : exn_kind; exn_msg : string }.

(** ** The result of fallible code *)

Inductive res (A : Type) : Type :=
  | Ok (a : A)
  | Err (e : exn).
Arguments Ok {A} a.
Arguments Err {A} e.

#[export] Instance res_ret : MRet res := λ A a, Ok a.
#[export] Instance res_bind : MBind res :=
  λ A B f m, match m with Ok a => f a | Err e => Err e end.

(** [raise K(msg)] *)
Definition raise {A} (k : exn_kind) (msg : string) : res A := Err (PyExn k msg).

(** [try: m  except Exception as e: h(e)] *)
Definition py_try {A} (m : res A) (h : exn → res A) : res A :=
  match m with Ok a => Ok a | Err e => h e end.

(** [try: m  except Exception as e: raise ValueError(f"<prefix>{e}")] *)
Definition reraise_value {A} (prefix : string) (m : res A) : res A :=
  py_try m (λ e, raise ValueError (prefix +:+ exn_msg e)).

Definition is_ok {A} (m : res A) : bool :=
  match m with Ok _ => true | Err _ => false end.

Notation "'raise!' k msg" := (raise k msg) (at level 10, k at level 9, msg at level 9) : py_scope.

(** ** Shared lemmas and automation *)

Create HintDb pyrt discriminated.
Create Rewrite HintDb pyrt_rw.

Section ResLemmas.
Context {A B : Type}.

Lemma bind_Ok (a : A) (f : A → res B) : (x ← Ok a; f x) = f a.
Proof. reflexivity. Qed.

Lemma bind_Err (e : exn) (f : A → res B) : (x ← Err e; f x) = Err e.
Proof. reflexivity. Qed.

Lemma bind_eq_Ok (m : res A) (f : A → res B) (b : B) :
  (x ← m; f x) = Ok b ↔ ∃ a, m = Ok a ∧ f a = Ok b.
Proof.
  destruct m as [a|e]; cbn; split.
  - eauto.
  - intros (a' & [= ->] & H); exact H.
  - discriminate.
  - intros (a' & H & _); discriminate.
Qed.

Lemma bind_eq_Err (m : res A) (f : A → res B) (e : exn) :
  (x ← m; f x) = Err e ↔ m = Err e ∨ ∃ a, m = Ok a ∧ f a = Err e.
Proof.
  destruct m as [a|e']; cbn; split.
  - eauto.
  - intros [H | (a' & [= ->] & H)]; [discriminate | exact H].
  - intros [= ->]; auto.
  - intros [[= ->] | (a' & H & _)]; [done | discriminate].
Qed.

Lemma mapM_Ok_Forall2 (f : A → res B) (l : list A) (l' : list B) :
  mapM f l = Ok l' ↔ Forall2 (λ x y, f x = Ok y) l l'.
Proof.
  revert l'; induction l as [|x l IH]; intros l'; cbn.
  - split; [intros [= <-]; constructor | intros H; inversion H; done].
  - destruct (f x) as [y|e] eqn:Hf; cbn.
    + destruct (mapM f l) as [ys|e] eqn:Hm; cbn.
      * split.
        -- intros [= <-]. constructor; [done | by apply IH].
        -- intros H; inversion H as [|? y' ? ys' Hy Hys]; subst.
           rewrite Hf in Hy; injection Hy as <-.
           apply IH in Hys; injection Hys as <-; done.
      * split; [discriminate|].
        intros H; inversion H as [|? y' ? ys' Hy Hys]; subst.
        apply IH in Hys; discriminate.
    + split; [discriminate|].
      intros H; inversion H as [|? y' ? ys' Hy Hys]; subst; congruence.
Qed.

Lemma mapM_Ok_length (f : A → res B) (l : list A) (l' : list B) :
  mapM f l = Ok l' → length l' = length l.
Proof. intros H%mapM_Ok_Forall2. symmetry. by eapply Forall2_length. Qed.

Lemma mapM_Ok_map (f : A → res B) (g : A → B) (l : list A) :
  (∀ x, x ∈ l → f x = Ok (g x)) → mapM f l = Ok (map g l).
Proof.
  intros H. apply mapM_Ok_Forall2. induction l as [|x l IH]; constructor.
  - apply H. by left.
  - apply IH. intros y Hy. apply H. by right.
Qed.

Lemma mapM_Err_inv (f : A → res B) (l : list A) (e : exn) :
  mapM f l = Err e → ∃ x, x ∈ l ∧ f x = Err e.
Proof.
  induction l as [|x l IH]; cbn; [discriminate|].
  destruct (f x) eqn:Hf; cbn.
  - destruct (mapM f l); cbn; [discriminate|]. intros [= ->].
    destruct (IH eq_refl) as (x' & Hx' & He). exists x'. split; [by right|done].
  - intros [= ->]. exists x. split; [by left|done].
Qed.

Lemma mapM_elem_Ok (f : A → res B) (l : list A) (l' : list B) (x : A) :
  mapM f l = Ok l' → x ∈ l → ∃ y, f x = Ok y.
Proof.
  intros H%mapM_Ok_Forall2 Hx. apply list_elem_of_lookup in Hx as [i Hi].
  destruct (Forall2_lookup_l _ _ _ _ _ H Hi) as (y & _ & Hy). eauto.
Qed.

Lemma mapM_Err_iff (f : A → res B) (l : list A) :
  (∃ e, mapM f l = Err e) ↔ ∃ x e, x ∈ l ∧ f x = Err e.
Proof.
  split.
  - intros [e (x & Hx & He)%mapM_Err_inv]. eauto.
  - intros (x & e & Hx & He). destruct (mapM f l) as [l'|e'] eqn:Hm; [|eauto].
    destruct (mapM_elem_Ok _ _ _ _ Hm Hx) as [y Hy]. congruence.
Qed.

Lemma mapM_Ok_post (f : A → res B) (Q : B → Prop) (l : list A) (l' : list B) :
  Forall (λ x, ∀ y, f x = Ok y → Q y) l → mapM f l = Ok l' → Forall Q l'.
Proof.
  intros Hl Hm%mapM_Ok_Forall2. induction Hm as [|x y l l' Hxy _ IH]; [constructor|].
  inversion Hl; subst. constructor; eauto.
Qed.

(** A map whose every element keeps an image under [g] keeps the images
    of the whole list. *)
Lemma mapM_Ok_map_eq {C} (f : A → res B) (g : B → C) (h : A → C) (l : list A) (l' : list B) :
  Forall (λ x, ∀ y, f x = Ok y → g y = h x) l → mapM f l = Ok l' → map g l' = map h l.
Proof.
  intros Hl Hm%mapM_Ok_Forall2. induction Hm as [|x y l l' Hxy _ IH]; [done|].
  inversion Hl; subst. cbn. f_equal; eauto.
Qed.

Lemma mapM_total (f : A → res B) (l : list A) :
  Forall (λ x, ∃ y, f x = Ok y) l → ∃ l', mapM f l = Ok l'.
Proof.
  induction 1 as [|x l [y Hy] _ [l' Hl']]; [by exists []|].
  exists (y :: l'). cbn. by rewrite Hy, Hl'.
Qed.

Lemma reraise_value_Ok (p : string) (m : res A) (a : A) :
  reraise_value p m = Ok a ↔ m = Ok a.
Proof. unfold reraise_value, py_try, raise. destruct m; split; congruence. Qed.

Lemma reraise_value_Err (p : string) (m : res A) (e : exn) :
  reraise_value p m = Err e →
  exn_class e = ValueError ∧ ∃ s, exn_msg e = p +:+ s.
Proof. destruct m as [a|e']; cbn; [discriminate|]. intros [= <-]. cbn; eauto. Qed.
End ResLemmas.

#[export] Hint Rewrite @bind_Ok @bind_Err : pyrt_rw.
#[export] Hint Resolve mapM_Ok_length : pyrt.

Lemma existsb_false_Forall {A} (f : A → bool) (l : list A) :
  existsb f l = false ↔ Forall (λ x, f x = false) l.
Proof.
  induction l as [|x l IH]; cbn; [split; [constructor|done]|].
  split.
  - destruct (f x) eqn:Hx; cbn; [discriminate|]. intros H%IH. by constructor.
  - intros H; inversion H; subst. match goal with H : f x = _ |- _ => rewrite H end.
    cbn. by apply IH.
Qed.

Lemma forallb_Forall {A} (f : A → bool) (l : list A) :
  forallb f l = true ↔ Forall (λ x, f x = true) l.
Proof.
  induction l as [|x l IH]; cbn; [split; [constructor|done]|].
  split.
  - destruct (f x) eqn:Hx; cbn; [|discriminate]. intros H%IH. by constructor.
  - intros H; inversion H; subst. match goal with H : f x = _ |- _ => rewrite H end.
    cbn. by apply IH.
Qed.

(** Case analysis on every [x ← m; k] that a hypothesis says succeeded. *)
Ltac inv_res :=
  repeat match goal with
  | H : mbind _ ?m = Ok _ |- _ =>
      apply bind_eq_Ok in H as (? & ? & H)
  | H : Ok _ = Ok _ |- _ => injection H as H
  | H : mret _ = Ok _ |- _ => injection H as H
  | H : mret _ = Err _ |- _ => discriminate H
  | H : Err _ = Ok _ |- _ => discriminate H
  | H : Ok _ = Err _ |- _ => discriminate H
  end.

(** ** Counting, as [np.sum(a == i)] does *)

(** [np.sum(a == i)] for an integer array [a]. *)
Definition count_eq (i : nat) (l : list nat) : nat :=
  length (filter (λ x, x = i) l).

Lemma count_eq_cons (i x : nat) (l : list nat) :
  count_eq i (x :: l) = (if decide (x = i) then 1 else 0) + count_eq i l.
Proof. unfold count_eq. rewrite filter_cons. case_decide; done. Qed.

Lemma count_eq_nil (i : nat) : count_eq i [] = 0.
Proof. done. Qed.

#[export] Hint Rewrite count_eq_cons count_eq_nil : pyrt_rw.

(** The indicator of [y] summed over a duplicate-free list [L]. *)
Lemma sum_indicator {B} `{EqDecision B} (L : list B) (y : B) :
  NoDup L →
  sum_list (map (λ b, if decide (y = b) then 1 else 0) L) = if decide (y ∈ L) then 1 else 0.
Proof.
  induction 1 as [|b L Hb HL IH]; [done|]. cbn. rewrite IH.
  repeat case_decide; subst; try set_solver; lia.
Qed.

(** Counting the elements of [xs] by their image under [f] over a
    duplicate-free [L] that holds every image counts [xs]. *)
Lemma sum_filter_partition {A B} `{EqDecision B} (f : A → B) (L : list B) (xs : list A) :
  NoDup L → (∀ x, x ∈ xs → f x ∈ L) →
  sum_list (map (λ b, length (filter (λ x, f x = b) xs)) L) = length xs.
Proof.
  intros HL. induction xs as [|x xs IH]; intros Hin.
  - induction L as [|b L IHL]; [done|]. cbn in *. inversion HL; subst.
    rewrite IHL; [done|done|]. intros ? Hx. by apply elem_of_nil in Hx.
  - transitivity (sum_list (map (λ b, if decide (f x = b) then 1 else 0) L)
                  + sum_list (map (λ b, length (filter (λ x, f x = b) xs)) L)).
    + clear IH Hin. induction L as [|b L IHL]; [done|]. cbn -[filter] in *.
      inversion HL; subst. rewrite filter_cons. rewrite IHL by done. case_decide; cbn; lia.
    + rewrite sum_indicator, IH by (done || set_solver). cbn.
      case_decide as Hx; [lia|]. exfalso. apply Hx, Hin. set_solver.
Qed.

Lemma sum_count_eq_all (k : nat) (l : list nat) :
  Forall (λ x, x < k) l →
  sum_list (map (λ i, count_eq i l) (seq 0 k)) = length l.
Proof.
  intros H. apply (sum_filter_partition id); [apply NoDup_seq|].
  intros x Hx. rewrite elem_of_seq. rewrite Forall_forall in H.
  specialize (H x Hx). unfold id. lia.
Qed.
