(* ===== verification/Base64.v ===== *)
(** [base64.b64encode], which [predict] applies to the PNG bytes of the
    confusion-matrix plot (src/model_handler.py line 258).
    [base64.b64encode(s)] is [binascii.b2a_base64(s, newline=False)], and
    [b2a_base64] is the loop of CPython's Modules/binascii.c, translated
    with its state: [leftchar] is a C [unsigned int] (its wrap-around at
    2^32 written out), [leftbits] the number of pending bits:

      for ( ; bin_len > 0 ; bin_len--, bin_data++ ) {
          leftchar = (leftchar << 8) | *bin_data;
          leftbits += 8;
          while ( leftbits >= 6 ) {
              this_ch = (leftchar >> (leftbits-6)) & 0x3f;
              leftbits -= 6;
              *ascii_data++ = table_b2a_base64[this_ch];
          }
      }
      if ( leftbits == 2 ) { table[(leftchar&3) << 4], '=', '=' }
      else if ( leftbits == 4 ) { table[(leftchar&0xf) << 2], '=' }
      if (newline) *ascii_data++ = '\n';

    Bytes are Stdlib's [byte], so every value lies in [0, 256) by its
    type.  The reference is RFC 4648, section 4: each 24-bit group as four
    6-bit indices, a final group of one or two bytes padded with [=].
    The theorems: the loop computes the RFC encoding (the wrap of
    [leftchar] never reaches an output bit), the RFC decoder inverts it,
    the output has [4 * ceil(n / 3)] bytes, all of them ASCII. *)

From stdpp Require Import base list.
From Stdlib Require Import ZArith Lia Strings.Byte String.
From S2P Require Import Prelude.

Local Open Scope Z_scope.

(** ** Bytes *)

#[export] Instance byte_eq_dec : EqDecision byte := Byte.byte_eq_dec.

Definition byte_val (b : byte) : Z := Z.of_N (Byte.to_N b).
Arguments byte_val : simpl never.

(** A value in [0, 256) as a byte. *)
Definition byte_of (v : Z) : option byte := Byte.of_N (Z.to_N v).
Arguments byte_of : simpl never.

(** ** [binascii.b2a_base64] *)

(** [unsigned int leftchar]: 32 bits. *)
Definition UINT_MAX : Z := 2 ^ 32 - 1.

Definition table_b2a_base64 : list byte :=
  list_byte_of_string "ABCDEFGHIJKLMNOPQRSTUVWXYZabcdefghijklmnopqrstuvwxyz0123456789+/".

(** [BASE64_PAD], the character [=]. *)
Definition BASE64_PAD : byte := x3d.

(** [table_b2a_base64[i]] *)
Definition table (i : Z) : byte := nth (Z.to_nat i) table_b2a_base64 x00.
Arguments table : simpl never.

(** The state of the loop. *)
Record b2a_state := B2a { leftchar : Z; leftbits : Z; ascii_data : list byte }.

(** [while ( leftbits >= 6 ) {...}]; each round takes 6 bits, so
    [leftbits] rounds are more than enough fuel. *)
Fixpoint drain (fuel : nat) (s : b2a_state) : b2a_state :=
  match fuel with
  | O => s
  | S fuel' =>
      if decide (6 <= leftbits s) then
        let this_ch := Z.land (Z.shiftr (leftchar s) (leftbits s - 6)) 63 in
        drain fuel' (B2a (leftchar s) (leftbits s - 6) (ascii_data s ++ [table this_ch]))
      else s
  end.

(** One round of the [for] loop: shift the byte in, then drain. *)
Definition b2a_byte (s : b2a_state) (b : byte) : b2a_state :=
  let lc := Z.land (Z.lor (Z.shiftl (leftchar s) 8) (byte_val b)) UINT_MAX in
  let lb := leftbits s + 8 in
  drain (Z.to_nat lb) (B2a lc lb (ascii_data s)).

(** After the loop: the last 2 or 4 bits and the padding. *)
Definition b2a_tail (s : b2a_state) : list byte :=
  if decide (leftbits s = 2) then
    ascii_data s ++ [table (Z.shiftl (Z.land (leftchar s) 3) 4); BASE64_PAD; BASE64_PAD]
  else if decide (leftbits s = 4) then
    ascii_data s ++ [table (Z.shiftl (Z.land (leftchar s) 15) 2); BASE64_PAD]
  else ascii_data s.

Definition b2a_base64 (data : list byte) (newline : bool) : list byte :=
  let out := b2a_tail (foldl b2a_byte (B2a 0 0 []) data) in
  if newline then out ++ [x0a] else out.

(** [base64.b64encode(s)] *)
Definition b64encode (s : list byte) : list byte := b2a_base64 s false.

(** ** RFC 4648, section 4 *)

(** The [k]-th 6-bit index of a 24-bit group [n], from the left. *)
Definition sextet (n : Z) (k : Z) : Z := n / 2 ^ (18 - 6 * k) mod 64.

Fixpoint rfc4648_encode (bs : list byte) : list byte :=
  match bs with
  | b0 :: b1 :: b2 :: rest =>
      let n := byte_val b0 * 2 ^ 16 + byte_val b1 * 2 ^ 8 + byte_val b2 in
      [table (sextet n 0); table (sextet n 1); table (sextet n 2); table (sextet n 3)] ++
      rfc4648_encode rest
  | [b0; b1] =>
      let n := byte_val b0 * 2 ^ 16 + byte_val b1 * 2 ^ 8 in
      [table (sextet n 0); table (sextet n 1); table (sextet n 2); BASE64_PAD]
  | [b0] =>
      let n := byte_val b0 * 2 ^ 16 in
      [table (sextet n 0); table (sextet n 1); BASE64_PAD; BASE64_PAD]
  | [] => []
  end.

(** The index of a character of the alphabet. *)
Definition b64_index (c : byte) : option Z :=
  let n := byte_val c in
  if decide (65 <= n <= 90) then Some (n - 65)
  else if decide (97 <= n <= 122) then Some (n - 71)
  else if decide (48 <= n <= 57) then Some (n + 4)
  else if decide (n = 43) then Some 62
  else if decide (n = 47) then Some 63
  else None.

(** The bytes of a group of four indices, the last [3 - k] of them being
    padding. *)
Definition group_bytes (v0 v1 v2 v3 : Z) (k : nat) : option (list byte) :=
  let n := v0 * 2 ^ 18 + v1 * 2 ^ 12 + v2 * 2 ^ 6 + v3 in
  mapM byte_of (take k [n / 2 ^ 16; n / 2 ^ 8 mod 256; n mod 256]).

Fixpoint rfc4648_decode (cs : list byte) : option (list byte) :=
  match cs with
  | [] => Some []
  | c0 :: c1 :: c2 :: c3 :: rest =>
      v0 ← b64_index c0; v1 ← b64_index c1;
      if decide (c3 = BASE64_PAD) then
        if decide (rest = []) then
          if decide (c2 = BASE64_PAD) then group_bytes v0 v1 0 0 1
          else v2 ← b64_index c2; group_bytes v0 v1 v2 0 2
        else None
      else
        v2 ← b64_index c2; v3 ← b64_index c3;
        g ← group_bytes v0 v1 v2 v3 3;
        r ← rfc4648_decode rest; Some (g ++ r)
  | _ => None
  end.

(** ** Arithmetic of the loop *)

Lemma byte_val_range (b : byte) : 0 <= byte_val b < 256.
Proof. unfold byte_val. pose proof (Byte.to_N_bounded b). lia. Qed.

Lemma byte_of_val (b : byte) : byte_of (byte_val b) = Some b.
Proof. unfold byte_of, byte_val. rewrite N2Z.id. apply Byte.of_to_N. Qed.

(** Shifting a byte in is [x * 256 + b]. *)
Lemma lor_shiftl8 (x b : Z) : 0 <= b < 256 → Z.lor (Z.shiftl x 8) b = x * 256 + b.
Proof.
  intros Hb. rewrite Z.shiftl_mul_pow2 by lia.
  assert (Hd : Z.land (x * 2 ^ 8) b = 0).
  { apply Z.bits_inj'. intros i Hi. rewrite Z.land_spec, Z.bits_0.
    destruct (Z.lt_ge_cases i 8).
    - by rewrite Z.mul_pow2_bits_low by lia.
    - rewrite <- (Z.mod_small b (2 ^ 8)) by lia.
      rewrite Z.mod_pow2_bits_high by lia. apply andb_false_r. }
  rewrite <- Z.lxor_lor, <- Z.add_nocarry_lxor by done. lia.
Qed.

Lemma land_ones_mod (a n : Z) : 0 <= n → Z.land a (2 ^ n - 1) = a mod 2 ^ n.
Proof. intros Hn. rewrite <- Z.land_ones by done. f_equal. rewrite Z.ones_equiv. lia. Qed.

Lemma land_63 (a : Z) : Z.land a 63 = a mod 64.
Proof. exact (land_ones_mod a 6 ltac:(lia)). Qed.
Lemma land_15 (a : Z) : Z.land a 15 = a mod 16.
Proof. exact (land_ones_mod a 4 ltac:(lia)). Qed.
Lemma land_3 (a : Z) : Z.land a 3 = a mod 4.
Proof. exact (land_ones_mod a 2 ltac:(lia)). Qed.
Lemma land_uint (a : Z) : Z.land a UINT_MAX = a mod 2 ^ 32.
Proof. exact (land_ones_mod a 32 ltac:(lia)). Qed.

(** [leftchar] after a byte is shifted in. *)
Definition shift_in (x : Z) (b : byte) : Z := Z.land (Z.lor (Z.shiftl x 8) (byte_val b)) UINT_MAX.

Create Rewrite HintDb b64_arith.
#[export] Hint Rewrite land_63 land_15 land_3 land_uint : b64_arith.

(** The bit operations of the loop as arithmetic, then [lia]. *)
Ltac b64_arith :=
  unfold sextet, shift_in;
  repeat (rewrite lor_shiftl8 by apply byte_val_range);
  autorewrite with b64_arith;
  rewrite ?Z.shiftr_div_pow2, ?Z.shiftl_mul_pow2 by lia;
  repeat match goal with
         | |- context [byte_val ?b] => pose proof (byte_val_range b); generalize dependent (byte_val b); intros
         end;
  Z.div_mod_to_equations; lia.

(** ** The loop, byte by byte *)

Lemma b2a_byte_0 (x : Z) (out : list byte) (b : byte) :
  b2a_byte (B2a x 0 out) b =
  B2a (shift_in x b) 2 (out ++ [table (Z.land (Z.shiftr (shift_in x b) 2) 63)]).
Proof. reflexivity. Qed.

Lemma b2a_byte_2 (x : Z) (out : list byte) (b : byte) :
  b2a_byte (B2a x 2 out) b =
  B2a (shift_in x b) 4 (out ++ [table (Z.land (Z.shiftr (shift_in x b) 4) 63)]).
Proof. reflexivity. Qed.

Lemma b2a_byte_4 (x : Z) (out : list byte) (b : byte) :
  b2a_byte (B2a x 4 out) b =
  B2a (shift_in x b) 0
    (out ++ [table (Z.land (Z.shiftr (shift_in x b) 6) 63); table (Z.land (Z.shiftr (shift_in x b) 0) 63)]).
Proof. unfold b2a_byte. simpl. by rewrite <- app_assoc. Qed.

(** Induction three bytes at a time, as [rfc4648_encode] recurses. *)
Lemma list_ind3 {A} (P : list A → Prop) :
  P [] → (∀ a, P [a]) → (∀ a b, P [a; b]) → (∀ a b c l, P l → P (a :: b :: c :: l)) →
  ∀ l, P l.
Proof.
  intros H0 H1 H2 H3 l.
  assert (H : P l ∧ (∀ a, P (a :: l)) ∧ (∀ a b, P (a :: b :: l))).
  { induction l as [|x l (IH0 & IH1 & IH2)]; split_and!; auto. }
  apply H.
Qed.

(** From any [leftchar] with no pending bits, the loop and its tail
    append the RFC encoding. *)
Lemma b2a_loop (bs : list byte) (x : Z) (out : list byte) :
  b2a_tail (foldl b2a_byte (B2a x 0 out) bs) = out ++ rfc4648_encode bs.
Proof.
  revert x out. induction bs as [|b0|b0 b1|b0 b1 b2 rest IH] using list_ind3; intros x out.
  - by rewrite app_nil_r.
  - cbn [foldl]. rewrite b2a_byte_0. unfold b2a_tail. simpl.
    rewrite <- app_assoc. f_equal. simpl. repeat f_equal; b64_arith.
  - cbn [foldl]. rewrite b2a_byte_0, b2a_byte_2. unfold b2a_tail. simpl.
    rewrite <- !app_assoc. f_equal. simpl. repeat f_equal; b64_arith.
  - cbn [foldl]. rewrite b2a_byte_0, b2a_byte_2, b2a_byte_4, IH.
    rewrite <- !app_assoc. f_equal. simpl. repeat f_equal; b64_arith.
Qed.

Lemma b64encode_rfc (bs : list byte) : b64encode bs = rfc4648_encode bs.
Proof. unfold b64encode, b2a_base64. by rewrite (b2a_loop bs 0 []). Qed.

(** C27: [binascii.b2a_base64] computes the RFC 4648 encoding: the
    byte-at-a-time loop over [leftchar] and [leftbits] emits, for every
    input, the four characters of each 24-bit group and the padded final
    group, followed by a newline when asked; the wrap-around of the
    32-bit [leftchar] never reaches an output character. *)
Theorem b2a_base64_rfc4648 (bs : list byte) (newline : bool) :
  b2a_base64 bs newline = rfc4648_encode bs ++ (if newline then [x0a] else []).
Proof.
  unfold b2a_base64. rewrite (b2a_loop bs 0 []).
  destruct newline; [done|]. by rewrite app_nil_r.
Qed.

(** ** Decoding *)

Lemma table_index_all :
  forallb (λ v, bool_decide (b64_index (table v) = Some v)) (map Z.of_nat (seq 0 64)) = true.
Proof. vm_compute. reflexivity. Qed.

Lemma table_index (v : Z) : 0 <= v < 64 → b64_index (table v) = Some v.
Proof.
  intros Hv. apply (bool_decide_eq_true_1 _), (proj1 (forallb_forall _ _) table_index_all).
  apply in_map_iff. exists (Z.to_nat v). split; [lia|]. apply in_seq. lia.
Qed.

Lemma sextet_range (n k : Z) : 0 <= sextet n k < 64.
Proof. apply Z.mod_pos_bound. lia. Qed.

Lemma table_sextet_index (n k : Z) : b64_index (table (sextet n k)) = Some (sextet n k).
Proof. apply table_index, sextet_range. Qed.

Lemma table_not_pad (n k : Z) : table (sextet n k) ≠ BASE64_PAD.
Proof. intros E. pose proof (table_sextet_index n k) as Hi. rewrite E in Hi. discriminate. Qed.

Lemma group_bytes_3 (b0 b1 b2 : byte) :
  let n := byte_val b0 * 2 ^ 16 + byte_val b1 * 2 ^ 8 + byte_val b2 in
  group_bytes (sextet n 0) (sextet n 1) (sextet n 2) (sextet n 3) 3 = Some [b0; b1; b2].
Proof.
  cbn zeta. unfold group_bytes. cbn zeta.
  assert (E0 : ∀ n, n = byte_val b0 * 2 ^ 16 + byte_val b1 * 2 ^ 8 + byte_val b2 →
            (sextet n 0 * 2 ^ 18 + sextet n 1 * 2 ^ 12 + sextet n 2 * 2 ^ 6 + sextet n 3) = n)
    by (intros n ->; b64_arith).
  rewrite E0 by done. simpl.
  replace ((byte_val b0 * 2 ^ 16 + byte_val b1 * 2 ^ 8 + byte_val b2) / 2 ^ 16) with (byte_val b0) by b64_arith.
  replace ((byte_val b0 * 2 ^ 16 + byte_val b1 * 2 ^ 8 + byte_val b2) / 2 ^ 8 mod 256) with (byte_val b1) by b64_arith.
  replace ((byte_val b0 * 2 ^ 16 + byte_val b1 * 2 ^ 8 + byte_val b2) mod 256) with (byte_val b2) by b64_arith.
  by rewrite !byte_of_val.
Qed.

Lemma group_bytes_2 (b0 b1 : byte) :
  let n := byte_val b0 * 2 ^ 16 + byte_val b1 * 2 ^ 8 in
  group_bytes (sextet n 0) (sextet n 1) (sextet n 2) 0 2 = Some [b0; b1].
Proof.
  cbn zeta. unfold group_bytes. cbn zeta. simpl.
  replace ((sextet (byte_val b0 * 2 ^ 16 + byte_val b1 * 2 ^ 8) 0 * 2 ^ 18 +
            sextet (byte_val b0 * 2 ^ 16 + byte_val b1 * 2 ^ 8) 1 * 2 ^ 12 +
            sextet (byte_val b0 * 2 ^ 16 + byte_val b1 * 2 ^ 8) 2 * 2 ^ 6 + 0) / 2 ^ 16)
    with (byte_val b0) by b64_arith.
  replace ((sextet (byte_val b0 * 2 ^ 16 + byte_val b1 * 2 ^ 8) 0 * 2 ^ 18 +
            sextet (byte_val b0 * 2 ^ 16 + byte_val b1 * 2 ^ 8) 1 * 2 ^ 12 +
            sextet (byte_val b0 * 2 ^ 16 + byte_val b1 * 2 ^ 8) 2 * 2 ^ 6 + 0) / 2 ^ 8 mod 256)
    with (byte_val b1) by b64_arith.
  by rewrite !byte_of_val.
Qed.

Lemma group_bytes_1 (b0 : byte) :
  let n := byte_val b0 * 2 ^ 16 in
  group_bytes (sextet n 0) (sextet n 1) 0 0 1 = Some [b0].
Proof.
  cbn zeta. unfold group_bytes. cbn zeta. simpl.
  replace ((sextet (byte_val b0 * 2 ^ 16) 0 * 2 ^ 18 + sextet (byte_val b0 * 2 ^ 16) 1 * 2 ^ 12 +
            0 * 2 ^ 6 + 0) / 2 ^ 16) with (byte_val b0) by b64_arith.
  by rewrite byte_of_val.
Qed.

Lemma rfc4648_roundtrip (bs : list byte) : rfc4648_decode (rfc4648_encode bs) = Some bs.
Proof.
  induction bs as [|b0|b0 b1|b0 b1 b2 rest IH] using list_ind3; [done|..].
  - cbn [rfc4648_encode rfc4648_decode]. rewrite !table_sextet_index. simpl.
    apply group_bytes_1.
  - cbn [rfc4648_encode rfc4648_decode]. rewrite !table_sextet_index. simpl.
    rewrite decide_False by apply table_not_pad.
    simpl. apply group_bytes_2.
  - cbn [rfc4648_encode app rfc4648_decode]. rewrite !table_sextet_index. simpl.
    rewrite decide_False by apply table_not_pad. simpl.
    rewrite group_bytes_3. simpl. by rewrite IH.
Qed.

Lemma b64encode_decode (bs : list byte) : rfc4648_decode (b64encode bs) = Some bs.
Proof. rewrite b64encode_rfc. apply rfc4648_roundtrip. Qed.

(** ** Shape of the output *)

Lemma table_ascii_all : forallb (λ c, bool_decide (byte_val c < 128)) table_b2a_base64 = true.
Proof. vm_compute. reflexivity. Qed.

Lemma table_ascii (i : Z) : byte_val (table i) < 128.
Proof.
  unfold table. destruct (nth_in_or_default (Z.to_nat i) table_b2a_base64 x00) as [Hin|Hd].
  - exact (bool_decide_eq_true_1 _ (proj1 (forallb_forall _ _) table_ascii_all _ Hin)).
  - rewrite Hd. by vm_compute.
Qed.

Lemma pad_ascii : byte_val BASE64_PAD < 128.
Proof. by vm_compute. Qed.

Lemma rfc4648_ascii (bs : list byte) : Forall (λ c, byte_val c < 128) (rfc4648_encode bs).
Proof.
  induction bs as [|b0|b0 b1|b0 b1 b2 rest IH] using list_ind3; cbn [rfc4648_encode app];
    repeat (apply List.Forall_cons; [first [apply table_ascii | apply pad_ascii]|]);
    first [apply List.Forall_nil | exact IH].
Qed.

Lemma rfc4648_length (bs : list byte) :
  List.length (rfc4648_encode bs) = (4 * ((List.length bs + 2) / 3))%nat.
Proof.
  induction bs as [|b0|b0 b1|b0 b1 b2 rest IH] using list_ind3; [done..|].
  cbn [rfc4648_encode]. rewrite length_app, IH. cbn [List.length].
  assert (E : ((S (S (S (List.length rest))) + 2) / 3 = (List.length rest + 2) / 3 + 1)%nat).
  { replace (S (S (S (List.length rest))) + 2)%nat with (List.length rest + 2 + 1 * 3)%nat by lia.
    apply Nat.div_add. lia. }
  rewrite E. lia.
Qed.

Lemma b64encode_ascii (bs : list byte) : Forall (λ c, byte_val c < 128) (b64encode bs).
Proof. rewrite b64encode_rfc. apply rfc4648_ascii. Qed.

Lemma b64encode_length (bs : list byte) :
  List.length (b64encode bs) = (4 * ((List.length bs + 2) / 3))%nat.
Proof. rewrite b64encode_rfc. apply rfc4648_length. Qed.
