(* ===== verification/Utf8.v ===== *)
(** [bytes.decode('utf-8')], which [predict] applies to the base64 text
    of the plot (src/model_handler.py line 258).  The decoder is CPython's
    strict UTF-8 decoder (Objects/stringlib/codecs.h, [utf8_decode], and
    the error cases of Objects/unicodeobject.c): a sequence is classified
    from its first byte, an invalid first byte is "invalid start byte", a
    bad continuation byte (including the overlong [E0 80..9F], surrogate
    [ED A0..BF], [F0 80..8F] and [F4 90..BF] cases) is "invalid
    continuation byte" ending after the bytes read so far, and input that
    stops inside a sequence is "unexpected end of data" ending at the end
    of the input.  [str(e)] is formatted as [UnicodeDecodeError.__str__]
    does.  The decoded [str] is a list of code points.

    The loop takes the length of the input as fuel, which is enough
    ([utf8_go_fuel]).  The theorem: bytes below 128 decode to themselves,
    so the decode of the base64 text never raises. *)

From stdpp Require Import base list strings decidable pretty.
From Stdlib Require Import ZArith Lia Strings.Byte Ascii.
From S2P Require Import Prelude Base64.

Local Open Scope Z_scope.

(** A byte [0x80-0xBF]. *)
Definition is_cont (c : Z) : bool := (128 <=? c) && (c <=? 191).

(** What the decoder finds at a position: a code point and its length,
    or the error code [ch] of codecs.h (1 for [InvalidStart], [k + 1]
    for [InvalidContinuation_k], 0 for the end of the data). *)
Inductive utf8_seq :=
  | Decoded (cp : Z) (len : nat)
  | InvalidStart
  | InvalidContinuation (k : nat)
  | UnexpectedEnd.

Definition decode_seq (ch : Z) (rest : list Z) : utf8_seq :=
  if ch <? 0x80 then Decoded ch 1
  else if ch <? 0xE0 then
    if ch <? 0xC2 then InvalidStart else
    match rest with
    | [] => UnexpectedEnd
    | ch2 :: _ =>
        if is_cont ch2 then Decoded (Z.lor (Z.shiftl (Z.land ch 31) 6) (Z.land ch2 63)) 2
        else InvalidContinuation 1
    end
  else if ch <? 0xF0 then
    let bad2 ch2 := negb (is_cont ch2) || (if ch2 <? 0xA0 then ch =? 0xE0 else ch =? 0xED) in
    match rest with
    | [] => UnexpectedEnd
    | [ch2] => if bad2 ch2 then InvalidContinuation 1 else UnexpectedEnd
    | ch2 :: ch3 :: _ =>
        if bad2 ch2 then InvalidContinuation 1
        else if negb (is_cont ch3) then InvalidContinuation 2
        else Decoded (Z.lor (Z.lor (Z.shiftl (Z.land ch 15) 12) (Z.shiftl (Z.land ch2 63) 6))
                            (Z.land ch3 63)) 3
    end
  else if ch <? 0xF5 then
    let bad2 ch2 := negb (is_cont ch2) || (if ch2 <? 0x90 then ch =? 0xF0 else ch =? 0xF4) in
    match rest with
    | [] => UnexpectedEnd
    | [ch2] => if bad2 ch2 then InvalidContinuation 1 else UnexpectedEnd
    | [ch2; ch3] =>
        if bad2 ch2 then InvalidContinuation 1
        else if negb (is_cont ch3) then InvalidContinuation 2
        else UnexpectedEnd
    | ch2 :: ch3 :: ch4 :: _ =>
        if bad2 ch2 then InvalidContinuation 1
        else if negb (is_cont ch3) then InvalidContinuation 2
        else if negb (is_cont ch4) then InvalidContinuation 3
        else Decoded (Z.lor (Z.lor (Z.lor (Z.shiftl (Z.land ch 7) 18) (Z.shiftl (Z.land ch2 63) 12))
                                   (Z.shiftl (Z.land ch3 63) 6)) (Z.land ch4 63)) 4
    end
  else InvalidStart.

(** [%02x] *)
Definition hex_digit (d : Z) : string :=
  String.String (nth (Z.to_nat d) (String.list_ascii_of_string "0123456789abcdef") "0"%char) EmptyString.

Definition hex2 (b : Z) : string := hex_digit (b / 16) +:+ hex_digit (b mod 16).

(** [str(UnicodeDecodeError('utf-8', data, start, end, reason))] *)
Definition decode_error (data : list Z) (start end_ : nat) (reason : string) : exn :=
  PyExn UnicodeDecodeError
    (if decide (end_ = S start) then
       "'utf-8' codec can't decode byte 0x" +:+ hex2 (nth start data 0) +:+
       " in position " +:+ pretty start +:+ ": " +:+ reason
     else
       "'utf-8' codec can't decode bytes in position " +:+ pretty start +:+ "-" +:+
       pretty (end_ - 1)%nat +:+ ": " +:+ reason).

(** The decoding loop from position [pos]; every round consumes at least
    one byte, so [length data] rounds suffice. *)
Fixpoint utf8_go (fuel : nat) (data : list Z) (pos : nat) (bs : list Z) : res (list Z) :=
  match fuel, bs with
  | _, [] => Ok []
  | O, _ :: _ => Ok []
  | S fuel', ch :: rest =>
      match decode_seq ch rest with
      | Decoded cp len =>
          cps ← utf8_go fuel' data (pos + len)%nat (drop (len - 1) rest); mret (cp :: cps)
      | InvalidStart => Err (decode_error data pos (S pos) "invalid start byte")
      | InvalidContinuation k => Err (decode_error data pos (pos + k)%nat "invalid continuation byte")
      | UnexpectedEnd => Err (decode_error data pos (length data) "unexpected end of data")
      end
  end.

Definition utf8_decode (b : list byte) : res (list Z) :=
  let data := map byte_val b in utf8_go (length data) data 0 data.

(** A [str] of code points below 256 as a Rocq string. *)
Definition str_of_codepoints (cps : list Z) : string :=
  String.string_of_list_ascii (map (λ z, ascii_of_N (Z.to_N z)) cps).

(** ** CPython's messages *)

Example utf8_decode_errors :
  utf8_decode [xff] =
    Err (PyExn UnicodeDecodeError "'utf-8' codec can't decode byte 0xff in position 0: invalid start byte") ∧
  utf8_decode [x61; xe2; x82] =
    Err (PyExn UnicodeDecodeError "'utf-8' codec can't decode bytes in position 1-2: unexpected end of data") ∧
  utf8_decode [xe0; x80] =
    Err (PyExn UnicodeDecodeError "'utf-8' codec can't decode byte 0xe0 in position 0: invalid continuation byte") ∧
  utf8_decode [xe2; x82; xac] = Ok [8364].
Proof. split_and!; vm_compute; reflexivity. Qed.

(** ** Fuel *)

(** Each round consumes at least one byte, so any fuel from the length
    of the rest on gives the same result: the [length data] rounds of
    [utf8_decode] never run out. *)
Lemma utf8_go_fuel (f1 f2 : nat) (data : list Z) (pos : nat) (bs : list Z) :
  (length bs <= f1)%nat → (length bs <= f2)%nat → utf8_go f1 data pos bs = utf8_go f2 data pos bs.
Proof.
  revert f2 pos bs. induction f1 as [|f1 IH]; intros [|f2] pos [|ch rest] H1 H2; cbn in *; try (done || lia).
  destruct (decode_seq ch rest) as [cp len| | |]; [|done..].
  rewrite (IH f2); [done| |]; rewrite length_drop; lia.
Qed.

(** ** ASCII *)

Lemma utf8_go_ascii (fuel : nat) (data : list Z) (pos : nat) (bs : list Z) :
  (length bs <= fuel)%nat → Forall (λ c, 0 <= c < 128) bs → utf8_go fuel data pos bs = Ok bs.
Proof.
  revert fuel pos. induction bs as [|c bs IH]; intros [|fuel] pos Hlen Hf; [done..|by inversion Hlen|].
  apply Forall_cons_1 in Hf as [Hc Hf]. cbn [utf8_go].
  unfold decode_seq. rewrite (proj2 (Z.ltb_lt c 0x80)) by lia. cbn [Nat.sub drop].
  rewrite IH; [done| |exact Hf]. cbn in Hlen. lia.
Qed.

Lemma utf8_decode_ascii (b : list byte) :
  Forall (λ c, byte_val c < 128) b → utf8_decode b = Ok (map byte_val b).
Proof.
  intros Hf. unfold utf8_decode. apply utf8_go_ascii; [done|].
  apply Forall_forall. intros z (c & -> & Hc)%list_elem_of_fmap.
  rewrite Forall_forall in Hf. pose proof (byte_val_range c). specialize (Hf c Hc). lia.
Qed.

Lemma str_of_codepoints_bytes (b : list byte) :
  str_of_codepoints (map byte_val b) = String.string_of_list_byte b.
Proof.
  unfold str_of_codepoints, String.string_of_list_byte. f_equal. rewrite map_map.
  apply map_ext. intros c. unfold byte_val. by rewrite N2Z.id, ascii_of_byte_via_N.
Qed.
