(* ===== verification/PyScalar.v ===== *)
(** Python and NumPy scalars as [predict] and [preprocess_data] meet them:
    floats with NaN and infinities, the cells of a table read by
    [pd.read_csv], [int(val)] on such a cell (model_handler.py line 92)
    including the base-10 grammar of [int()] on strings, the width of the
    integer arrays NumPy builds from Python ints, and Python list
    indexing; [int()] reads back the text of every int. *)

From stdpp Require Import base list strings decidable pretty.
From Stdlib Require Import ZArith QArith Ascii.
From S2P Require Import Prelude.

Local Open Scope Z_scope.

(** ** Floats *)

(** A float64: finite values as exact rationals, signed infinities, NaN. *)
Inductive pyfloat :=
  | PFin (q : Q)
  | PInf (neg : bool)
  | PNaN.

(** [np.isnan] on a float. *)
Definition isnan_f (f : pyfloat) : bool :=
  match f with PNaN => true | _ => false end.

(** [int(f)] for a float: truncation toward zero; raises on NaN and
    infinities as CPython does. *)
Definition int_of_float (f : pyfloat) : res Z :=
  match f with
  | PFin q => Ok (Z.quot (Qnum q) (Zpos (Qden q)))
  | PInf _ => raise OverflowError "cannot convert float infinity to integer"
  | PNaN => raise ValueError "cannot convert float NaN to integer"
  end.

(** ** Table cells *)

(** A value of a column of a [pd.read_csv] frame: an [int64] column, a
    [float64] column (missing values are NaN there and in object columns),
    a [bool] column, or an object column holding strings. *)
Inductive cell :=
  | CInt (z : Z)
  | CFloat (f : pyfloat)
  | CBool (b : bool)
  | CStr (s : string).

(** ** [int()] on a string, base 10 *)

(** ASCII characters for which [str.isspace()] holds: tab, line feed,
    vertical tab, form feed, carriage return, the separators 0x1c-0x1f and
    space. *)
Definition is_space (c : ascii) : bool :=
  let n := nat_of_ascii c in
  ((9 <=? n) && (n <=? 13))%nat || ((28 <=? n) && (n <=? 32))%nat.

Definition is_digit (c : ascii) : bool :=
  let n := nat_of_ascii c in ((48 <=? n) && (n <=? 57))%nat.

Definition digit_val (c : ascii) : Z := Z.of_nat (nat_of_ascii c) - 48.

Fixpoint drop_space (cs : list ascii) : list ascii :=
  match cs with
  | c :: cs' => if is_space c then drop_space cs' else cs
  | [] => []
  end.

(** [s.strip()] on the ASCII whitespace above. *)
Definition strip (cs : list ascii) : list ascii :=
  rev (drop_space (rev (drop_space cs))).

(** The digits after the first one: a digit, or one underscore followed
    by a digit ([int("1_000") == 1000]; ["1__0"] and ["1_"] are invalid). *)
Fixpoint digits_from (acc : Z) (after_us : bool) (cs : list ascii) : option Z :=
  match cs with
  | [] => if after_us then None else Some acc
  | c :: cs' =>
      if is_digit c then digits_from (acc * 10 + digit_val c) false cs'
      else if (c =? "_")%char && negb after_us then digits_from acc true cs'
      else None
  end.

(** An unsigned literal starts with a digit. *)
Definition unsigned_lit (cs : list ascii) : option Z :=
  match cs with
  | c :: cs' => if is_digit c then digits_from (digit_val c) false cs' else None
  | [] => None
  end.

(** An optional sign, then the digits. *)
Definition signed_lit (cs : list ascii) : option Z :=
  match cs with
  | "-"%char :: cs => Z.opp <$> unsigned_lit cs
  | "+"%char :: cs => unsigned_lit cs
  | cs => unsigned_lit cs
  end.

(** The literal [int(s)] reads: [s] without its surrounding whitespace. *)
Definition parse_int_literal (s : string) : option Z :=
  signed_lit (strip (String.list_ascii_of_string s)).

(** [int(val)] for a cell of the label column (line 92). *)
Definition py_int (c : cell) : res Z :=
  match c with
  | CInt z => Ok z
  | CBool b => Ok (if b then 1 else 0)
  | CFloat f => int_of_float f
  | CStr s =>
      match parse_int_literal s with
      | Some z => Ok z
      | None => raise ValueError ("invalid literal for int() with base 10: '" +:+ s +:+ "'")
      end
  end.

(** ** Integer widths *)

Definition int64_min : Z := - 2 ^ 63.
Definition int64_max : Z := 2 ^ 63 - 1.
Definition uint64_max : Z := 2 ^ 64 - 1.

Definition in_int64 (z : Z) : bool := (int64_min <=? z) && (z <=? int64_max).
Definition in_uint64 (z : Z) : bool := (0 <=? z) && (z <=? uint64_max).

(** The dtype NumPy chooses for [np.array(list_of_python_ints)]: [int64]
    when every value fits, else [uint64] when every value is in
    [[0, 2^64)], else an object array. *)
Inductive int_dtype := I64 | U64 | OBJ.

#[export] Instance int_dtype_eq_dec : EqDecision int_dtype.
Proof. solve_decision. Defined.

Definition int_array_dtype (zs : list Z) : int_dtype :=
  if forallb in_int64 zs then I64
  else if forallb in_uint64 zs then U64
  else OBJ.

(** Two's-complement reinterpretation of a [uint64] as an [int64]. *)
Definition wrap64 (z : Z) : Z := if z <=? int64_max then z else z - 2 ^ 64.

(** Conversion of one element of such an array to [int64]
    ([np.array(x, dtype="int64")]): identity on [int64], two's-complement
    wrap from [uint64] (an unsafe cast), and a checked conversion of the
    Python ints of an object array. *)
Definition to_int64 (dt : int_dtype) (z : Z) : res Z :=
  match dt with
  | I64 => Ok z
  | U64 => Ok (wrap64 z)
  | OBJ => if in_int64 z then Ok z
           else raise OverflowError "Python int too large to convert to C long"
  end.

(** ** Python list indexing [l[i]] *)

Definition py_index {A} (l : list A) (i : Z) : res A :=
  let n := Z.of_nat (length l) in
  let j := if i <? 0 then i + n else i in
  if (0 <=? j) && (j <? n) then
    match l !! Z.to_nat j with
    | Some x => Ok x
    | None => raise IndexError "list index out of range"
    end
  else raise IndexError "list index out of range".

(** ** Lemmas *)

Lemma py_int_float_nan : py_int (CFloat PNaN) = raise ValueError "cannot convert float NaN to integer".
Proof. reflexivity. Qed.

Lemma py_index_nat {A} (l : list A) (i : nat) (x : A) :
  l !! i = Some x → py_index l (Z.of_nat i) = Ok x.
Proof.
  intros H. pose proof (lookup_lt_Some _ _ _ H).
  unfold py_index. rewrite (proj2 (Z.ltb_ge _ 0)) by lia.
  rewrite (proj2 (Z.leb_le 0 _)), (proj2 (Z.ltb_lt _ _)) by lia. cbn.
  by rewrite Nat2Z.id, H.
Qed.

Lemma py_index_nat_ge {A} (l : list A) (i : nat) :
  (length l ≤ i)%nat → py_index l (Z.of_nat i) = raise IndexError "list index out of range".
Proof.
  intros H. unfold py_index. rewrite (proj2 (Z.ltb_ge _ 0)) by lia.
  rewrite (proj2 (Z.ltb_ge _ _)) by lia. by rewrite andb_false_r.
Qed.

(** ** [int()] on the text of an int *)

Lemma list_ascii_of_string_app (s1 s2 : string) :
  String.list_ascii_of_string (s1 +:+ s2) = String.list_ascii_of_string s1 ++ String.list_ascii_of_string s2.
Proof. induction s1 as [|c s1 IH]; [done|]. simpl. f_equal. exact IH. Qed.

Lemma is_digit_not_space (c : ascii) : is_digit c = true → is_space c = false.
Proof.
  unfold is_digit, is_space. intros H. rewrite andb_true_iff, !Nat.leb_le in H.
  destruct (_ || _) eqn:E; [|done]. apply orb_true_iff in E.
  rewrite !andb_true_iff, !Nat.leb_le in E. lia.
Qed.

Lemma pretty_N_char_digit (d : N) :
  (d < 10)%N → is_digit (pretty_N_char d) = true ∧ digit_val (pretty_N_char d) = Z.of_N d.
Proof.
  intros Hd. assert (d = 0 ∨ d = 1 ∨ d = 2 ∨ d = 3 ∨ d = 4 ∨ d = 5 ∨ d = 6 ∨ d = 7 ∨ d = 8 ∨ d = 9)%N
    as Hc by lia.
  repeat destruct Hc as [->|Hc]; [..|subst d]; split; reflexivity.
Qed.

(** The digits [pretty] writes for [x] in front of [s], and what
    [digits_from] reads from them. *)
Lemma pretty_N_go_digits (x : N) (s : string) :
  ∃ ds, String.list_ascii_of_string (pretty_N_go x s) = ds ++ String.list_ascii_of_string s ∧
        Forall (λ c, is_digit c = true) ds ∧ (x ≠ 0%N → ds ≠ []) ∧
        ∀ acc rest, digits_from acc false (ds ++ rest) =
                    digits_from (acc * 10 ^ Z.of_nat (length ds) + Z.of_N x) false rest.
Proof.
  revert s. induction (N.lt_wf_0 x) as [x _ IH]; intros s.
  destruct (decide (x = 0%N)) as [->|Hx].
  - exists []. rewrite pretty_N_go_0. split; [done|]. split; [done|]. split; [done|].
    intros acc rest. cbn. f_equal. lia.
  - rewrite pretty_N_go_step by lia.
    destruct (pretty_N_char_digit (x `mod` 10)) as [Hd Hv]; [apply N.mod_lt; lia|].
    destruct (IH (x `div` 10)%N ltac:(apply N.div_lt; lia) (String (pretty_N_char (x `mod` 10)) s))
      as (ds & Hds & Hall & _ & Hread).
    exists (ds ++ [pretty_N_char (x `mod` 10)]). rewrite Hds, <- app_assoc. split; [done|].
    split; [apply Forall_app; auto|]. split; [by destruct ds|].
    intros acc rest. rewrite <- app_assoc, Hread. cbn [app digits_from]. rewrite Hd, Hv. cbn.
    rewrite length_app, Nat2Z.inj_add, Z.pow_add_r by lia. f_equal.
    assert (Hdm : Z.of_N x = 10 * Z.of_N (x `div` 10) + Z.of_N (x `mod` 10)).
    { rewrite (N.div_mod x 10) at 1 by lia. rewrite N2Z.inj_add, N2Z.inj_mul. reflexivity. }
    rewrite Hdm. change (Z.of_nat 1) with 1. rewrite Z.pow_1_r. lia.
Qed.

Lemma drop_space_app (sp cs : list ascii) :
  Forall (λ c, is_space c = true) sp → Forall (λ c, is_space c = false) (take 1 cs) →
  drop_space (sp ++ cs) = cs.
Proof.
  intros Hsp Hcs. induction Hsp as [|c sp Hc _ IH]; cbn [app drop_space]; [|by rewrite Hc].
  destruct cs as [|c cs]; [done|]. inversion Hcs as [|? ? Hc _]. cbn [drop_space]. by rewrite Hc.
Qed.

(** [s.strip()] removes exactly the padding around a text that starts and
    ends with non-space characters. *)
Lemma strip_pad (sp1 cs sp2 : list ascii) :
  Forall (λ c, is_space c = true) sp1 → Forall (λ c, is_space c = true) sp2 →
  Forall (λ c, is_space c = false) cs → cs ≠ [] →
  strip (sp1 ++ cs ++ sp2) = cs.
Proof.
  intros H1 H2 Hcs Hne. unfold strip. rewrite drop_space_app by (destruct cs; [done|]; inversion Hcs; cbn; auto).
  rewrite rev_app_distr, drop_space_app, rev_involutive; [done|by apply Forall_rev|].
  apply Forall_take, Forall_rev, Hcs.
Qed.

Lemma unsigned_lit_digit (c : ascii) (cs : list ascii) :
  is_digit c = true → unsigned_lit (c :: cs) = digits_from 0 false (c :: cs).
Proof. intros Hc. cbn. by rewrite Hc. Qed.

Lemma signed_lit_digit (c : ascii) (cs : list ascii) :
  is_digit c = true → signed_lit (c :: cs) = digits_from 0 false (c :: cs).
Proof.
  intros Hc. rewrite <- unsigned_lit_digit by done.
  destruct c as [[] [] [] [] [] [] [] []]; try reflexivity; discriminate.
Qed.

(** The text of a positive int is read back as that int. *)
Lemma digits_pretty_pos (p : positive) :
  ∃ c ds, String.list_ascii_of_string (pretty (Npos p)) = c :: ds ∧
          Forall (λ c, is_digit c = true) (c :: ds) ∧
          digits_from 0 false (c :: ds) = Some (Zpos p).
Proof.
  unfold pretty at 1, pretty_N. rewrite decide_False by done.
  destruct (pretty_N_go_digits (Npos p) "") as (ds & Hds & Hall & Hne & Hread).
  rewrite app_nil_r in Hds. destruct ds as [|c ds]; [by destruct Hne|].
  exists c, ds. split; [done|]. split; [done|]. rewrite <- (app_nil_r (c :: ds)), Hread. done.
Qed.

(** C29: [int(str(z)) == z] for every Python int [z], with any ASCII
    whitespace around the text: a label column read as text holding
    integers is parsed back to the same labels. *)
Theorem py_int_str_roundtrip (z : Z) (pre post : string) :
  Forall (λ c, is_space c = true) (String.list_ascii_of_string pre) →
  Forall (λ c, is_space c = true) (String.list_ascii_of_string post) →
  py_int (CStr (pre +:+ pretty z +:+ post)) = Ok z.
Proof.
  intros Hpre Hpost. unfold py_int, parse_int_literal.
  rewrite !list_ascii_of_string_app.
  assert (Hns : ∀ cs, Forall (λ c, is_digit c = true) cs → Forall (λ c, is_space c = false) cs)
    by (intros cs Hcs; eapply Forall_impl; [exact Hcs|]; apply is_digit_not_space).
  destruct z as [|p|p].
  - by rewrite strip_pad by (repeat constructor || done).
  - destruct (digits_pretty_pos p) as (c & ds & Hp & Hall & Hread).
    change (pretty (Zpos p)) with (pretty (Npos p)). rewrite Hp, strip_pad by auto.
    inversion Hall. by rewrite signed_lit_digit, Hread.
  - destruct (digits_pretty_pos p) as (c & ds & Hp & Hall & Hread).
    change (pretty (Zneg p)) with ("-" +:+ pretty (Npos p)).
    rewrite list_ascii_of_string_app, Hp, strip_pad; [|done|done| |done].
    + inversion Hall as [|? ? Hc _]. cbn [signed_lit String.list_ascii_of_string app].
      by rewrite unsigned_lit_digit, Hread.
    + apply Forall_app. split; [repeat constructor|auto].
Qed.

Lemma py_int_str_roundtrip_witness :
  Forall (λ c, is_space c = true) (String.list_ascii_of_string " ") ∧
  Forall (λ c, is_space c = true) (String.list_ascii_of_string "  ") ∧
  py_int (CStr (" " +:+ pretty (-42) +:+ "  ")) = Ok (-42).
Proof.
  assert (H1 : Forall (λ c, is_space c = true) (String.list_ascii_of_string " ")) by repeat constructor.
  assert (H2 : Forall (λ c, is_space c = true) (String.list_ascii_of_string "  ")) by repeat constructor.
  split; [exact H1|]. split; [exact H2|]. exact (py_int_str_roundtrip (-42) " " "  " H1 H2).
Defined.

