(* ===== verification/Werkzeug.v ===== *)
(** Werkzeug's [secure_filename], which the [/] route of src/app.py
    (line 40) applies to the client's file name before it joins it to the
    upload folder.  The function is translated from werkzeug/utils.py as
    it runs on a POSIX host ([os.sep = '/'], no [os.path.altsep], the
    Windows device-name branch not taken):

      filename = unicodedata.normalize("NFKD", filename)
      filename = filename.encode("ascii", "ignore").decode("ascii")
      filename = filename.replace(os.sep, " ")
      filename = str(_filename_ascii_strip_re.sub("", "_".join(filename.split()))).strip("._")

    A file name is a [str] whose code points are below 256 (Latin-1), one
    per character of a Rocq string.  NFKD on these code points is the
    table of their decompositions in UnicodeData.txt; the ASCII filter
    keeps the code points below 128.

    The theorems characterise the result: only the characters
    [A-Za-z0-9_.-], neither end a dot or an underscore, a fixed point of
    the function, the letters, digits and dashes of the normalised name
    kept in order and nothing else of that kind, and so empty exactly
    when no character of the name decomposes to an ASCII letter, digit or
    dash. *)

From Stdlib Require Import ZArith Ascii.
From stdpp Require Import base list strings decidable.
From S2P Require Import Prelude PyScalar.

(** ** The stages *)

(** The full decompositions (field 5 of UnicodeData.txt, canonical and
    compatibility, applied until nothing decomposes further) of the code
    points below 256 that have one; the others are their own
    decomposition. *)
Definition nfkd_latin1 : list (Z * list Z) :=
  [(160, [32]); (168, [32; 776]); (170, [97]); (175, [32; 772]); (178, [50]); (179, [51]);
   (180, [32; 769]); (181, [956]); (184, [32; 807]); (185, [49]); (186, [111]);
   (188, [49; 8260; 52]); (189, [49; 8260; 50]); (190, [51; 8260; 52]);
   (192, [65; 768]); (193, [65; 769]); (194, [65; 770]); (195, [65; 771]); (196, [65; 776]);
   (197, [65; 778]); (199, [67; 807]); (200, [69; 768]); (201, [69; 769]); (202, [69; 770]);
   (203, [69; 776]); (204, [73; 768]); (205, [73; 769]); (206, [73; 770]); (207, [73; 776]);
   (209, [78; 771]); (210, [79; 768]); (211, [79; 769]); (212, [79; 770]); (213, [79; 771]);
   (214, [79; 776]); (217, [85; 768]); (218, [85; 769]); (219, [85; 770]); (220, [85; 776]);
   (221, [89; 769]);
   (224, [97; 768]); (225, [97; 769]); (226, [97; 770]); (227, [97; 771]); (228, [97; 776]);
   (229, [97; 778]); (231, [99; 807]); (232, [101; 768]); (233, [101; 769]); (234, [101; 770]);
   (235, [101; 776]); (236, [105; 768]); (237, [105; 769]); (238, [105; 770]); (239, [105; 776]);
   (241, [110; 771]); (242, [111; 768]); (243, [111; 769]); (244, [111; 770]); (245, [111; 771]);
   (246, [111; 776]); (249, [117; 768]); (250, [117; 769]); (251, [117; 770]); (252, [117; 776]);
   (253, [121; 769]); (255, [121; 776])]%Z.

Definition nfkd_char (c : ascii) : list Z :=
  match List.find (λ e, Z.eqb e.1 (Z.of_nat (nat_of_ascii c))) nfkd_latin1 with
  | Some (_, d) => d
  | None => [Z.of_nat (nat_of_ascii c)]
  end.

(** [unicodedata.normalize("NFKD", filename)].  Every decomposition
    above starts with a character of combining class 0, so the canonical
    reordering never moves a mark across characters and the string
    decomposes character by character. *)
Definition nfkd (cs : list ascii) : list Z := cs ≫= nfkd_char.

Definition is_ascii7 (c : ascii) : bool := (nat_of_ascii c <? 128)%nat.

(** [s.encode("ascii", "ignore").decode("ascii")] *)
Definition ascii_ignore (cps : list Z) : list ascii :=
  map (λ z, ascii_of_N (Z.to_N z)) (filter (λ z, z < 128)%Z cps).

(** [s.replace(os.sep, " ")] with [os.sep = '/'] *)
Definition replace_sep (cs : list ascii) : list ascii :=
  map (λ c, if decide (c = "/"%char) then " "%char else c) cs.

(** [s.split()]: the maximal runs of characters that are not whitespace;
    [cur] is the word being read, reversed. *)
Fixpoint split_go (cur : list ascii) (cs : list ascii) : list (list ascii) :=
  match cs with
  | [] => match cur with [] => [] | _ => [rev cur] end
  | c :: cs' =>
      if is_space c then
        match cur with [] => split_go [] cs' | _ => rev cur :: split_go [] cs' end
      else split_go (c :: cur) cs'
  end.

Definition py_split (cs : list ascii) : list (list ascii) := split_go [] cs.

(** [sep.join(words)] *)
Fixpoint join_with (sep : ascii) (ws : list (list ascii)) : list ascii :=
  match ws with
  | [] => []
  | [w] => w
  | w :: ws' => w ++ sep :: join_with sep ws'
  end.

Definition is_alnum (c : ascii) : bool :=
  let n := nat_of_ascii c in
  ((48 <=? n) && (n <=? 57))%nat || ((65 <=? n) && (n <=? 90))%nat ||
  ((97 <=? n) && (n <=? 122))%nat.

(** The characters [_filename_ascii_strip_re = r"[^A-Za-z0-9_.-]"] does
    not match. *)
Definition is_filename_char (c : ascii) : bool :=
  is_alnum c || (c =? "_")%char || (c =? ".")%char || (c =? "-")%char.

(** [_filename_ascii_strip_re.sub("", s)] *)
Definition strip_re (cs : list ascii) : list ascii := filter (λ c, is_filename_char c = true) cs.

Definition is_dot_us (c : ascii) : bool := ((c =? ".") || (c =? "_"))%char.

Fixpoint lstrip (P : ascii → bool) (cs : list ascii) : list ascii :=
  match cs with
  | c :: cs' => if P c then lstrip P cs' else cs
  | [] => []
  end.

(** [s.strip("._")] *)
Definition strip_dot_us (cs : list ascii) : list ascii :=
  reverse (lstrip is_dot_us (reverse (lstrip is_dot_us cs))).

Definition secure_name (cs : list ascii) : list ascii :=
  strip_dot_us (strip_re (join_with "_" (py_split (replace_sep (ascii_ignore (nfkd cs)))))).

Definition secure_filename (filename : string) : string :=
  String.string_of_list_ascii (secure_name (String.list_ascii_of_string filename)).

(** A name [secure_filename] can return. *)
Definition clean_name (cs : list ascii) : Prop :=
  Forall (λ c, is_filename_char c = true) cs ∧
  (∀ c, head cs = Some c → is_dot_us c = false) ∧
  (∀ c, head (reverse cs) = Some c → is_dot_us c = false).

(** The characters that survive every stage: letters, digits, [-]. *)
Definition is_name_core (c : ascii) : bool := is_filename_char c && negb (is_dot_us c).

(** The letters, digits and dashes of a name, in order. *)
Definition name_core (cs : list ascii) : list ascii := filter (λ c, is_name_core c = true) cs.

(** ** Characters *)

Ltac ascii_cases c :=
  destruct c as [[] [] [] [] [] [] [] []]; vm_compute; intros;
  repeat split; (reflexivity || discriminate || congruence).

Lemma filename_char_facts (c : ascii) :
  is_filename_char c = true →
  is_ascii7 c = true ∧ c ≠ "/"%char ∧ is_space c = false ∧ c ≠ " "%char.
Proof. ascii_cases c. Qed.

Lemma name_core_facts (c : ascii) :
  is_name_core c = true →
  is_filename_char c = true ∧ is_dot_us c = false ∧ c ≠ "_"%char.
Proof. ascii_cases c. Qed.

(** An ASCII character is its own decomposition. *)
Lemma ascii_ignore_nfkd_char (c : ascii) : is_ascii7 c = true → ascii_ignore (nfkd_char c) = [c].
Proof. ascii_cases c. Qed.

Lemma filter_Forall_id (P : ascii → Prop) `{∀ c, Decision (P c)} (cs : list ascii) :
  Forall P cs → filter P cs = cs.
Proof. induction 1; [done|]. rewrite filter_cons_True by done. by f_equal. Qed.

Lemma Forall_filename_char (Q : ascii → Prop) (cs : list ascii) :
  (∀ c, is_filename_char c = true → Q c) →
  Forall (λ c, is_filename_char c = true) cs → Forall Q cs.
Proof. intros HQ Hf. induction Hf; constructor; auto. Qed.

(** ** Normalisation and the ASCII filter *)

Lemma ascii_ignore_app (xs ys : list Z) : ascii_ignore (xs ++ ys) = ascii_ignore xs ++ ascii_ignore ys.
Proof. unfold ascii_ignore. by rewrite list.filter_app, map_app. Qed.

Lemma ascii_ignore_nfkd_cons (c : ascii) (cs : list ascii) :
  ascii_ignore (nfkd (c :: cs)) = ascii_ignore (nfkd_char c) ++ ascii_ignore (nfkd cs).
Proof. apply ascii_ignore_app. Qed.

Lemma ascii_ignore_nfkd_id (cs : list ascii) :
  Forall (λ c, is_ascii7 c = true) cs → ascii_ignore (nfkd cs) = cs.
Proof.
  induction 1 as [|c cs Hc _ IH]; [done|].
  by rewrite ascii_ignore_nfkd_cons, ascii_ignore_nfkd_char, IH.
Qed.

Lemma ascii_ignore_nfkd_elem (cs : list ascii) (d : ascii) :
  d ∈ ascii_ignore (nfkd cs) ↔ ∃ c, c ∈ cs ∧ d ∈ ascii_ignore (nfkd_char c).
Proof.
  induction cs as [|c cs IH].
  - split; [by intros []%elem_of_nil|]. by intros (c & []%elem_of_nil & _).
  - rewrite ascii_ignore_nfkd_cons, elem_of_app, IH.
    setoid_rewrite elem_of_cons. naive_solver.
Qed.

(** ** The stages keep the letters, digits and dashes *)

Lemma name_core_filter (P : ascii → Prop) `{∀ c, Decision (P c)} (cs : list ascii) :
  (∀ c, is_name_core c = true → P c) → name_core (filter P cs) = name_core cs.
Proof. intros HP. unfold name_core. apply list_filter_filter_l. exact HP. Qed.

Lemma name_core_app (xs ys : list ascii) : name_core (xs ++ ys) = name_core xs ++ name_core ys.
Proof. apply list.filter_app. Qed.

Lemma name_core_skip (c : ascii) (cs : list ascii) :
  is_name_core c = false → name_core (c :: cs) = name_core cs.
Proof. intros Hc. unfold name_core. rewrite filter_cons_False; [done|]. by rewrite Hc. Qed.

Lemma name_core_elem (cs : list ascii) (c : ascii) : c ∈ name_core cs ↔ c ∈ cs ∧ is_name_core c = true.
Proof. unfold name_core. rewrite list_elem_of_filter. tauto. Qed.

Lemma core_replace_sep (cs : list ascii) : name_core (replace_sep cs) = name_core cs.
Proof.
  induction cs as [|c cs IH]; [done|]. unfold replace_sep. cbn [map]. case_decide as Hc.
  - subst c. rewrite !name_core_skip by done. exact IH.
  - change (name_core (c :: replace_sep cs) = name_core (c :: cs)). unfold name_core.
    rewrite !filter_cons. by fold (name_core cs) (name_core (replace_sep cs)); rewrite IH.
Qed.

Lemma core_join (ws : list (list ascii)) : name_core (join_with "_" ws) = name_core (concat ws).
Proof.
  induction ws as [|w ws IH]; [done|]. destruct ws as [|w' ws].
  - cbn. by rewrite app_nil_r.
  - change (join_with "_" (w :: w' :: ws)) with (w ++ "_"%char :: join_with "_" (w' :: ws)).
    change (concat (w :: w' :: ws)) with (w ++ concat (w' :: ws)).
    by rewrite !name_core_app, name_core_skip, IH.
Qed.

(** The words of [s.split()] hold exactly the characters of [s] that are
    not whitespace, in order. *)
Lemma split_go_concat (cur cs : list ascii) :
  concat (split_go cur cs) = rev cur ++ filter (λ c, is_space c = false) cs.
Proof.
  revert cur. induction cs as [|c cs IH]; intros cur; cbn [split_go].
  - destruct cur; cbn; by rewrite ?app_nil_r.
  - destruct (is_space c) eqn:Hc.
    + rewrite filter_cons_False by congruence.
      destruct cur as [|x cur]; [apply IH|]. cbn [concat]. by rewrite IH.
    + rewrite filter_cons_True by done. rewrite IH. cbn. by rewrite <- app_assoc.
Qed.

Lemma core_split (cs : list ascii) : name_core (concat (py_split cs)) = name_core cs.
Proof.
  unfold py_split. rewrite split_go_concat, app_nil_l. apply name_core_filter.
  intros c (Hf & _)%name_core_facts. apply filename_char_facts in Hf. tauto.
Qed.

Lemma core_strip_re (cs : list ascii) : name_core (strip_re cs) = name_core cs.
Proof. apply name_core_filter. intros c Hc%name_core_facts. tauto. Qed.

Lemma lstrip_suffix (P : ascii → bool) (cs : list ascii) :
  ∃ p, cs = p ++ lstrip P cs ∧ Forall (λ c, P c = true) p.
Proof.
  induction cs as [|c cs IH]; cbn; [by exists []|].
  destruct (P c) eqn:Hc.
  - destruct IH as (p & Hp & Hf). exists (c :: p). split; [cbn; f_equal; exact Hp|by constructor].
  - exists []. split; [done|constructor].
Qed.

Lemma name_core_dot_us (p : list ascii) : Forall (λ c, is_dot_us c = true) p → name_core p = [].
Proof.
  induction 1 as [|c p Hc _ IH]; [done|].
  rewrite name_core_skip; [exact IH|]. unfold is_name_core. by rewrite Hc, andb_false_r.
Qed.

Lemma core_lstrip (cs : list ascii) : name_core (lstrip is_dot_us cs) = name_core cs.
Proof.
  destruct (lstrip_suffix is_dot_us cs) as (p & Hp & Hf). rewrite Hp at 2.
  by rewrite name_core_app, (name_core_dot_us p Hf).
Qed.

Lemma core_strip_dot_us (cs : list ascii) : name_core (strip_dot_us cs) = name_core cs.
Proof.
  unfold strip_dot_us, name_core. rewrite filter_reverse.
  fold (name_core (lstrip is_dot_us (reverse (lstrip is_dot_us cs)))). rewrite core_lstrip.
  unfold name_core. rewrite filter_reverse, reverse_involutive.
  fold (name_core (lstrip is_dot_us cs)). apply core_lstrip.
Qed.

(** [secure_filename] keeps the letters, digits and dashes of the
    normalised ASCII name, in order, and adds none. *)
Lemma secure_name_core (cs : list ascii) : name_core (secure_name cs) = name_core (ascii_ignore (nfkd cs)).
Proof.
  unfold secure_name.
  by rewrite core_strip_dot_us, core_strip_re, core_join, core_split, core_replace_sep.
Qed.

(** ** The ends *)

Lemma replace_sep_id (cs : list ascii) : Forall (λ c, c ≠ "/"%char) cs → replace_sep cs = cs.
Proof. induction 1; cbn; [done|]. rewrite decide_False by done. by f_equal. Qed.

(** A name without whitespace is one word. *)
Lemma split_go_word (cur cs : list ascii) :
  Forall (λ c, is_space c = false) cs → cur ++ cs ≠ [] → split_go cur cs = [rev cur ++ cs].
Proof.
  intros Hf. revert cur. induction Hf as [|c cs Hc _ IH]; intros cur Hne; cbn [split_go].
  - destruct cur; cbn in *; [congruence|by rewrite app_nil_r].
  - rewrite Hc, IH by done. cbn. by rewrite <- app_assoc.
Qed.

Lemma join_py_split_id (cs : list ascii) :
  Forall (λ c, is_space c = false) cs → join_with "_" (py_split cs) = cs.
Proof.
  intros Hf. destruct cs as [|c cs]; [done|].
  unfold py_split. by rewrite split_go_word by done.
Qed.

Lemma lstrip_head (P : ascii → bool) (cs : list ascii) (c : ascii) :
  head (lstrip P cs) = Some c → P c = false.
Proof.
  induction cs as [|x cs IH]; cbn; [done|].
  destruct (P x) eqn:Hx; [done|]. by intros [= <-].
Qed.

Lemma lstrip_last (P : ascii → bool) (cs : list ascii) (c : ascii) :
  head (reverse (lstrip P cs)) = Some c → head (reverse cs) = Some c.
Proof.
  destruct (lstrip_suffix P cs) as (p & Hp & _). rewrite !head_reverse. intros H.
  by rewrite Hp, last_app, H.
Qed.

Lemma lstrip_id (P : ascii → bool) (cs : list ascii) :
  (∀ c, head cs = Some c → P c = false) → lstrip P cs = cs.
Proof. destruct cs as [|c cs]; cbn; [done|]. intros Hh. by rewrite Hh. Qed.

Lemma strip_dot_us_edges (cs : list ascii) :
  (∀ c, head (strip_dot_us cs) = Some c → is_dot_us c = false) ∧
  (∀ c, head (reverse (strip_dot_us cs)) = Some c → is_dot_us c = false).
Proof.
  unfold strip_dot_us. rewrite reverse_involutive. split; [|apply lstrip_head].
  intros c Hc%lstrip_last. rewrite reverse_involutive in Hc. by apply lstrip_head in Hc.
Qed.

Lemma strip_dot_us_id (cs : list ascii) :
  (∀ c, head cs = Some c → is_dot_us c = false) →
  (∀ c, head (reverse cs) = Some c → is_dot_us c = false) → strip_dot_us cs = cs.
Proof.
  intros H1 H2. unfold strip_dot_us.
  rewrite ?(lstrip_id _ cs H1), (lstrip_id _ (reverse cs) H2). apply reverse_involutive.
Qed.

(** ** The whole function *)

Lemma secure_name_clean (cs : list ascii) : clean_name (secure_name cs).
Proof.
  unfold clean_name. split; [|apply strip_dot_us_edges].
  apply Forall_forall. intros c Hc%list_elem_of_In.
  destruct (lstrip_suffix is_dot_us (reverse (lstrip is_dot_us (strip_re (join_with "_"
    (py_split (replace_sep (ascii_ignore (nfkd cs))))))))) as (p & Hp & _).
  unfold secure_name, strip_dot_us in Hc. rewrite elem_of_reverse in Hc.
  assert (Hin : c ∈ lstrip is_dot_us (strip_re (join_with "_" (py_split (replace_sep (ascii_ignore (nfkd cs)))))))
    by (rewrite <- elem_of_reverse, Hp, elem_of_app; by right).
  destruct (lstrip_suffix is_dot_us (strip_re (join_with "_" (py_split (replace_sep (ascii_ignore (nfkd cs)))))))
    as (q & Hq & _).
  assert (Hin' : c ∈ strip_re (join_with "_" (py_split (replace_sep (ascii_ignore (nfkd cs))))))
    by (rewrite Hq, elem_of_app; by right).
  unfold strip_re in Hin'. apply list_elem_of_filter in Hin'. tauto.
Qed.

Lemma secure_name_clean_id (cs : list ascii) : clean_name cs → secure_name cs = cs.
Proof.
  intros (Hf & H1 & H2). unfold secure_name, strip_re.
  rewrite ascii_ignore_nfkd_id
    by (eapply Forall_filename_char; [|exact Hf]; intros ? Hc%filename_char_facts; tauto).
  rewrite replace_sep_id
    by (eapply Forall_filename_char; [|exact Hf]; intros ? Hc%filename_char_facts; tauto).
  rewrite join_py_split_id
    by (eapply Forall_filename_char; [|exact Hf]; intros ? Hc%filename_char_facts; tauto).
  rewrite filter_Forall_id by exact Hf. by apply strip_dot_us_id.
Qed.

Lemma secure_name_nonempty (cs : list ascii) :
  secure_name cs ≠ [] ↔ ∃ c, c ∈ ascii_ignore (nfkd cs) ∧ is_name_core c = true.
Proof.
  rewrite <- (exist_proper _ _ (λ c, name_core_elem _ c)), <- secure_name_core.
  split.
  - destruct (secure_name cs) as [|c r] eqn:E; [done|intros _].
    destruct (secure_name_clean cs) as (Hf & Hh & _). rewrite E in Hf, Hh.
    specialize (Hh c eq_refl). apply Forall_cons_1 in Hf as [Hfc _].
    exists c. apply name_core_elem. split; [apply elem_of_cons; by left|].
    unfold is_name_core. by rewrite Hfc, Hh.
  - intros (c & Hc) E. rewrite E in Hc. by apply elem_of_nil in Hc.
Qed.

(** An ASCII letter, digit or dash of the name is kept. *)
Lemma secure_name_keeps_core (cs : list ascii) (c : ascii) :
  c ∈ cs → is_name_core c = true → secure_name cs ≠ [].
Proof.
  intros Hc Hcore. apply secure_name_nonempty. exists c. split; [|done].
  apply ascii_ignore_nfkd_elem. exists c. split; [done|].
  rewrite ascii_ignore_nfkd_char; [by apply list_elem_of_singleton|].
  apply name_core_facts in Hcore as [Hf _]. apply filename_char_facts in Hf. tauto.
Qed.

(** A clean name is one path component that is not hidden. *)
Lemma clean_name_component (cs : list ascii) :
  clean_name cs → ("/"%char) ∉ cs ∧ ∀ c, head cs = Some c → c ≠ "."%char.
Proof.
  intros (Hf & Hh & _). split.
  - intros Hin%list_elem_of_In. rewrite Forall_forall in Hf.
    apply Hf, filename_char_facts in Hin. tauto.
  - intros c Hc ->. by specialize (Hh _ Hc).
Qed.

Lemma string_of_list_ascii_nil (cs : list ascii) :
  String.string_of_list_ascii cs = "" ↔ cs = [].
Proof.
  split; [|by intros ->]. intros E.
  by rewrite <- (String.list_ascii_of_string_of_list_ascii cs), E.
Qed.

(** The examples of Werkzeug's docstring, and the one of [ü]. *)
Example secure_filename_docstring :
  secure_filename "My cool movie.mov" = "My_cool_movie.mov" ∧
  secure_filename "../../../etc/passwd" = "etc_passwd" ∧
  secure_filename ("i contain cool " +:+ String (ascii_of_nat 252) "ml" +:+
                   String (ascii_of_nat 228) "uts.txt") = "i_contain_cool_umlauts.txt" ∧
  secure_filename (String (ascii_of_nat 252) "") = "u".
Proof. split_and!; vm_compute; reflexivity. Qed.

(** C11: [secure_filename] returns a name made only of [A-Za-z0-9_.-]
    (no [/], so one path component), whose first and last characters are
    neither [.] nor [_] (so it is not [.] or [..] and not hidden), which
    [secure_filename] leaves as it is, and whose letters, digits and
    dashes are exactly those of the NFKD-normalised name with its
    non-ASCII code points dropped, in order; so it is empty exactly when
    no character of the name decomposes to an ASCII letter, digit or
    dash. *)
Theorem secure_filename_spec (filename : string) :
  let r := secure_filename filename in
  clean_name (String.list_ascii_of_string r) ∧ secure_filename r = r ∧
  name_core (String.list_ascii_of_string r) =
    name_core (ascii_ignore (nfkd (String.list_ascii_of_string filename))) ∧
  (r ≠ "" ↔ ∃ c d, c ∈ String.list_ascii_of_string filename ∧ d ∈ ascii_ignore (nfkd_char c) ∧
                   is_name_core d = true).
Proof.
  cbn zeta. unfold secure_filename. rewrite String.list_ascii_of_string_of_list_ascii.
  split; [apply secure_name_clean|]. split.
  - by rewrite secure_name_clean_id by apply secure_name_clean.
  - split; [apply secure_name_core|]. rewrite string_of_list_ascii_nil, secure_name_nonempty.
    setoid_rewrite ascii_ignore_nfkd_elem. naive_solver.
Qed.
