(* ===== verification/Labels.v ===== *)
(** The label vocabulary of [NetworkTrafficClassifier] (model_handler.py
    lines 22-23), Keras' [to_categorical] as called at lines 93 and 168,
    and the lookup [self.LABELS_ISCX[i]] of line 280.

    [to_categorical(x, num_classes)] converts [x] to an [int64] array and
    performs [categorical[np.arange(n), x] = 1] on an [n x num_classes]
    zero matrix: NumPy's fancy indexing accepts every index in
    [[-num_classes, num_classes)], wrapping negative ones, and raises
    [IndexError] for the others. *)

From stdpp Require Import base list strings decidable pretty.
From Stdlib Require Import ZArith.
From S2P Require Import Prelude PyScalar.

Local Open Scope Z_scope.

(** [self.LABELS_ISCX] *)
Definition LABELS_ISCX : list string := ["chat"; "email"; "file"; "streaming"; "voip"].

(** [self.LATENT_DIM] *)
Definition LATENT_DIM : nat := 100.

(** ** [to_categorical] *)

(** Row of the one-hot matrix with its one at column [j]. *)
Definition one_hot_row (k j : nat) : list Z :=
  map (λ i, if decide (i = j) then 1 else 0) (seq 0 k).

(** The column NumPy writes for index [y] in an axis of size [k]. *)
Definition wrap_index (k : nat) (y : Z) : res nat :=
  if (- Z.of_nat k <=? y) && (y <? Z.of_nat k) then
    Ok (Z.to_nat (if y <? 0 then y + Z.of_nat k else y))
  else raise IndexError ("index " +:+ pretty y +:+ " is out of bounds for axis 1 with size "
                         +:+ pretty (Z.of_nat k)).

(** [tf.keras.utils.to_categorical(y, num_classes)] on a one-dimensional
    integer array built from the Python ints [y]. *)
Definition to_categorical (y : list Z) (num_classes : nat) : res (list (list Z)) :=
  let dt := int_array_dtype y in
  x ← mapM (to_int64 dt) y;
  cols ← mapM (wrap_index num_classes) x;
  mret (map (one_hot_row num_classes) cols).

(** [self.LABELS_ISCX[i]] for a class index. *)
Definition label_name (i : nat) : res string := py_index LABELS_ISCX (Z.of_nat i).

(** ** Lemmas *)

Lemma length_one_hot_row (k j : nat) : length (one_hot_row k j) = k.
Proof. unfold one_hot_row. by rewrite length_map, length_seq. Qed.

Lemma one_hot_row_lookup (k j i : nat) :
  (i < k)%nat → one_hot_row k j !! i = Some (if decide (i = j) then 1 else 0).
Proof.
  intros Hi. unfold one_hot_row. rewrite list_lookup_fmap, lookup_seq_lt by done.
  by rewrite Nat.add_0_l.
Qed.

Lemma wrap_index_Ok (k : nat) (y : Z) (j : nat) :
  wrap_index k y = Ok j ↔
  - Z.of_nat k <= y < Z.of_nat k ∧ Z.of_nat j = (if y <? 0 then y + Z.of_nat k else y).
Proof.
  unfold wrap_index, raise.
  destruct (- Z.of_nat k <=? y) eqn:E1; destruct (y <? Z.of_nat k) eqn:E2; cbn;
    rewrite ?Z.leb_le, ?Z.leb_gt, ?Z.ltb_lt, ?Z.ltb_ge in *;
    split; try (intros ?; discriminate); try lia.
  - intros [= <-]. split; [lia|]. destruct (y <? 0) eqn:E3;
      rewrite ?Z.ltb_lt, ?Z.ltb_ge in E3; rewrite Z2Nat.id; lia.
  - intros [_ Hj]. f_equal. rewrite <- Hj. by rewrite Nat2Z.id.
Qed.

Lemma wrap_index_lt (k : nat) (y : Z) (j : nat) : wrap_index k y = Ok j → (j < k)%nat.
Proof.
  intros [Hy Hj]%wrap_index_Ok. destruct (y <? 0) eqn:E; rewrite ?Z.ltb_lt, ?Z.ltb_ge in E; lia.
Qed.

Lemma in_int64_to_int64 (dt : int_dtype) (z : Z) :
  dt ≠ U64 ∨ z <= int64_max → in_int64 z = true → to_int64 dt z = Ok z.
Proof.
  intros Hdt Hz. destruct dt; cbn; rewrite ?Hz; [done| |done].
  destruct Hdt as [?|Hle]; [done|]. unfold wrap64. by rewrite (proj2 (Z.leb_le _ _) Hle).
Qed.

Lemma int_array_dtype_I64 (y : list Z) :
  Forall (λ z, in_int64 z = true) y → int_array_dtype y = I64.
Proof.
  intros H. unfold int_array_dtype.
  replace (forallb in_int64 y) with true; [done|].
  symmetry. apply forallb_forall. intros z Hz%list_elem_of_In. by eapply Forall_forall in H.
Qed.

Lemma in_int64_small (k : nat) (z : Z) :
  (k < 2 ^ 62)%nat → - Z.of_nat k <= z < Z.of_nat k → in_int64 z = true.
Proof.
  intros Hk Hz. apply Nat2Z.inj_lt in Hk. rewrite Nat2Z.inj_pow in Hk.
  unfold in_int64, int64_min, int64_max. apply andb_true_intro.
  rewrite !Z.leb_le. cbn in *. lia.
Qed.

Lemma wrap_index_mod (k : nat) (z : Z) :
  - Z.of_nat k <= z < Z.of_nat k →
  Z.to_nat (if z <? 0 then z + Z.of_nat k else z) = Z.to_nat (z mod Z.of_nat k).
Proof.
  intros Hz. f_equal. destruct (z <? 0) eqn:E; rewrite ?Z.ltb_lt, ?Z.ltb_ge in E.
  - apply Z.mod_unique_pos with (-1); lia.
  - symmetry. apply Z.mod_small. lia.
Qed.

Lemma mapM_wrap_index (k : nat) (y : list Z) (cols : list nat) :
  mapM (wrap_index k) y = Ok cols ↔
  Forall (λ z, - Z.of_nat k <= z < Z.of_nat k) y ∧
  cols = map (λ z, Z.to_nat (z mod Z.of_nat k)) y.
Proof.
  rewrite mapM_Ok_Forall2. revert cols. induction y as [|z y IH]; intros cols.
  - split; [intros H; inversion H; done | intros [_ ->]; constructor].
  - split.
    + intros H; inversion H as [|? c ? cs Hc Hcs]; subst.
      apply IH in Hcs as [Hall ->]. apply wrap_index_Ok in Hc as [Hz Hc].
      split; [by constructor|]. cbn. f_equal.
      rewrite <- wrap_index_mod by done. rewrite <- Hc. by rewrite Nat2Z.id.
    + intros [Hall ->]. inversion Hall as [|? ? Hz Hrest]; subst. cbn. constructor.
      * apply wrap_index_Ok. split; [done|]. rewrite <- wrap_index_mod by done.
        destruct (z <? 0) eqn:E; rewrite ?Z.ltb_lt, ?Z.ltb_ge in E; rewrite Z2Nat.id; lia.
      * by apply IH.
Qed.

Lemma mapM_to_int64_I64 (y : list Z) : mapM (to_int64 I64) y = Ok y.
Proof. rewrite <- (map_id y) at 2. by apply mapM_Ok_map. Qed.

(** The labels [to_categorical] accepts lie in [[-k, k)]. *)
Lemma to_categorical_Ok_range (y : list Z) (k : nat) (rows : list (list Z)) :
  Forall (λ z, in_int64 z = true) y → to_categorical y k = Ok rows →
  Forall (λ z, - Z.of_nat k <= z < Z.of_nat k) y.
Proof.
  intros H64. unfold to_categorical. rewrite int_array_dtype_I64, mapM_to_int64_I64, bind_Ok by done.
  intros (cols & Hcols & _)%bind_eq_Ok. by apply mapM_wrap_index in Hcols as [Hall _].
Qed.

(** C5: on labels that fit in [int64], [to_categorical y k] succeeds
    exactly when every label lies in [[-k, k)], and then row [r] is the
    one-hot row of [y[r] mod k]: negative labels are accepted and wrap
    around to the last classes instead of being rejected. *)
Theorem to_categorical_spec (y : list Z) (k : nat) (rows : list (list Z)) :
  Forall (λ z, in_int64 z = true) y →
  to_categorical y k = Ok rows ↔
  Forall (λ z, - Z.of_nat k <= z < Z.of_nat k) y ∧
  rows = map (λ z, one_hot_row k (Z.to_nat (z mod Z.of_nat k))) y.
Proof.
  intros H64. unfold to_categorical. rewrite int_array_dtype_I64 by done.
  rewrite mapM_to_int64_I64, bind_Ok. split.
  - intros (cols & Hcols & [= <-])%bind_eq_Ok.
    apply mapM_wrap_index in Hcols as [Hall ->]. split; [done|].
    by rewrite map_map.
  - intros [Hall ->]. rewrite (proj2 (mapM_wrap_index k y _) (conj Hall eq_refl)), bind_Ok.
    cbn. f_equal. by rewrite map_map.
Qed.

(** An out-of-range label makes [to_categorical] raise [IndexError]. *)
Lemma to_categorical_out_of_range (y : list Z) (k : nat) (z : Z) :
  Forall (λ z, in_int64 z = true) y → z ∈ y → ¬ (- Z.of_nat k <= z < Z.of_nat k) →
  ∃ e, to_categorical y k = Err e ∧ exn_class e = IndexError.
Proof.
  intros H64 Hz Hout. unfold to_categorical.
  rewrite int_array_dtype_I64, mapM_to_int64_I64, bind_Ok by done.
  destruct (mapM (wrap_index k) y) as [cols|e] eqn:Hm.
  - destruct (mapM_elem_Ok _ _ _ _ Hm Hz) as [j Hj%wrap_index_Ok]. lia.
  - exists e. split; [done|].
    destruct (mapM_Err_inv _ _ _ Hm) as (x & _ & Hx). unfold wrap_index in Hx.
    destruct (_ && _); [discriminate|]. by injection Hx as <-.
Qed.

(** The label [-1] is accepted and encoded as class [4] ("voip"), and
    so is the unsigned label [2^64 - 1]: NumPy casts the [uint64] array to
    [int64] with wrap-around before indexing. *)
Example to_categorical_negative_wraps :
  to_categorical [-1] 5 = Ok [one_hot_row 5 4] ∧
  to_categorical [2 ^ 64 - 1] 5 = Ok [one_hot_row 5 4].
Proof. split; vm_compute; reflexivity. Qed.

Lemma to_categorical_spec_witness :
  Forall (λ z, in_int64 z = true) [0; 1; 0] ∧
  (to_categorical [0; 1; 0] 5 = Ok [one_hot_row 5 0; one_hot_row 5 1; one_hot_row 5 0] ↔
   Forall (λ z, - Z.of_nat 5 <= z < Z.of_nat 5) [0; 1; 0] ∧
   [one_hot_row 5 0; one_hot_row 5 1; one_hot_row 5 0] =
     map (λ z, one_hot_row 5 (Z.to_nat (z mod Z.of_nat 5))) [0; 1; 0]).
Proof.
  assert (H : Forall (λ z, in_int64 z = true) [0; 1; 0]) by (repeat constructor).
  split; [exact H|]. apply (to_categorical_spec _ _ _ H).
Defined.
