(* ===== verification/Argmax.v ===== *)
(** [np.argmax(predictions, axis=1)] and [np.max(predictions, axis=1)]
    (model_handler.py lines 155 and 159) on one row of class
    probabilities.  NumPy scans the row once and keeps the first index
    whose value is strictly greater than every earlier one; on an empty
    row both raise [ValueError].  The module [Spec] states what the scan
    computes (the least index of a maximal value) and the theorems prove
    the scan equal to it. *)

From stdpp Require Import base list strings decidable.
From Stdlib Require Import QArith.
From S2P Require Import Prelude.

Local Open Scope Q_scope.

Module Spec.
(** [i] is the least position of a maximum of [r]. *)
Definition is_argmax (r : list Q) (i : nat) : Prop :=
  (∃ v, r !! i = Some v ∧
        (∀ j w, r !! j = Some w → w <= v) ∧
        (∀ j w, (j < i)%nat → r !! j = Some w → w < v)).

(** [m] is a maximum of [r]. *)
Definition is_max (r : list Q) (m : Q) : Prop :=
  (∃ i, r !! i = Some m) ∧ ∀ j w, r !! j = Some w → w <= m.
End Spec.

(** One step of the scan: position [i] holds [x]; [(bi, bv)] is the best
    so far. *)
Fixpoint argmax_scan (i bi : nat) (bv : Q) (xs : list Q) : nat * Q :=
  match xs with
  | [] => (bi, bv)
  | x :: xs' =>
      if Qlt_le_dec bv x then argmax_scan (S i) i x xs'
      else argmax_scan (S i) bi bv xs'
  end.

(** [np.argmax] on one row. *)
Definition np_argmax (r : list Q) : res nat :=
  match r with
  | [] => raise ValueError "attempt to get argmax of an empty sequence"
  | x :: xs => Ok (argmax_scan 1 0 x xs).1
  end.

(** The larger of two values, as the [maximum] reduction keeps it. *)
Definition qmax (a b : Q) : Q := if Qlt_le_dec a b then b else a.

(** [np.max] on one row. *)
Definition np_max (r : list Q) : res Q :=
  match r with
  | [] => raise ValueError "zero-size array to reduction operation maximum which has no identity"
  | x :: xs => Ok (fold_left qmax xs x)
  end.

(** ** The scan meets the specification *)

Section Scan.
Implicit Types (p xs : list Q) (x v : Q).

(** The invariant of the scan after a prefix [p]. *)
Lemma argmax_scan_inv p xs bi bv :
  Spec.is_argmax p bi → p !! bi = Some bv →
  Spec.is_argmax (p ++ xs) (argmax_scan (length p) bi bv xs).1 ∧
  (p ++ xs) !! (argmax_scan (length p) bi bv xs).1 = Some (argmax_scan (length p) bi bv xs).2.
Proof.
  revert p bi bv. induction xs as [|x xs IH]; intros p bi bv Hp Hbv.
  { cbn. by rewrite app_nil_r. }
  destruct Hp as (v & Hv & Hle & Hlt). rewrite Hbv in Hv. injection Hv as <-.
  cbn [argmax_scan]. replace (p ++ x :: xs) with ((p ++ [x]) ++ xs) by by rewrite <- app_assoc.
  destruct (Qlt_le_dec bv x) as [Hx|Hx].
  - replace (S (length p)) with (length (p ++ [x])) by (rewrite length_app; cbn; lia).
    apply IH; [|by apply list_lookup_middle].
    exists x. split; [by apply list_lookup_middle|]. split.
    + intros j w Hj. apply lookup_snoc_Some in Hj as [[_ Hj]|[_ <-]]; [|apply Qle_refl].
      apply Qlt_le_weak. eapply Qle_lt_trans; [eapply Hle, Hj|done].
    + intros j w Hji Hj. rewrite lookup_app_l in Hj by done.
      eapply Qle_lt_trans; [eapply Hle, Hj|done].
  - replace (S (length p)) with (length (p ++ [x])) by (rewrite length_app; cbn; lia).
    pose proof (lookup_lt_Some _ _ _ Hbv).
    apply IH; [|by rewrite lookup_app_l].
    exists bv. split; [by rewrite lookup_app_l|]. split.
    + intros j w Hj. apply lookup_snoc_Some in Hj as [[_ Hj]|[_ <-]]; [eauto|done].
    + intros j w Hji Hj. rewrite lookup_app_l in Hj by lia. eauto.
Qed.

(** The specification determines the index. *)
Lemma is_argmax_unique r i j : Spec.is_argmax r i → Spec.is_argmax r j → i = j.
Proof.
  intros (v & Hv & Hle & Hlt) (w & Hw & Hle' & Hlt').
  destruct (Nat.lt_total i j) as [Hij|[->|Hji]]; [|done|].
  - pose proof (Hlt' i v Hij Hv). pose proof (Hle j w Hw).
    exfalso. apply (Qlt_irrefl v). eapply Qlt_le_trans; [|eassumption].
    eapply Qlt_le_trans; [eassumption|]. apply Qle_refl.
  - pose proof (Hlt j w Hji Hw). pose proof (Hle' i v Hv).
    exfalso. apply (Qlt_irrefl w). eapply Qlt_le_trans; [eassumption|done].
Qed.

Lemma is_argmax_singleton x : Spec.is_argmax [x] 0.
Proof.
  exists x. split; [done|]. split.
  - intros [|j] w Hj; cbn in Hj; [injection Hj as <-; apply Qle_refl|]. destruct j; discriminate.
  - intros j w Hj. lia.
Qed.

Lemma fold_qmax_is_max p xs m :
  Spec.is_max p m → Spec.is_max (p ++ xs) (fold_left qmax xs m).
Proof.
  revert p m. induction xs as [|x xs IH]; intros p m Hm.
  { by rewrite app_nil_r. }
  cbn. replace (p ++ x :: xs) with ((p ++ [x]) ++ xs) by by rewrite <- app_assoc.
  apply IH. destruct Hm as [[i Hi] Hle]. unfold qmax.
  pose proof (lookup_lt_Some _ _ _ Hi).
  destruct (Qlt_le_dec m x) as [Hx|Hx]; split.
  - exists (length p). by apply list_lookup_middle.
  - intros j w Hj. apply lookup_snoc_Some in Hj as [[_ Hj]|[_ <-]]; [|apply Qle_refl].
    apply Qlt_le_weak. eapply Qle_lt_trans; [eapply Hle, Hj|done].
  - exists i. by rewrite lookup_app_l.
  - intros j w Hj. apply lookup_snoc_Some in Hj as [[_ Hj]|[_ <-]]; [eauto|done].
Qed.
End Scan.

(** ** Theorems *)

(** C6: the scan of [np.argmax] computes exactly the least index of a
    maximal probability of the row, and fails only on an empty row. *)
Lemma np_argmax_Ok (r : list Q) : r ≠ [] → ∃ i, np_argmax r = Ok i.
Proof. destruct r; [done|eauto]. Qed.

Lemma np_argmax_is_argmax (r : list Q) (i : nat) : np_argmax r = Ok i → Spec.is_argmax r i.
Proof.
  destruct r as [|x xs]; [discriminate|].
  destruct (argmax_scan_inv [x] xs 0 x (is_argmax_singleton x) eq_refl) as [Hspec _].
  cbn [app length] in Hspec. cbn. by intros [= <-].
Qed.

Theorem np_argmax_spec (r : list Q) (i : nat) :
  np_argmax r = Ok i ↔ Spec.is_argmax r i.
Proof.
  split; [apply np_argmax_is_argmax|]. intros Hi.
  destruct r as [|x xs]; [destruct Hi as (v & Hv & _); by rewrite lookup_nil in Hv|].
  destruct (np_argmax_Ok (x :: xs)) as [j Hj]; [done|].
  rewrite Hj. f_equal. eapply is_argmax_unique; [apply np_argmax_is_argmax|]; eauto.
Qed.

Lemma np_argmax_lt (r : list Q) (i : nat) : np_argmax r = Ok i → (i < length r)%nat.
Proof. intros (v & Hv & _)%np_argmax_is_argmax. by eapply lookup_lt_Some. Qed.

Lemma np_max_spec (r : list Q) (m : Q) : np_max r = Ok m → Spec.is_max r m.
Proof.
  destruct r as [|x xs]; [discriminate|]. intros [= <-].
  apply (fold_qmax_is_max [x] xs x). split; [by exists 0%nat|].
  intros [|j] w Hj; cbn in Hj; [injection Hj as <-; apply Qle_refl|]. destruct j; discriminate.
Qed.

Lemma np_max_Ok (r : list Q) : r ≠ [] → ∃ m, np_max r = Ok m.
Proof. destruct r; [done|eauto]. Qed.


(** C22: the confidence [np.max(row)] equals the probability the row gives
    to the predicted class [np.argmax(row)]. *)
Theorem confidence_is_predicted_probability (r : list Q) (i : nat) (m : Q) :
  np_argmax r = Ok i → np_max r = Ok m → ∃ v, r !! i = Some v ∧ v == m.
Proof.
  intros (v & Hv & Hle & _)%np_argmax_is_argmax ([k Hk] & Hlem)%np_max_spec.
  exists v. split; [done|]. apply Qle_antisym; [eauto|]. eauto.
Qed.

(** Whatever holds of every entry of a row holds of its maximum. *)
Lemma np_max_Forall (P : Q → Prop) (r : list Q) (m : Q) :
  Forall P r → np_max r = Ok m → P m.
Proof.
  intros Hr ([k Hk] & _)%np_max_spec. rewrite Forall_lookup in Hr. by eapply Hr.
Qed.

(** ** Witnesses *)

Definition row_example : list Q := [1 # 4; 1 # 2; 1 # 4].

Lemma confidence_is_predicted_probability_witness :
  np_argmax row_example = Ok 1%nat ∧ np_max row_example = Ok (1 # 2) ∧
  ∃ v, row_example !! 1%nat = Some v ∧ v == 1 # 2.
Proof.
  split; [reflexivity|]. split; [reflexivity|].
  apply confidence_is_predicted_probability; reflexivity.
Defined.

