(* ===== verification/Report.v ===== *)
(** The classification report as Python holds it (a dict of dicts of
    numbers, built by [classification_report(..., output_dict=True)]) and
    the two passes [predict] runs over it before it is returned
    (model_handler.py):
    - the first repair loop, lines 201-209, which calls [np.isnan] on
      every metric except [support] and on top-level numbers;
    - [fix_nan_recursive], lines 225-237, which walks dicts and lists and
      replaces every NaN float child by [0.0].
    Values are JSON-like trees [jv]; a dict is the list of its items in
    insertion order (keys are distinct, as in a Python dict). *)

From stdpp Require Import base list strings decidable.
From Stdlib Require Import ZArith QArith.
From S2P Require Import Prelude PyScalar.

#[local] Set Warnings "-register-all".

(** ** Values *)

Inductive jv :=
  | JFloat (f : pyfloat)
  | JInt (z : Z)
  | JBool (b : bool)
  | JNone
  | JStr (s : string)
  | JList (l : list jv)
  | JDict (d : list (string * jv)).

(** Induction with hypotheses on the children of lists and dicts. *)
Section JvInd.
Variable P : jv → Prop.
Hypothesis Hfloat : ∀ f, P (JFloat f).
Hypothesis Hint : ∀ z, P (JInt z).
Hypothesis Hbool : ∀ b, P (JBool b).
Hypothesis Hnone : P JNone.
Hypothesis Hstr : ∀ s, P (JStr s).
Hypothesis Hlist : ∀ l, Forall P l → P (JList l).
Hypothesis Hdict : ∀ d, Forall (λ kv, P kv.2) d → P (JDict d).

Fixpoint jv_ind' (v : jv) : P v :=
  match v with
  | JFloat f => Hfloat f
  | JInt z => Hint z
  | JBool b => Hbool b
  | JNone => Hnone
  | JStr s => Hstr s
  | JList l =>
      Hlist l ((fix go (l : list jv) : Forall P l :=
                  match l with
                  | [] => Forall_nil_2 _
                  | x :: l' => Forall_cons_2 _ _ _ (jv_ind' x) (go l')
                  end) l)
  | JDict d =>
      Hdict d ((fix go (d : list (string * jv)) : Forall (λ kv, P kv.2) d :=
                  match d with
                  | [] => Forall_nil_2 _
                  | kv :: d' => Forall_cons_2 _ _ _ (jv_ind' kv.2) (go d')
                  end) d)
  end.
End JvInd.

(** The float [0.0] written by the repairs. *)
Definition zero_f : jv := JFloat (PFin 0).

(** ** [np.isnan(v)] used as a truth value *)

(** Values NumPy turns into a numeric array. *)
Fixpoint numeric_like (v : jv) : bool :=
  match v with
  | JFloat _ | JInt _ | JBool _ => true
  | JList l => forallb numeric_like l
  | _ => false
  end.

Definition isnan_type_error {A} : res A :=
  raise TypeError "ufunc 'isnan' not supported for the input types".

(** [np.isnan] on a Python int: NumPy converts it to [int64] or [uint64];
    an int that fits neither becomes an object array, which [isnan] does
    not support. *)
Definition isnan_int (z : Z) : res bool :=
  if in_int64 z || in_uint64 z then Ok false else isnan_type_error.

(** The truth value of [np.isnan(v)]: a boolean for a number; for a list,
    the array of its elements, whose truth value is defined only when it
    has one element (NumPy 2.2 and later also refuse the empty array);
    [TypeError] for [None], strings, dicts and lists of them. *)
Fixpoint isnan_truth (v : jv) : res bool :=
  match v with
  | JFloat f => Ok (isnan_f f)
  | JInt z => isnan_int z
  | JBool _ => Ok false
  | JList [x] => if numeric_like x then isnan_truth x else isnan_type_error
  | JList l =>
      if forallb numeric_like l then
        raise ValueError "The truth value of an array with more than one element is ambiguous"
      else isnan_type_error
  | _ => isnan_type_error
  end.

(** [isinstance(v, (float, int))] ([bool] is a subclass of [int]). *)
Definition is_number (v : jv) : bool :=
  match v with JFloat _ | JInt _ | JBool _ => true | _ => false end.

Definition is_none (v : jv) : bool := match v with JNone => true | _ => false end.

(** ** The first repair loop (lines 201-209) *)

(** [if np.isnan(value) or value is None: <set 0.0>] *)
Definition repair_value (v : jv) : res jv :=
  b ← isnan_truth v;
  mret (if b || is_none v then zero_f else v).

(** The inner loop over the metrics of one class. *)
Definition repair_metrics (ms : list (string * jv)) : res (list (string * jv)) :=
  mapM (λ '(name, value),
          if String.eqb name "support" then mret (name, value)
          else v' ← repair_value value; mret (name, v')) ms.

(** The outer loop: [report.items()]. *)
Definition repair_report (report : list (string * jv)) : res (list (string * jv)) :=
  mapM (λ '(cname, m),
          match m with
          | JDict ms => ms' ← repair_metrics ms; mret (cname, JDict ms')
          | _ => if is_number m then v' ← repair_value m; mret (cname, v')
                 else mret (cname, m)
          end) report.

(** ** [fix_nan_recursive] (lines 225-237) *)

(** The walk over a dict or a list; every child goes through the body of
    the [for] loop, [fix_item] below.  A scalar argument is left alone. *)
Fixpoint fix_nan_recursive (obj : jv) : res jv :=
  let fix_child (v : jv) : res jv :=
    match v with
    | JDict _ | JList _ => fix_nan_recursive v
    | JFloat f => mret (if isnan_f f then zero_f else v)
    | JInt z => _ ← isnan_int z; mret v
    | _ => mret v
    end in
  match obj with
  | JDict d => d' ← mapM (λ kv, v' ← fix_child kv.2; mret (kv.1, v')) d; mret (JDict d')
  | JList l => l' ← mapM fix_child l; mret (JList l')
  | _ => mret obj
  end.

(** The body of the loops of [fix_nan_recursive] on one child [value]:
    recurse into a dict or list ([isinstance(value, (dict, list))]),
    replace a NaN float by [0.0] ([isinstance(value, (float, int)) and
    np.isnan(value)]), keep everything else. *)
Definition fix_item (v : jv) : res jv :=
  match v with
  | JDict _ | JList _ => fix_nan_recursive v
  | JFloat f => mret (if isnan_f f then zero_f else v)
  | JInt z => _ ← isnan_int z; mret v
  | _ => mret v
  end.

(** ** Properties of values *)

Fixpoint has_nan (v : jv) : bool :=
  match v with
  | JFloat f => isnan_f f
  | JList l => existsb has_nan l
  | JDict d => existsb (λ kv, has_nan kv.2) d
  | _ => false
  end.

Definition is_container (v : jv) : bool :=
  match v with JDict _ | JList _ => true | _ => false end.

(** Every int of the value is one NumPy can convert ([int64] or [uint64]). *)
Fixpoint ints_ok (v : jv) : bool :=
  match v with
  | JInt z => in_int64 z || in_uint64 z
  | JList l => forallb ints_ok l
  | JDict d => forallb (λ kv, ints_ok kv.2) d
  | _ => true
  end.

(** ** The type of a value *)

(** The JSON shape the frontend receives: the kind of every leaf (a NaN
    and a finite float are both floats) and the keys and nesting of the
    containers. *)
Inductive jty :=
  | TFloat
  | TInt
  | TBool
  | TNone
  | TStr
  | TList (ts : list jty)
  | TDict (fields : list (string * jty)).

Fixpoint typeof (v : jv) : jty :=
  match v with
  | JFloat _ => TFloat
  | JInt _ => TInt
  | JBool _ => TBool
  | JNone => TNone
  | JStr _ => TStr
  | JList l => TList (map typeof l)
  | JDict d => TDict (map (λ kv, (kv.1, typeof kv.2)) d)
  end.

(** ** Lemmas on [fix_nan_recursive] *)

Lemma fix_nan_recursive_dict (d : list (string * jv)) :
  fix_nan_recursive (JDict d) = d' ← mapM (λ kv, v' ← fix_item kv.2; mret (kv.1, v')) d; mret (JDict d').
Proof. reflexivity. Qed.

Lemma fix_nan_recursive_list (l : list jv) :
  fix_nan_recursive (JList l) = l' ← mapM fix_item l; mret (JList l').
Proof. reflexivity. Qed.

Lemma fix_item_container (v : jv) : is_container v = true → fix_item v = fix_nan_recursive v.
Proof. by destruct v. Qed.

Lemma isnan_int_Ok (z : Z) : in_int64 z || in_uint64 z = true → isnan_int z = Ok false.
Proof. unfold isnan_int. by intros ->. Qed.

(** The result of a child has no NaN. *)
Lemma fix_item_clean (v v' : jv) : fix_item v = Ok v' → has_nan v' = false.
Proof.
  revert v'. induction v as [f|z|b| |s|l IH|d IH] using jv_ind'; intros v' Hv;
    unfold fix_item in Hv; rewrite ?fix_nan_recursive_list, ?fix_nan_recursive_dict in Hv;
    inv_res; subst; try done.
  - destruct (isnan_f f) eqn:E; [reflexivity|]. cbn. by rewrite E.
  - cbn. apply existsb_false_Forall. by eapply mapM_Ok_post.
  - cbn. apply existsb_false_Forall. eapply mapM_Ok_post; [|eassumption].
    apply Forall_forall. intros [k w] Hx y Hy. rewrite Forall_forall in IH.
    cbn in Hy. inv_res. subst. cbn. eapply (IH (k, w) Hx). eassumption.
Qed.

(** A child whose ints all convert is repaired without error. *)
Lemma fix_item_total (v : jv) : ints_ok v = true → ∃ v', fix_item v = Ok v'.
Proof.
  induction v as [f|z|b| |s|l IH|d IH] using jv_ind'; intros Hok; cbn [ints_ok] in Hok;
    unfold fix_item; rewrite ?fix_nan_recursive_list, ?fix_nan_recursive_dict; eauto.
  - rewrite isnan_int_Ok by done. eauto.
  - apply forallb_Forall in Hok.
    destruct (mapM_total fix_item l) as [l' ->]; [|eauto].
    apply Forall_forall. intros x Hx. eapply Forall_forall in IH, Hok; eauto.
  - apply forallb_Forall in Hok.
    destruct (mapM_total (λ kv, v' ← fix_item kv.2; mret (kv.1, v')) d) as [d' ->]; [|eauto].
    apply Forall_forall. intros [k w] Hx. eapply Forall_forall in IH, Hok; eauto.
    destruct (IH Hok) as [w' Hw']. cbn in Hw' |- *. rewrite Hw'. eauto.
Qed.

(** A value without NaN (and with convertible ints) is left as it is. *)
Lemma fix_item_id (v : jv) : has_nan v = false → ints_ok v = true → fix_item v = Ok v.
Proof.
  induction v as [f|z|b| |s|l IH|d IH] using jv_ind'; intros Hn Hok; cbn [has_nan ints_ok] in Hn, Hok;
    unfold fix_item; rewrite ?fix_nan_recursive_list, ?fix_nan_recursive_dict; try done.
  - cbn. by rewrite Hn.
  - by rewrite isnan_int_Ok.
  - apply existsb_false_Forall in Hn. apply forallb_Forall in Hok.
    rewrite (mapM_Ok_map _ id); [by rewrite map_id|].
    intros x Hx%list_elem_of_In. rewrite Forall_forall in IH, Hn, Hok. auto.
  - apply existsb_false_Forall in Hn. apply forallb_Forall in Hok.
    rewrite (mapM_Ok_map _ id); [by rewrite map_id|].
    intros [k w] Hx%list_elem_of_In. rewrite Forall_forall in IH, Hn, Hok.
    pose proof (IH _ Hx (Hn _ Hx) (Hok _ Hx)) as Hw. cbn in Hw |- *. by rewrite Hw.
Qed.

(** ** Theorems on [fix_nan_recursive] *)

(** C4: on a dict or a list whose ints NumPy can convert,
    [fix_nan_recursive] terminates without error and leaves no NaN
    anywhere in the value, at any depth: no undefined number reaches the
    response. *)
Theorem fix_nan_recursive_no_nan (v : jv) :
  is_container v = true → ints_ok v = true →
  ∃ v', fix_nan_recursive v = Ok v' ∧ has_nan v' = false.
Proof.
  intros Hc Hok. rewrite <- fix_item_container by done.
  destruct (fix_item_total v Hok) as [v' Hv']. exists v'. split; [done|].
  by eapply fix_item_clean.
Qed.

Lemma fix_nan_recursive_id (v : jv) :
  has_nan v = false → ints_ok v = true → fix_nan_recursive v = Ok v.
Proof.
  intros Hn Hok. destruct v; try done; rewrite <- fix_item_container by done; by apply fix_item_id.
Qed.

(** [fix_nan_recursive] changes nothing in a value that has no NaN,
    and repairing twice is repairing once. *)
Lemma fix_nan_recursive_idempotent (v v' : jv) :
  (has_nan v = false → ints_ok v = true → fix_nan_recursive v = Ok v) ∧
  (ints_ok v' = true → fix_nan_recursive v = Ok v' →
   is_container v = true → fix_nan_recursive v' = Ok v').
Proof.
  split; [apply fix_nan_recursive_id|].
  intros Hok' Hv Hc. rewrite <- fix_item_container in Hv by done.
  apply fix_nan_recursive_id; [by eapply fix_item_clean|done].
Qed.

(** ** The first repair loop *)

Definition scalar (v : jv) : bool := negb (is_container v).

(** A report as [classification_report] shapes it: top-level values and
    the values of the per-class dicts are scalars, and their ints convert. *)
Definition flat_report (r : list (string * jv)) : Prop :=
  Forall (λ kv, match kv.2 with
                | JDict ms => Forall (λ m, scalar m.2 = true ∧ ints_ok m.2 = true) ms
                | v => ints_ok v = true
                end) r.

(** A metric the inner loop cannot test: not [support], and [None] or a
    string. *)
Definition bad_metric (kv : string * jv) : Prop :=
  kv.1 ≠ "support" ∧ (kv.2 = JNone ∨ ∃ s, kv.2 = JStr s).

Lemma repair_value_scalar (v : jv) :
  scalar v = true → ints_ok v = true →
  ((∃ e, repair_value v = Err e) ↔ v = JNone ∨ ∃ s, v = JStr s) ∧
  (∀ e, repair_value v = Err e → exn_class e = TypeError).
Proof.
  intros Hs Hok. destruct v as [f|z|b| |s|l|d]; cbn in Hs, Hok |- *; try discriminate.
  - split; [split; [intros [e He]; discriminate | intros [?|[? ?]]; discriminate]|discriminate].
  - unfold repair_value. rewrite isnan_int_Ok by done. cbn.
    split; [split; [intros [e He]; discriminate | intros [?|[? ?]]; discriminate]|discriminate].
  - split; [split; [intros [e He]; discriminate | intros [?|[? ?]]; discriminate]|discriminate].
  - split; [split; [eauto|intros _; eexists; reflexivity]|]. by intros e [= <-].
  - split; [split; [eauto|intros _; eexists; reflexivity]|]. by intros e [= <-].
Qed.

Lemma repair_metrics_Err (ms : list (string * jv)) :
  Forall (λ m, scalar m.2 = true ∧ ints_ok m.2 = true) ms →
  ((∃ e, repair_metrics ms = Err e) ↔ ∃ kv, kv ∈ ms ∧ bad_metric kv) ∧
  (∀ e, repair_metrics ms = Err e → exn_class e = TypeError).
Proof.
  intros Hms. rewrite Forall_forall in Hms. setoid_rewrite <- list_elem_of_In in Hms.
  unfold repair_metrics. split.
  - rewrite mapM_Err_iff. split.
    + intros ([name value] & e & Hx & He). exists (name, value). split; [done|].
      destruct (String.eqb_spec name "support"); [discriminate|].
      destruct (Hms _ Hx) as [Hs Hok]. cbn in *.
      apply bind_eq_Err in He as [He|(? & ? & ?)]; [|discriminate].
      split; [done|]. apply (repair_value_scalar value Hs Hok). eauto.
    + intros ([name value] & Hx & Hne & Hbad). destruct (Hms _ Hx) as [Hs Hok]. cbn in *.
      apply (repair_value_scalar value Hs Hok) in Hbad as [e He].
      exists (name, value), e. split; [done|].
      destruct (String.eqb_spec name "support"); [done|]. by rewrite He.
  - intros e ([name value] & Hx & He)%mapM_Err_inv.
    destruct (String.eqb name "support"); [discriminate|].
    destruct (Hms _ Hx) as [Hs Hok]. cbn in *.
    apply bind_eq_Err in He as [He|(? & ? & ?)]; [|discriminate].
    by apply (repair_value_scalar value Hs Hok).
Qed.

(** C14: on a report of the shape [classification_report] returns, the
    first repair loop fails exactly when some metric other than [support]
    is [None] (or a string), and it fails with [TypeError]: [np.isnan] is
    evaluated before the [value is None] test, so a [None] metric is never
    repaired to [0.0] as the comment intends. *)
Theorem repair_report_none_raises (r : list (string * jv)) :
  flat_report r →
  ((∃ e, repair_report r = Err e) ↔
     ∃ c ms, (c, JDict ms) ∈ r ∧ ∃ kv, kv ∈ ms ∧ bad_metric kv) ∧
  (∀ e, repair_report r = Err e → exn_class e = TypeError).
Proof.
  intros Hr. unfold flat_report in Hr. rewrite Forall_forall in Hr.
  setoid_rewrite <- list_elem_of_In in Hr.
  assert (Hnum : ∀ c m, (c, m) ∈ r → (∀ ms, m ≠ JDict ms) → is_number m = true →
                 ∃ v', repair_value m = Ok v').
  { intros c m Hx Hnd Hn. specialize (Hr _ Hx). cbn in Hr.
    destruct m as [f|z|b| | | |ms]; try discriminate; unfold repair_value; cbn.
    - eauto.
    - rewrite isnan_int_Ok by done. eauto.
    - eauto. }
  unfold repair_report. split.
  - rewrite mapM_Err_iff. split.
    + intros ([c m] & e & Hx & He). specialize (Hr _ Hx). cbn in Hr.
      destruct m as [f|z|b| |s|l|ms]; cbn -[repair_value] in He;
        try (destruct (Hnum c _ Hx ltac:(done) eq_refl) as [v' Hv']; rewrite Hv' in He; discriminate);
        try discriminate.
      apply bind_eq_Err in He as [He|(? & ? & ?)]; [|discriminate].
      exists c, ms. split; [done|]. apply (repair_metrics_Err ms Hr). eauto.
    + intros (c & ms & Hx & Hbad). specialize (Hr _ Hx). cbn in Hr.
      apply (repair_metrics_Err ms Hr) in Hbad as [e He].
      exists (c, JDict ms), e. split; [done|]. cbn. by rewrite He.
  - intros e ([c m] & Hx & He)%mapM_Err_inv. specialize (Hr _ Hx). cbn in Hr.
    destruct m as [f|z|b| |s|l|ms]; cbn -[repair_value] in He;
      try (destruct (Hnum c _ Hx ltac:(done) eq_refl) as [v' Hv']; rewrite Hv' in He; discriminate);
      try discriminate.
    apply bind_eq_Err in He as [He|(? & ? & ?)]; [|discriminate].
    by apply (repair_metrics_Err ms Hr).
Qed.

(** ** Witnesses *)

(** A report with a NaN precision for one class and its support. *)
Definition report_with_nan : jv :=
  JDict [("chat", JDict [("precision", JFloat PNaN); ("recall", JFloat (PFin 1));
                        ("f1-score", JFloat PNaN); ("support", JInt 3)]);
         ("accuracy", JFloat (PFin (3 # 4)))].

Lemma fix_nan_recursive_no_nan_witness :
  is_container report_with_nan = true ∧ ints_ok report_with_nan = true ∧
  ∃ v', fix_nan_recursive report_with_nan = Ok v' ∧ has_nan v' = false.
Proof.
  split; [reflexivity|]. split; [reflexivity|].
  apply fix_nan_recursive_no_nan; reflexivity.
Defined.

(** A report whose [recall] of one class is [None]. *)
Definition report_with_none : list (string * jv) :=
  [("chat", JDict [("precision", JFloat (PFin 1)); ("recall", JNone); ("support", JInt 2)])].

Lemma repair_report_none_raises_witness :
  flat_report report_with_none ∧
  ((∃ e, repair_report report_with_none = Err e) ↔
     ∃ c ms, (c, JDict ms) ∈ report_with_none ∧ ∃ kv, kv ∈ ms ∧ bad_metric kv).
Proof.
  assert (H : flat_report report_with_none) by (repeat constructor).
  split; [exact H|]. apply (repair_report_none_raises _ H).
Defined.

(** ** Types *)

Lemma fix_item_type (v v' : jv) : fix_item v = Ok v' → typeof v' = typeof v.
Proof.
  revert v'. induction v as [f|z|b| |s|l IH|d IH] using jv_ind'; intros v' Hv;
    unfold fix_item in Hv; rewrite ?fix_nan_recursive_list, ?fix_nan_recursive_dict in Hv;
    inv_res; subst; try done.
  - by destruct (isnan_f f).
  - cbn. f_equal. eapply mapM_Ok_map_eq; [|eassumption]. exact IH.
  - cbn. f_equal. eapply mapM_Ok_map_eq; [|eassumption].
    apply Forall_forall. intros [k w] Hx y Hy. rewrite Forall_forall in IH.
    cbn in Hy |- *. inv_res. subst. cbn. f_equal. by apply (IH (k, w) Hx).
Qed.

(** C31: [fix_nan_recursive] preserves the type of the value: the same
    keys in the same order, the same nesting and the same kind of leaf
    everywhere; a NaN becomes [0.0], still a float. *)
Theorem fix_nan_recursive_type (v v' : jv) : fix_nan_recursive v = Ok v' → typeof v' = typeof v.
Proof.
  destruct (is_container v) eqn:Hc.
  - rewrite <- fix_item_container by done. apply fix_item_type.
  - destruct v; try discriminate; by intros [= <-].
Qed.

Definition fixed_report : jv :=
  match fix_nan_recursive report_with_nan with Ok v => v | Err _ => JNone end.

Lemma fix_nan_recursive_type_witness :
  fix_nan_recursive report_with_nan = Ok fixed_report ∧ typeof fixed_report = typeof report_with_nan.
Proof.
  assert (H : fix_nan_recursive report_with_nan = Ok fixed_report) by (vm_compute; reflexivity).
  split; [exact H|]. exact (fix_nan_recursive_type _ _ H).
Defined.

