(* ===== verification/Metrics.v ===== *)
(** The evaluation calls of [predict]: scikit-learn's
    [classification_report(valid_y_true, valid_pred_classes,
    target_names=self.LABELS_ISCX, output_dict=True, zero_division=0)]
    (model_handler.py lines 196-198) and [confusion_matrix(valid_y_true,
    valid_pred_classes)] (line 243), as these calls behave with these
    arguments:
    - the labels are the sorted distinct values of both arrays together
      ([unique_labels]); no [labels=] argument is given, so when their
      number differs from the five target names the report raises
      [ValueError];
    - per class, precision = tp / predicted, recall = tp / support,
      f1 = 2 tp / (predicted + support), each [0.0] when its denominator
      is zero ([zero_division=0]);
    - [output_dict=True] converts every value to [float], support
      included; the keys are the target names, then ["accuracy"] (the
      micro average, equal to the accuracy for multiclass input),
      ["macro avg"] and ["weighted avg"];
    - the confusion matrix is indexed by the same sorted labels. *)

From stdpp Require Import base list strings decidable sorting numbers pretty.
From Stdlib Require Import ZArith QArith.
From S2P Require Import Prelude PyScalar Report.

(** ** Counting *)

(** [unique_labels(y_true, y_pred)] *)
Definition unique_labels (yt yp : list Z) : list Z := merge_sort Z.le (remove_dups (yt ++ yp)).

Definition count_label (l : Z) (ys : list Z) : nat := length (filter (λ y, y = l) ys).

(** Rows whose true label is [a] and predicted label is [b]. *)
Definition count_pair (a b : Z) (yt yp : list Z) : nat :=
  length (filter (λ tp : Z * Z, tp.1 = a ∧ tp.2 = b) (zip yt yp)).

(** [num / den], or [0.0] when [den = 0] ([zero_division=0]). *)
Definition ratio (num den : nat) : Q :=
  if decide (den = 0%nat) then 0 else inject_Z (Z.of_nat num) / inject_Z (Z.of_nat den).

(** ** Per-class scores *)

Record scores := mkScores { s_precision : Q; s_recall : Q; s_f1 : Q; s_support : Q }.

Definition class_scores (yt yp : list Z) (l : Z) : scores :=
  let tp := count_pair l l yt yp in
  let npred := count_label l yp in
  let ntrue := count_label l yt in
  mkScores (ratio tp npred) (ratio tp ntrue) (ratio (2 * tp) (npred + ntrue)) (inject_Z (Z.of_nat ntrue)).

Definition qsum (l : list Q) : Q := fold_right Qplus 0 l.

(** [average='macro']: the mean of the per-class values. *)
Definition macro_avg (ss : list scores) (n : nat) : scores :=
  let k := inject_Z (Z.of_nat (length ss)) in
  mkScores (qsum (map s_precision ss) / k) (qsum (map s_recall ss) / k) (qsum (map s_f1 ss) / k)
           (inject_Z (Z.of_nat n)).

(** [average='weighted']: weighted by support. *)
Definition weighted_avg (ss : list scores) (n : nat) : scores :=
  let w := qsum (map s_support ss) in
  let wavg (f : scores → Q) := if Qeq_bool w 0 then 0 else qsum (map (λ s, f s * s_support s) ss) / w in
  mkScores (wavg s_precision) (wavg s_recall) (wavg s_f1) (inject_Z (Z.of_nat n)).

(** The dict of one row of the report, every value a float. *)
Definition scores_dict (s : scores) : jv :=
  JDict [("precision", JFloat (PFin (s_precision s))); ("recall", JFloat (PFin (s_recall s)));
         ("f1-score", JFloat (PFin (s_f1 s))); ("support", JFloat (PFin (s_support s)))].

(** ** The report *)

Definition classification_report (yt yp : list Z) (target_names : list string) :
    res (list (string * jv)) :=
  if decide (length yt ≠ length yp) then
    raise ValueError ("Found input variables with inconsistent numbers of samples: ["
                      +:+ pretty (length yt) +:+ ", " +:+ pretty (length yp) +:+ "]")
  else
    let labels := unique_labels yt yp in
    if decide (length labels ≠ length target_names) then
      raise ValueError ("Number of classes, " +:+ pretty (length labels)
                        +:+ ", does not match size of target_names, "
                        +:+ pretty (length target_names) +:+ ". Try specifying the labels parameter")
    else
      let ss := map (class_scores yt yp) labels in
      let n := length yt in
      let acc := ratio (length (filter (λ tp : Z * Z, tp.1 = tp.2) (zip yt yp))) n in
      Ok (zip target_names (map scores_dict ss) ++
          [("accuracy", JFloat (PFin acc));
           ("macro avg", scores_dict (macro_avg ss n));
           ("weighted avg", scores_dict (weighted_avg ss n))]).

(** [confusion_matrix(y_true, y_pred)]: entry [(i, j)] counts the rows
    with true label [labels[i]] and predicted label [labels[j]]. *)
Definition confusion_matrix (yt yp : list Z) : list (list nat) :=
  let labels := unique_labels yt yp in
  map (λ a, map (λ b, count_pair a b yt yp) labels) labels.

(** ** The type of the report *)

(** The row of one class, and of the two averages. *)
Definition scores_ty : jty := TDict [("precision", TFloat); ("recall", TFloat); ("f1-score", TFloat); ("support", TFloat)].

(** The report for target names [names], as the frontend receives it. *)
Definition report_ty (names : list string) : jty :=
  TDict (map (λ n, (n, scores_ty)) names ++
         [("accuracy", TFloat); ("macro avg", scores_ty); ("weighted avg", scores_ty)]).

(** ** Counting lemmas *)

Lemma ratio_bounds (a b : nat) : (a ≤ b)%nat → 0 <= ratio a b <= 1.
Proof.
  intros Hab. unfold ratio. case_decide as Hb; [split; unfold Qle; cbn; lia|].
  assert (Hpos : 0 < inject_Z (Z.of_nat b)) by (unfold Qlt; cbn; lia).
  split.
  - apply Qle_shift_div_l; [done|]. rewrite Qmult_0_l. unfold Qle; cbn; lia.
  - apply Qle_shift_div_r; [done|]. rewrite Qmult_1_l. unfold Qle; cbn; lia.
Qed.

Lemma ratio_zero (b : nat) : ratio 0 b == 0.
Proof. unfold ratio. case_decide; [reflexivity|]. unfold Qdiv. apply Qmult_0_l. Qed.

Lemma count_pair_le (a b : Z) (yt yp : list Z) :
  (count_pair a b yt yp ≤ count_label a yt)%nat ∧ (count_pair a b yt yp ≤ count_label b yp)%nat.
Proof.
  unfold count_pair, count_label. revert yp.
  induction yt as [|t yt IH]; intros [|p yp]; [cbn; lia..|].
  destruct (IH yp) as [H1 H2]. cbn [zip zip_with]. rewrite !filter_cons.
  repeat case_decide; cbn [length fst snd] in *; split; lia.
Qed.

Lemma count_pair_fst (a : Z) (yt yp : list Z) :
  length yt = length yp →
  length (filter (λ tp : Z * Z, tp.1 = a) (zip yt yp)) = count_label a yt.
Proof.
  unfold count_label. revert yp. induction yt as [|t yt IH]; intros [|p yp] Hl; [cbn in *; lia..|].
  cbn [zip zip_with length] in *. rewrite !filter_cons.
  repeat case_decide; cbn [length fst] in *; rewrite IH by lia; lia.
Qed.

(** ** Theorems on the scores *)

(** C24: every per-class precision, recall and F1 lies in [[0, 1]], and
    a class with zero support (predicted but never the true label) gets
    precision, recall, F1 and support [0.0], numbers and not undefined
    values ([zero_division=0]). *)
Theorem class_scores_bounds (yt yp : list Z) (l : Z) :
  let s := class_scores yt yp l in
  (0 <= s_precision s <= 1 ∧ 0 <= s_recall s <= 1 ∧ 0 <= s_f1 s <= 1) ∧
  (count_label l yt = 0%nat →
   s_precision s == 0 ∧ s_recall s == 0 ∧ s_f1 s == 0 ∧ s_support s == 0).
Proof.
  cbn. destruct (count_pair_le l l yt yp) as [H1 H2].
  split; [split; [|split]; apply ratio_bounds; lia|]. intros H0.
  replace (count_pair l l yt yp) with 0%nat by lia. rewrite H0.
  split; [apply ratio_zero|]. split; [apply ratio_zero|]. split; [apply ratio_zero|]. reflexivity.
Qed.

(** ** Labels *)

Lemma unique_labels_NoDup (yt yp : list Z) : NoDup (unique_labels yt yp).
Proof. unfold unique_labels. rewrite (merge_sort_Permutation Z.le). apply NoDup_remove_dups. Qed.

Lemma elem_of_unique_labels (yt yp : list Z) (x : Z) :
  x ∈ unique_labels yt yp ↔ x ∈ yt ∨ x ∈ yp.
Proof.
  unfold unique_labels. rewrite (merge_sort_Permutation Z.le), elem_of_remove_dups.
  apply elem_of_app.
Qed.

(** ** The report *)

Lemma classification_report_lengths (yt yp : list Z) (names : list string) (r : list (string * jv)) :
  classification_report yt yp names = Ok r → length (unique_labels yt yp) = length names.
Proof. unfold classification_report. case_decide; [discriminate|]. case_decide; [discriminate|lia]. Qed.

(** C9: the report exists exactly when both arrays have the same length
    and exactly as many distinct labels occur in them together as there
    are target names (five): with fewer classes present, e.g. a batch
    that never mentions [voip], [classification_report] raises
    [ValueError]. *)
Theorem classification_report_Ok_iff (yt yp : list Z) (names : list string) :
  (∃ r, classification_report yt yp names = Ok r) ↔
  length yt = length yp ∧ length (unique_labels yt yp) = length names.
Proof.
  unfold classification_report. case_decide as H1; [|case_decide as H2].
  - split; [intros [r Hr]; discriminate|lia].
  - split; [intros [r Hr]; discriminate|lia].
  - split; [split; lia|eauto].
Qed.

(** Every value of the report is a finite float, at depth one or two. *)
Definition finite_value (v : jv) : Prop := ∃ q, v = JFloat (PFin q).

Definition finite_report (r : list (string * jv)) : Prop :=
  Forall (λ kv, finite_value kv.2 ∨ ∃ ms, kv.2 = JDict ms ∧ Forall (λ m, finite_value m.2) ms) r.

Lemma scores_dict_finite (s : scores) :
  ∃ ms, scores_dict s = JDict ms ∧ Forall (λ m, finite_value m.2) ms.
Proof. eexists. split; [reflexivity|]. repeat constructor; eexists; reflexivity. Qed.

Lemma Forall_zip_snd {A B} (P : B → Prop) (l1 : list A) (l2 : list B) :
  Forall P l2 → Forall (λ kv, P kv.2) (zip l1 l2).
Proof.
  revert l2. induction l1 as [|x l1 IH]; intros [|y l2] H; cbn; try constructor.
  - by inversion H.
  - inversion H; subst. by apply IH.
Qed.

Lemma classification_report_finite (yt yp : list Z) (names : list string) (r : list (string * jv)) :
  classification_report yt yp names = Ok r → finite_report r.
Proof.
  unfold classification_report. case_decide; [discriminate|]. case_decide; [discriminate|].
  intros [= <-]. apply Forall_app. split.
  - apply (Forall_zip_snd (λ v, finite_value v ∨ ∃ ms, v = JDict ms ∧ Forall (λ m, finite_value m.2) ms)).
    apply Forall_forall. intros v (s & -> & _)%list_elem_of_fmap. right. apply scores_dict_finite.
  - constructor; [left; eexists; reflexivity|].
    constructor; [right; apply scores_dict_finite|].
    constructor; [right; apply scores_dict_finite|]. constructor.
Qed.

Lemma finite_value_clean (v : jv) : finite_value v → has_nan v = false ∧ ints_ok v = true ∧ scalar v = true.
Proof. by intros [q ->]. Qed.

Lemma repair_value_finite (v : jv) : finite_value v → repair_value v = Ok v.
Proof. by intros [q ->]. Qed.

Lemma finite_report_clean (r : list (string * jv)) :
  finite_report r → has_nan (JDict r) = false ∧ ints_ok (JDict r) = true.
Proof.
  intros Hr. cbn. rewrite existsb_false_Forall, forallb_Forall. split.
  - eapply Forall_impl; [exact Hr|]. intros [k v] [Hv|(ms & -> & Hms)]; cbn.
    + by apply finite_value_clean.
    + apply existsb_false_Forall. eapply Forall_impl; [exact Hms|]. intros m Hm. by apply finite_value_clean.
  - eapply Forall_impl; [exact Hr|]. intros [k v] [Hv|(ms & -> & Hms)]; cbn.
    + by apply finite_value_clean.
    + apply forallb_Forall. eapply Forall_impl; [exact Hms|]. intros m Hm. by apply finite_value_clean.
Qed.

Lemma finite_report_repair (r : list (string * jv)) : finite_report r → repair_report r = Ok r.
Proof.
  intros Hr. unfold repair_report. rewrite (mapM_Ok_map _ id); [by rewrite map_id|].
  intros [c v] Hx. unfold finite_report in Hr. rewrite Forall_forall in Hr.
  destruct (Hr _ Hx) as [Hv|(ms & Hv & Hms)]; cbn in Hv.
  - destruct Hv as [q ->]. reflexivity.
  - subst v. cbn. unfold repair_metrics. rewrite (mapM_Ok_map _ id); [by rewrite map_id|].
    intros [name w] Hw. rewrite Forall_forall in Hms. cbn -[repair_value].
    pose proof (repair_value_finite _ (Hms _ Hw)) as Hrv. cbn [snd] in Hrv.
    destruct (String.eqb name "support"); [reflexivity|]. by rewrite Hrv.
Qed.

(** C23: with [zero_division=0] the report never holds a NaN, so both
    repair passes of [predict] (lines 201-209 and 225-240) return it
    unchanged: they are defensive code that never fires on this input. *)
Theorem report_repairs_identity (yt yp : list Z) (names : list string) (r : list (string * jv)) :
  classification_report yt yp names = Ok r →
  repair_report r = Ok r ∧ fix_nan_recursive (JDict r) = Ok (JDict r).
Proof.
  intros Hr%classification_report_finite. split; [by apply finite_report_repair|].
  destruct (finite_report_clean r Hr) as [Hn Hok].
  exact (fix_nan_recursive_id (JDict r) Hn Hok).
Qed.

Lemma zip_scores_type (names : list string) (ss : list scores) :
  length names = length ss →
  map (λ kv : string * jv, (kv.1, typeof kv.2)) (zip names (map scores_dict ss)) =
  map (λ n, (n, scores_ty)) names.
Proof.
  revert ss. induction names as [|n names IH]; intros [|s ss] Hl; cbn in *; try done.
  f_equal. apply IH. lia.
Qed.

(** Every report [classification_report] returns has the type
    [report_ty names]: one row of four floats per target name, in order,
    then [accuracy] and the two average rows. *)
Theorem classification_report_type (yt yp : list Z) (names : list string) (r : list (string * jv)) :
  classification_report yt yp names = Ok r → typeof (JDict r) = report_ty names.
Proof.
  unfold classification_report. case_decide; [discriminate|]. case_decide as Hn; [discriminate|].
  intros [= <-]. cbn [typeof]. unfold report_ty. f_equal.
  rewrite map_app, zip_scores_type by (rewrite length_map; lia). reflexivity.
Qed.

(** ** The confusion matrix *)

Lemma confusion_row_sum (yt yp : list Z) (a : Z) :
  length yt = length yp →
  sum_list (map (λ b, count_pair a b yt yp) (unique_labels yt yp)) = count_label a yt.
Proof.
  intros Hl. rewrite <- (count_pair_fst a yt yp Hl).
  unfold count_pair.
  erewrite map_ext; [|intros b; rewrite (list_filter_iff _ (λ tp : Z * Z, tp.2 = b ∧ tp.1 = a)) by naive_solver;
                        rewrite <- list_filter_filter; reflexivity].
  apply (sum_filter_partition snd); [apply unique_labels_NoDup|].
  intros [t p] Hx%list_elem_of_filter. apply elem_of_unique_labels. right.
  destruct Hx as [_ Hx]. by eapply elem_of_zip_r.
Qed.

(** Row [i] of the confusion matrix sums to the support of label
    [labels[i]], and all its entries together count every row once. *)
Lemma confusion_matrix_sums (yt yp : list Z) :
  length yt = length yp →
  map sum_list (confusion_matrix yt yp) = map (λ a, count_label a yt) (unique_labels yt yp) ∧
  sum_list (map sum_list (confusion_matrix yt yp)) = length yt.
Proof.
  intros Hl. assert (Hrows : map sum_list (confusion_matrix yt yp) =
                             map (λ a, count_label a yt) (unique_labels yt yp)).
  { unfold confusion_matrix. rewrite map_map. apply map_ext. intros a. by apply confusion_row_sum. }
  split; [done|]. rewrite Hrows.
  rewrite (map_ext _ (λ a, length (filter (λ tp : Z * Z, tp.1 = a) (zip yt yp))))
    by (intros a; by rewrite count_pair_fst).
  rewrite (sum_filter_partition fst); [rewrite length_zip; lia|apply unique_labels_NoDup|].
  intros [t p] Hx. apply elem_of_unique_labels. left. by eapply elem_of_zip_l.
Qed.

(** ** Witnesses *)

(** Five rows covering the five classes; the predictions miss [file],
    [streaming] and [voip] except through the truth. *)
Definition yt_five : list Z := [0; 1; 2; 3; 4]%Z.
Definition yp_five : list Z := [0; 1; 1; 1; 1]%Z.

Definition report_five : list (string * jv) :=
  match classification_report yt_five yp_five ["chat"; "email"; "file"; "streaming"; "voip"] with
  | Ok r => r
  | Err _ => []
  end.

Lemma class_scores_bounds_witness :
  count_label 2%Z [0; 1]%Z = 0%nat ∧
  let s := class_scores [0; 1]%Z [0; 2]%Z 2%Z in
  s_precision s == 0 ∧ s_recall s == 0 ∧ s_f1 s == 0 ∧ s_support s == 0.
Proof.
  assert (H : count_label 2%Z [0; 1]%Z = 0%nat) by reflexivity.
  split; [exact H|]. exact (proj2 (class_scores_bounds [0; 1]%Z [0; 2]%Z 2%Z) H).
Defined.

Lemma report_repairs_identity_witness :
  classification_report yt_five yp_five ["chat"; "email"; "file"; "streaming"; "voip"] = Ok report_five ∧
  repair_report report_five = Ok report_five ∧
  fix_nan_recursive (JDict report_five) = Ok (JDict report_five).
Proof.
  assert (H : classification_report yt_five yp_five ["chat"; "email"; "file"; "streaming"; "voip"]
              = Ok report_five) by (vm_compute; reflexivity).
  split; [exact H|]. exact (report_repairs_identity _ _ _ _ H).
Defined.

