(* ===== verification/Artifacts.v ===== *)
(** The pretrained artifacts [NetworkTrafficClassifier] loads in
    [load_models] (model_handler.py lines 57-74) and the process-wide
    state [predict] reads, as interfaces.  Each artifact is a library
    object (a Keras model, a scikit-learn GMM or scaler); the development
    does not model its internals, only the calls the code makes and the
    laws the proofs rely on:
    - [Scaler]: [self.scaler.transform(X)] (line 103);
    - [Classifier]: [self.classifier.predict(X_reshaped)] (line 153);
    - [Discriminator]: [self.discriminator.predict(X_scaled)] (line 133);
    - [Gmm]: [self.gmm.predict(disc_features)] (line 167);
    - [Generator]: [self.generator.predict(noise)] (line 122);
    - [World]: [time.time()] (lines 143, 176) and NumPy's global random
      generator behind [np.random.normal] (line 120).
    The laws say that a batch prediction returns one row per input row,
    which is what Keras' [predict] and scikit-learn's [transform] and
    [predict] do. *)

From stdpp Require Import base list strings decidable.
From Stdlib Require Import ZArith QArith.
From S2P Require Import Prelude PyScalar.

(** ** The artifacts *)

Class Scaler := {
  scaler_transform : list (list cell) → res (list (list Q))
}.

Class Classifier := {
  classifier_predict : list (list (list Q)) → res (list (list Q));
  classifier_params : Z
}.

Class Discriminator := {
  discriminator_predict : list (list Q) → res (list (list Q));
  discriminator_params : Z
}.

Class Gmm := {
  gmm_predict : list (list Q) → res (list Z);
  gmm_n_components : nat
}.

Class Generator := {
  generator_predict : list (list Q) → res (list (list Q));
  generator_params : Z
}.

(** ** The world [predict] runs in *)

(** [time.time()] reads the clock; [np.random.normal(0, 1, (n, d))] draws
    an [n x d] matrix from the global generator and advances it. *)
Class World (W : Type) := {
  clock_now : W → Q * W;
  normal_draw : nat → nat → W → list (list Q) * W
}.

(** ** Laws *)

Class ScalerLaws `{Scaler} := {
  scaler_rows : ∀ X Xs, scaler_transform X = Ok Xs → length Xs = length X
}.

Class ClassifierLaws `{Classifier} := {
  classifier_rows : ∀ X P, classifier_predict X = Ok P → length P = length X
}.

(** A softmax output layer: every predicted probability is in [[0, 1]]. *)
Class ProbabilisticClassifier `{Classifier} := {
  classifier_probs : ∀ X P, classifier_predict X = Ok P → Forall (Forall (λ x, 0 <= x <= 1)%Q) P
}.

(** [GaussianMixture.predict] returns component indices. *)
Class GmmLaws `{Gmm} := {
  gmm_labels : ∀ X zs, gmm_predict X = Ok zs → Forall (λ z, 0 ≤ z < Z.of_nat gmm_n_components)%Z zs;
  gmm_components_int64 : (Z.of_nat gmm_n_components < 2 ^ 62)%Z
}.

Class WorldLaws `{World W} := {
  normal_draw_shape : ∀ n d w, length (normal_draw n d w).1 = n ∧
                               Forall (λ row, length row = d) (normal_draw n d w).1
}.
