(* ===== verification/Handler.v ===== *)
(** The state of the single [NetworkTrafficClassifier] instance
    (model_handler.py lines 20-80 and 297-308) and its start-up:
    [__init__] sets [models_loaded = False], [configure_gpu] chooses the
    device, and [load_models] loads the five artifacts in order inside one
    [try]: the first failing load stops the sequence, earlier attributes
    stay set, later ones are never created, and [models_loaded] stays
    [False].  [get_model_info] reads three of the attributes and so raises
    [AttributeError] when one of them was never created. *)

From stdpp Require Import base list strings decidable.
From Stdlib Require Import ZArith.
From S2P Require Import Prelude Labels Artifacts.

(** The artifacts in the order [load_models] loads them. *)
Inductive artifact := AGenerator | ADiscriminator | AClassifier | AGmm | AScaler.

#[export] Instance artifact_eq_dec : EqDecision artifact.
Proof. solve_decision. Defined.

Definition load_order : list artifact := [AGenerator; ADiscriminator; AClassifier; AGmm; AScaler].

(** The position of an artifact in [load_order]. *)
Definition load_index (a : artifact) : nat :=
  match a with AGenerator => 0 | ADiscriminator => 1 | AClassifier => 2 | AGmm => 3 | AScaler => 4 end.

(** The attributes of the instance: [self.device], [self.models_loaded],
    and whether each artifact attribute exists. *)
Record handler := mkHandler {
  device : string;
  models_loaded : bool;
  loaded : artifact → bool
}.

(** [configure_gpu]: ["/GPU:0"] when a GPU is listed and enabling memory
    growth on every GPU succeeds, ["/CPU:0"] otherwise. *)
Definition configure_gpu (n_gpus : nat) (memory_growth_ok : bool) : string :=
  if decide (0 < n_gpus) then (if memory_growth_ok then "/GPU:0" else "/CPU:0")
  else "/CPU:0".

Definition set_loaded (a : artifact) (h : handler) : handler :=
  mkHandler (device h) (models_loaded h) (λ b, if decide (b = a) then true else loaded h b).

Definition set_models_loaded (v : bool) (h : handler) : handler :=
  mkHandler (device h) v (loaded h).

(** The [try] block of [load_models]: [load_ok a] says whether loading
    artifact [a] from disk succeeds. *)
Fixpoint load_seq (load_ok : artifact → bool) (order : list artifact) (h : handler) : handler :=
  match order with
  | [] => set_models_loaded true h
  | a :: rest => if load_ok a then load_seq load_ok rest (set_loaded a h)
                 else set_models_loaded false h
  end.

Definition load_models (load_ok : artifact → bool) (h : handler) : handler :=
  load_seq load_ok load_order h.

(** [__init__] *)
Definition init (n_gpus : nat) (memory_growth_ok : bool) (load_ok : artifact → bool) : handler :=
  load_models load_ok (mkHandler (configure_gpu n_gpus memory_growth_ok) false (λ _, false)).

(** The dict [get_model_info] returns. *)
Record model_info := mkModelInfo {
  info_labels : list string;
  info_generator_params : Z;
  info_discriminator_params : Z;
  info_classifier_params : Z;
  info_status : bool;
  info_device : string
}.

Definition no_attribute {A} (name : string) : res A :=
  raise AttributeError ("'NetworkTrafficClassifier' object has no attribute '" +:+ name +:+ "'").

Section ModelInfo.
Context `{Generator} `{Discriminator} `{Classifier}.

(** [get_model_info]: the dict literal is evaluated in order, so the
    first missing attribute among generator, discriminator and classifier
    raises. *)
Definition get_model_info (h : handler) : res model_info :=
  if negb (loaded h AGenerator) then no_attribute "generator"
  else if negb (loaded h ADiscriminator) then no_attribute "discriminator"
  else if negb (loaded h AClassifier) then no_attribute "classifier"
  else Ok (mkModelInfo LABELS_ISCX generator_params discriminator_params classifier_params
                       (models_loaded h) (device h)).
End ModelInfo.

(** ** Start-up *)

Lemma init_models_loaded (n_gpus : nat) (growth : bool) (load_ok : artifact → bool) :
  models_loaded (init n_gpus growth load_ok) = forallb load_ok load_order.
Proof.
  unfold init, load_models, load_order. cbn.
  destruct (load_ok AGenerator), (load_ok ADiscriminator), (load_ok AClassifier),
    (load_ok AGmm), (load_ok AScaler); reflexivity.
Qed.

(** An artifact attribute exists after start-up exactly when it and every
    artifact loaded before it loaded successfully. *)
Lemma init_loaded (n_gpus : nat) (growth : bool) (load_ok : artifact → bool) (a : artifact) :
  loaded (init n_gpus growth load_ok) a =
  forallb load_ok (take (S (load_index a)) load_order).
Proof.
  unfold init, load_models, load_order. destruct a; cbn;
    destruct (load_ok AGenerator), (load_ok ADiscriminator), (load_ok AClassifier),
      (load_ok AGmm), (load_ok AScaler); reflexivity.
Qed.

Lemma init_device (n_gpus : nat) (growth : bool) (load_ok : artifact → bool) :
  device (init n_gpus growth load_ok) = configure_gpu n_gpus growth.
Proof.
  unfold init, load_models, load_order. cbn.
  destruct (load_ok AGenerator), (load_ok ADiscriminator), (load_ok AClassifier),
    (load_ok AGmm), (load_ok AScaler); reflexivity.
Qed.

Section ModelInfoTheorems.
Context `{Generator} `{Discriminator} `{Classifier}.

(** C21: after start-up, [get_model_info] answers exactly when the three
    Keras models loaded, and then reports [status] = all five artifacts
    loaded and the configured device; when the GMM or the scaler failed it
    still answers, with [status = False]; when a Keras model failed it
    raises [AttributeError] (a 500 from [/model-info]). *)
Theorem model_info_after_init (n_gpus : nat) (growth : bool) (load_ok : artifact → bool) :
  match get_model_info (init n_gpus growth load_ok) with
  | Ok info =>
      load_ok AGenerator && load_ok ADiscriminator && load_ok AClassifier = true ∧
      info_status info = forallb load_ok load_order ∧
      info_device info = configure_gpu n_gpus growth ∧ info_labels info = LABELS_ISCX
  | Err e =>
      load_ok AGenerator && load_ok ADiscriminator && load_ok AClassifier = false ∧
      exn_class e = AttributeError
  end.
Proof.
  unfold get_model_info. rewrite !init_loaded, <- (init_models_loaded n_gpus growth), <- (init_device n_gpus growth load_ok).
  cbn. destruct (load_ok AGenerator), (load_ok ADiscriminator), (load_ok AClassifier); cbn; done.
Qed.
End ModelInfoTheorems.

(** C30: the artifacts present after start-up form a prefix of the load
    order (an artifact is present only if every artifact loaded before it
    is), and [models_loaded] is set exactly when all five are present. *)
Theorem init_prefix (n_gpus : nat) (growth : bool) (load_ok : artifact → bool) :
  let h := init n_gpus growth load_ok in
  (∀ a b, load_index a ≤ load_index b → loaded h b = true → loaded h a = true) ∧
  (models_loaded h = true ↔ ∀ a, loaded h a = true).
Proof.
  cbn zeta. rewrite init_models_loaded. split.
  - intros a b Hab. rewrite !init_loaded, !forallb_Forall.
    replace (take (S (load_index a)) load_order) with (take (S (load_index a)) (take (S (load_index b)) load_order))
      by (rewrite take_take; f_equal; lia).
    apply Forall_take.
  - setoid_rewrite init_loaded. rewrite forallb_Forall. split.
    + intros Hall a. apply forallb_Forall, Forall_take, Hall.
    + intros Hall. specialize (Hall AScaler). by apply forallb_Forall in Hall.
Qed.

