(* ===== verification/Preprocess.v ===== *)
(** [preprocess_data] (model_handler.py lines 82-112) on the table
    [pd.read_csv] returns: a list of column names and a list of rows.
    [read_csv] gives every row one cell per column and makes column names
    distinct (a repeated name gets a [.1] suffix), which [frame_wf]
    records.

    The method extracts the [label] column when there is one ([int] of each
    value, then [to_categorical] with five classes), selects the features
    with [df.iloc[:, 1:]] (every column but the first, so the [label]
    column too when it is not first), scales them with the pre-fit scaler
    and adds a trailing axis.  Any exception is re-raised as
    [ValueError("Error in preprocessing data: ...")]. *)

From stdpp Require Import base list strings decidable.
From Stdlib Require Import ZArith QArith.
From S2P Require Import Prelude PyScalar Labels Artifacts.

(** ** Tables *)

Record frame := mkFrame {
  columns : list string;
  rows : list (list cell)
}.

Definition frame_wf (df : frame) : Prop :=
  NoDup (columns df) ∧ Forall (λ r, length r = length (columns df)) (rows df).

(** The position of the [label] column, when ["label" in df.columns]. *)
Definition label_column (df : frame) : option nat :=
  fst <$> list_find (λ c, c = "label") (columns df).

(** [df.iloc[:, k].values]: the cell of column [k] of every row (a row of
    a well-formed frame always has it). *)
Definition column_values (df : frame) (k : nat) : list cell :=
  map (λ r, default (CFloat PNaN) (r !! k)) (rows df).

(** [df.iloc[:, 1:].values] *)
Definition features (df : frame) : list (list cell) := map (drop 1) (rows df).

(** [np.expand_dims(X_scaled, axis=-1)] *)
Definition expand_dims (X : list (list Q)) : list (list (list Q)) := map (map (λ x, [x])) X.

(** The four values [preprocess_data] returns. *)
Record preprocessed := mkPre {
  X_scaled : list (list Q);
  X_reshaped : list (list (list Q));
  y_true : option (list Z);
  y_true_onehot : option (list (list Z))
}.

Section Preprocess.
Context `{Scaler}.

(** The label part of the [try] block (lines 90-96). *)
Definition extract_labels (df : frame) : res (option (list Z) * option (list (list Z))) :=
  match label_column df with
  | Some k =>
      y ← mapM py_int (column_values df k);
      oh ← to_categorical y (length LABELS_ISCX);
      mret (Some y, Some oh)
  | None => mret (None, None)
  end.

(** [preprocess_data] *)
Definition preprocess_data (df : frame) : res preprocessed :=
  reraise_value "Error in preprocessing data: " (
    lab ← extract_labels df;
    Xs ← scaler_transform (features df);
    mret (mkPre Xs (expand_dims Xs) lab.1 lab.2)).
End Preprocess.

(** ** Lemmas *)

Section PreprocessTheorems.
Context `{ScalerLaws}.

Lemma preprocess_data_Ok (df : frame) (p : preprocessed) :
  preprocess_data df = Ok p ↔
  ∃ lab Xs, extract_labels df = Ok lab ∧ scaler_transform (features df) = Ok Xs ∧
            p = mkPre Xs (expand_dims Xs) lab.1 lab.2.
Proof.
  unfold preprocess_data. rewrite reraise_value_Ok. split.
  - intros (lab & Hl & (Xs & HX & [= <-])%bind_eq_Ok)%bind_eq_Ok. eauto.
  - intros (lab & Xs & Hl & HX & ->). by rewrite Hl, bind_Ok, HX, bind_Ok.
Qed.

Lemma extract_labels_length (df : frame) (y : list Z) (oh : option (list (list Z))) :
  extract_labels df = Ok (Some y, oh) → length y = length (rows df).
Proof.
  unfold extract_labels. destruct (label_column df) as [k|]; [|discriminate].
  intros (y' & Hy & (oh' & _ & [= -> _])%bind_eq_Ok)%bind_eq_Ok.
  apply mapM_Ok_length in Hy. unfold column_values in Hy. by rewrite length_map in Hy.
Qed.

Lemma extract_labels_None (df : frame) (lab : option (list Z) * option (list (list Z))) :
  label_column df = None → extract_labels df = Ok lab → lab = (None, None).
Proof. unfold extract_labels. intros -> [= <-]. done. Qed.

Lemma preprocess_data_rows (df : frame) (p : preprocessed) :
  preprocess_data df = Ok p →
  length (X_scaled p) = length (rows df) ∧ X_reshaped p = expand_dims (X_scaled p).
Proof.
  intros (lab & Xs & _ & HX & ->)%preprocess_data_Ok. cbn. split; [|done].
  apply scaler_rows in HX. unfold features in HX. by rewrite length_map in HX.
Qed.

Lemma preprocess_data_no_label (df : frame) (p : preprocessed) :
  label_column df = None → preprocess_data df = Ok p → y_true p = None ∧ y_true_onehot p = None.
Proof. intros Hn (lab & Xs & Hl & _ & ->)%preprocess_data_Ok. by rewrite (extract_labels_None _ _ Hn Hl). Qed.

(** C8: on success, [preprocess_data] returns one scaled row per input
    row, the reshaped matrix is the scaled one with a trailing axis, the
    labels (when the table has a [label] column) have one entry per row,
    and without a [label] column both label outputs are [None]. *)
Theorem preprocess_shapes (df : frame) (p : preprocessed) :
  preprocess_data df = Ok p →
  length (X_scaled p) = length (rows df) ∧
  X_reshaped p = expand_dims (X_scaled p) ∧
  (∀ y, y_true p = Some y → length y = length (rows df)) ∧
  (label_column df = None → y_true p = None ∧ y_true_onehot p = None).
Proof.
  intros Hp. destruct (preprocess_data_rows df p Hp) as [Hl HR].
  split; [done|]. split; [done|]. split; [|intros Hn; exact (preprocess_data_no_label df p Hn Hp)].
  apply preprocess_data_Ok in Hp as (lab & Xs & Hlab & _ & ->).
  intros y Hy. destruct lab as [[y'|] oh]; cbn in Hy; [|discriminate].
  injection Hy as ->. by eapply extract_labels_length.
Qed.

(** C16: when the table has a [label] column and [int()] rejects one of
    its values (NaN in a float column, an infinity, a non-numeric string),
    [preprocess_data] fails with [ValueError("Error in preprocessing data:
    ...")]: such rows are not dropped, the whole request fails. *)
Theorem preprocess_bad_label_fails (df : frame) (k : nat) (c : cell) (e0 : exn) :
  label_column df = Some k → c ∈ column_values df k → py_int c = Err e0 →
  ∃ e, preprocess_data df = Err e ∧ exn_class e = ValueError ∧
       ∃ s, exn_msg e = "Error in preprocessing data: " +:+ s.
Proof.
  intros Hk Hc He0.
  destruct (proj2 (mapM_Err_iff py_int (column_values df k)) (ex_intro _ c (ex_intro _ e0 (conj Hc He0))))
    as [e He].
  unfold preprocess_data, extract_labels. rewrite Hk, He. cbn. eexists. split; [reflexivity|]. cbn. eauto.
Qed.

(** C17: the matrix given to the scaler is [df.iloc[:, 1:]], so when the
    [label] column is not the first one its values are scaled as a
    feature: column [k - 1] of the scaler's input is the label column. *)
Theorem preprocess_scales_label_column (df : frame) (p : preprocessed) (k : nat) :
  preprocess_data df = Ok p → label_column df = Some k → (1 ≤ k)%nat →
  scaler_transform (features df) = Ok (X_scaled p) ∧
  map (λ f, f !! (k - 1)%nat) (features df) = map (λ r, r !! k) (rows df).
Proof.
  intros (lab & Xs & Hl & HX & ->)%preprocess_data_Ok Hk H1. split; [done|].
  unfold features. rewrite map_map. apply map_ext. intros r. rewrite lookup_drop. f_equal. lia.
Qed.
End PreprocessTheorems.

(** ** Witnesses *)

(** A scaler for concrete runs: it reads numeric cells as they are and,
    like scikit-learn's [check_array], rejects anything else. *)
Definition cell_q (c : cell) : res Q :=
  match c with
  | CInt z => Ok (inject_Z z)
  | CFloat (PFin q) => Ok q
  | _ => raise ValueError "could not convert string to float"
  end.

Definition numeric_scaler : Scaler := {| scaler_transform := mapM (mapM cell_q) |}.

Lemma numeric_scaler_laws : @ScalerLaws numeric_scaler.
Proof. constructor. intros X Xs. apply mapM_Ok_length. Qed.

Definition labelled_table : frame :=
  mkFrame ["id"; "f1"; "label"] [[CInt 0; CFloat (PFin (1 # 10)); CInt 0]; [CInt 1; CFloat (PFin (3 # 10)); CInt 1]].

Definition labelled_pre : preprocessed :=
  mkPre [[1 # 10; 0]; [3 # 10; 1]] [[[1 # 10]; [0]]; [[3 # 10]; [1]]] (Some [0; 1]%Z)
        (Some [[1; 0; 0; 0; 0]; [0; 1; 0; 0; 0]]%Z).

(** The same table with a missing label, read by pandas as NaN. *)
Definition nan_label_table : frame :=
  mkFrame ["id"; "f1"; "label"] [[CInt 0; CFloat (PFin (1 # 10)); CFloat (PFin 0)];
                                 [CInt 1; CFloat (PFin (3 # 10)); CFloat PNaN]].

Lemma preprocess_shapes_witness :
  @preprocess_data numeric_scaler labelled_table = Ok labelled_pre ∧
  length (X_scaled labelled_pre) = length (rows labelled_table) ∧
  X_reshaped labelled_pre = expand_dims (X_scaled labelled_pre) ∧
  (∀ y, y_true labelled_pre = Some y → length y = length (rows labelled_table)) ∧
  (label_column labelled_table = None → y_true labelled_pre = None ∧ y_true_onehot labelled_pre = None).
Proof.
  assert (H : @preprocess_data numeric_scaler labelled_table = Ok labelled_pre) by (vm_compute; reflexivity).
  split; [exact H|]. exact (@preprocess_shapes numeric_scaler numeric_scaler_laws _ _ H).
Defined.

Lemma preprocess_bad_label_fails_witness :
  label_column nan_label_table = Some 2%nat ∧ CFloat PNaN ∈ column_values nan_label_table 2 ∧
  py_int (CFloat PNaN) = Err (PyExn ValueError "cannot convert float NaN to integer") ∧
  ∃ e, @preprocess_data numeric_scaler nan_label_table = Err e ∧ exn_class e = ValueError ∧
       ∃ s, exn_msg e = "Error in preprocessing data: " +:+ s.
Proof.
  assert (H1 : label_column nan_label_table = Some 2%nat) by reflexivity.
  assert (H2 : CFloat PNaN ∈ column_values nan_label_table 2) by (cbn; right; left).
  assert (H3 : py_int (CFloat PNaN) = Err (PyExn ValueError "cannot convert float NaN to integer"))
    by reflexivity.
  split; [exact H1|]. split; [exact H2|]. split; [exact H3|].
  exact (@preprocess_bad_label_fails numeric_scaler _ _ _ _ H1 H2 H3).
Defined.

Lemma preprocess_scales_label_column_witness :
  @preprocess_data numeric_scaler labelled_table = Ok labelled_pre ∧
  label_column labelled_table = Some 2%nat ∧ (1 ≤ 2)%nat ∧
  @scaler_transform numeric_scaler (features labelled_table) = Ok (X_scaled labelled_pre) ∧
  map (λ f, f !! 1%nat) (features labelled_table) = map (λ r, r !! 2%nat) (rows labelled_table).
Proof.
  assert (H1 : @preprocess_data numeric_scaler labelled_table = Ok labelled_pre) by (vm_compute; reflexivity).
  assert (H2 : label_column labelled_table = Some 2%nat) by reflexivity.
  assert (H3 : (1 ≤ 2)%nat) by lia.
  split; [exact H1|]. split; [exact H2|]. split; [exact H3|].
  exact (@preprocess_scales_label_column numeric_scaler _ _ _ H1 H2 H3).
Defined.
