(* ===== verification/Pipeline.v ===== *)
(** [NetworkTrafficClassifier.predict] (model_handler.py lines 137-295).

    [predict] reads the clock twice and draws from NumPy's global random
    generator, so it is a function of the world [W] ([Artifacts.World]) as
    well as of the table: [pm W A = W → res A * W] threads the world and
    keeps the state reached when an exception is raised, as Python does.

    The body follows the source line by line: the [models_loaded] guard,
    [time.time()], [preprocess_data], the classifier, [np.argmax] and
    [np.max] per row, the discriminator and [.reshape(-1, 1)], the GMM and
    the (unused) one-hot of its labels, the generator on [min(100, n)]
    noise rows, the second clock read, the evaluation when labels exist
    ([evaluate]: the NaN filter, the boolean indexing, and the [try] block
    whose exceptions are swallowed), the per-class distribution loop, and
    the result dict.  Every exception is re-raised as
    [ValueError("Error in prediction pipeline: ...")]. *)

From stdpp Require Import base list strings decidable.
From Stdlib Require Import ZArith QArith Strings.Byte.
From S2P Require Import Prelude PyScalar Base64 Utf8 Labels Argmax Report Metrics Artifacts Handler Preprocess.

(** ** The state-and-error monad *)

Definition pm (W A : Type) : Type := W → res A * W.

#[export] Instance pm_ret {W} : MRet (pm W) := λ A a w, (Ok a, w).
#[export] Instance pm_bind {W} : MBind (pm W) :=
  λ A B f m w, match m w with (Ok a, w') => f a w' | (Err e, w') => (Err e, w') end.

Definition lift {W A} (m : res A) : pm W A := λ w, (m, w).

(** [except Exception as e: raise ValueError(f"<prefix>{e}")] in [pm]. *)
Definition pm_reraise {W A} (prefix : string) (m : pm W A) : pm W A :=
  λ w, match m w with
       | (Ok a, w') => (Ok a, w')
       | (Err e, w') => (Err (PyExn ValueError (prefix +:+ exn_msg e)), w')
       end.

(** ** What the result dict needs from pandas and matplotlib *)

(** [df.memory_usage(deep=True).sum()], and the bytes [buf.read()]
    returns after seaborn draws the heatmap of a confusion matrix and
    [plt.savefig(buf, format='png')] writes it (lines 247-257). *)
Class Outputs := {
  memory_usage : frame → Q;
  savefig_png : list (list nat) → list byte
}.

(** ** The result bundle (lines 279-290) *)

Record bundle := mkBundle {
  predictions : list string;
  confidence_scores : list Q;
  distribution : list (string * nat);
  pseudo_labels : list Z;
  processing_time : Q;
  file_size_mb : Q;
  num_samples : nat;
  device_used : string;
  classification_report_out : option jv;
  confusion_matrix_img : option string
}.

Section Predict.
Context `{Scaler} `{Classifier} `{Discriminator} `{Gmm} `{Generator} `{Outputs}.
Context {W : Type} `{World W}.

Definition now : pm W Q := λ w, let '(t, w') := clock_now w in (Ok t, w').

Definition draw (n d : nat) : pm W (list (list Q)) := λ w, let '(x, w') := normal_draw n d w in (Ok x, w').

(** [self.generate_fake_samples(num_samples)] (lines 114-124). *)
Definition generate_fake_samples (num_samples : nat) : pm W (list (list Q)) :=
  noise ← draw num_samples LATENT_DIM;
  lift (generator_predict noise).

(** [self.get_discriminator_features(X_scaled)] (lines 126-135): the
    predictions flattened by [.reshape(-1, 1)]. *)
Definition get_discriminator_features (X : list (list Q)) : res (list (list Q)) :=
  d ← discriminator_predict X;
  mret (map (λ x, [x]) (concat d)).

(** Lines 218-222: for each label present in the report, read its
    [f1-score], test it with [np.isnan] and format it with [:.4f]. *)
Definition print_f1 (report : list (string * jv)) : res unit :=
  _ ← mapM (λ name,
       match list_find (λ kv : string * jv, kv.1 = name) report with
       | None => mret tt
       | Some (_, (_, JDict ms)) =>
           match list_find (λ kv : string * jv, kv.1 = "f1-score") ms with
           | Some (_, (_, f1)) =>
               _ ← isnan_truth f1;
               if is_number f1 then mret tt
               else raise TypeError "unsupported format string passed to type.__format__"
           | None => raise KeyError "'f1-score'"
           end
       | Some _ => raise TypeError "object is not subscriptable"
       end) LABELS_ISCX;
  mret tt.

(** The [try] block of lines 194-261 on the filtered labels.  The report
    printed at lines 212-213 is the same call without [output_dict]: it
    checks its arguments as the first one does, and its text is only
    printed. *)
Definition evaluation_block (yt yp : list Z) : res (option jv * option string) :=
  report ← classification_report yt yp LABELS_ISCX;
  report ← repair_report report;
  _ ← classification_report yt yp LABELS_ISCX;
  _ ← print_f1 report;
  fixed ← fix_nan_recursive (JDict report);
  img ← utf8_decode (b64encode (savefig_png (confusion_matrix yt yp)));
  mret (Some fixed, Some (str_of_codepoints img)).

(** Lines 182-267 when [y_true] is not [None]: [np.isnan(y_true)] (an
    object array raises), the filter keeps every row of an integer array,
    [y_true[valid].astype(int)] casts to [int64], [pred_classes[valid]]
    needs as many predictions as labels, and an exception inside the
    [try] block leaves both outputs [None]. *)
Definition evaluate (yt : list Z) (pred_classes : list nat) : res (option jv * option string) :=
  let dt := int_array_dtype yt in
  if decide (dt = OBJ) then isnan_type_error
  else if decide (length yt = 0%nat) then mret (None, None)
  else
    valid_y ← mapM (to_int64 dt) yt;
    if decide (length pred_classes ≠ length yt) then
      raise IndexError "boolean index did not match indexed array along dimension 0"
    else mret (match evaluation_block valid_y (map Z.of_nat pred_classes) with
               | Ok out => out
               | Err _ => (None, None)
               end).

(** Lines 272-276: the count of every class, and the percentage printed
    with it, which divides by the number of predictions. *)
Definition distribution_of (pred_classes : list nat) : res (list (string * nat)) :=
  if decide (length pred_classes = 0%nat) then raise ZeroDivisionError "division by zero"
  else mret (zip LABELS_ISCX (map (λ i, count_eq i pred_classes) (seq 0 (length LABELS_ISCX)))).

(** [predict] *)
Definition predict (hs : handler) (df : frame) : pm W bundle :=
  pm_reraise "Error in prediction pipeline: " (
    if negb (models_loaded hs) then lift (raise ValueError "Models not loaded properly") else
    start_time ← now;
    pre ← lift (preprocess_data df);
    preds ← lift (classifier_predict (X_reshaped pre));
    pred_classes ← lift (mapM np_argmax preds);
    confidence ← lift (mapM np_max preds);
    disc_features ← lift (get_discriminator_features (X_scaled pre));
    pseudo ← lift (gmm_predict disc_features);
    _ ← lift (to_categorical pseudo (length LABELS_ISCX));
    _ ← generate_fake_samples (Nat.min 100 (length (X_scaled pre)));
    end_time ← now;
    ev ← lift (match y_true pre with
               | Some yt => evaluate yt pred_classes
               | None => mret (None, None)
               end);
    dist ← lift (distribution_of pred_classes);
    names ← lift (mapM label_name pred_classes);
    mret (mkBundle names confidence dist pseudo (end_time - start_time)
                   (memory_usage df / 1048576) (length (rows df)) (device hs) ev.1 ev.2)).
End Predict.

(** ** Lemmas on [pm] *)

Section PmLemmas.
Context {W A B : Type}.

Lemma pm_bind_Ok (m : pm W A) (f : A → pm W B) (w w'' : W) (b : B) :
  (x ← m; f x) w = (Ok b, w'') ↔ ∃ a w', m w = (Ok a, w') ∧ f a w' = (Ok b, w'').
Proof.
  unfold mbind, pm_bind. destruct (m w) as [[a|e] w'] eqn:Hm; split.
  - eauto.
  - intros (a' & w1 & [= -> ->] & Hf). exact Hf.
  - discriminate.
  - intros (a' & w1 & [=] & _).
Qed.

Lemma pm_reraise_Ok (p : string) (m : pm W A) (w w' : W) (a : A) :
  pm_reraise p m w = (Ok a, w') ↔ m w = (Ok a, w').
Proof. unfold pm_reraise. destruct (m w) as [[a'|e] w1]; split; congruence. Qed.

Lemma lift_Ok (m : res A) (w w' : W) (a : A) : lift m w = (Ok a, w') ↔ m = Ok a ∧ w' = w.
Proof. unfold lift. split; [intros [= -> ->]|intros [-> ->]]; done. Qed.
End PmLemmas.

(** Take apart every successful [x ← m; k] of a hypothesis. *)
Ltac inv_pm :=
  repeat match goal with
  | H : mbind _ _ _ = (Ok _, _) |- _ => apply pm_bind_Ok in H as (? & ? & ? & H)
  | H : lift _ _ = (Ok _, _) |- _ => apply lift_Ok in H as [? ?]; subst
  | H : mret _ _ = (Ok _, _) |- _ => injection H as H; subst
  end.

Lemma label_name_lt (i : nat) (s : string) : label_name i = Ok s → (i < length LABELS_ISCX)%nat.
Proof.
  intros H. destruct (decide (i < length LABELS_ISCX)%nat) as [|Hge]; [done|].
  unfold label_name in H. rewrite py_index_nat_ge in H by lia. discriminate.
Qed.

Lemma distribution_of_Ok (pcs : list nat) (d : list (string * nat)) :
  distribution_of pcs = Ok d → pcs ≠ [].
Proof. unfold distribution_of. case_decide as H0; [discriminate|]. intros _. by destruct pcs. Qed.

Section PredictTheorems.
Context `{ScalerLaws} `{ClassifierLaws} `{Discriminator} `{GmmLaws} `{Generator} `{Outputs}.
Context {W : Type} `{World W}.

(** The values a successful run of [predict] went through. *)
Lemma predict_Ok_inv (hs : handler) (df : frame) (w w' : W) (b : bundle) :
  predict hs df w = (Ok b, w') →
  models_loaded hs = true ∧
  ∃ pre preds pcs conf disc pseudo ev dist t0 t1,
    preprocess_data df = Ok pre ∧
    classifier_predict (X_reshaped pre) = Ok preds ∧
    mapM np_argmax preds = Ok pcs ∧ mapM np_max preds = Ok conf ∧
    get_discriminator_features (X_scaled pre) = Ok disc ∧ gmm_predict disc = Ok pseudo ∧
    (∃ oh, to_categorical pseudo (length LABELS_ISCX) = Ok oh) ∧
    (match y_true pre with Some yt => evaluate yt pcs | None => mret (None, None) end) = Ok ev ∧
    distribution_of pcs = Ok dist ∧ mapM label_name pcs = Ok (predictions b) ∧
    b = mkBundle (predictions b) conf dist pseudo (t1 - t0) (memory_usage df / 1048576)
                 (length (rows df)) (device hs) ev.1 ev.2.
Proof.
  unfold predict. rewrite pm_reraise_Ok. destruct (models_loaded hs); cbn [negb]; [|intros [=]].
  intros Hp. split; [done|]. unfold generate_fake_samples in Hp. inv_pm.
  do 10 eexists. repeat split; eauto.
Qed.

(** C33: [predict]'s only effects on the process-wide state: a successful
    run reads the clock, draws one [min(100, n) x LATENT_DIM] matrix of
    noise from NumPy's global generator ([n] the number of rows), and
    reads the clock again; [processing_time] is the difference of the two
    readings. *)
Theorem predict_world (hs : handler) (df : frame) (w w' : W) (b : bundle) :
  predict hs df w = (Ok b, w') →
  let w1 := (clock_now w).2 in
  let w2 := (normal_draw (Nat.min 100 (length (rows df))) LATENT_DIM w1).2 in
  w' = (clock_now w2).2 ∧ processing_time b = (clock_now w2).1 - (clock_now w).1.
Proof.
  unfold predict. rewrite pm_reraise_Ok. destruct (models_loaded hs); cbn [negb]; [|intros [=]].
  intros Hp. unfold generate_fake_samples, now, draw in Hp. inv_pm.
  repeat match goal with
  | H : (let '(_, _) := ?e in _) = (Ok _, _) |- _ => let E := fresh "E" in destruct e eqn:E; injection H as <- <-
  end.
  match goal with H : preprocess_data df = Ok _ |- _ => destruct (preprocess_data_rows df _ H) as [Hl _] end.
  rewrite Hl in *. cbn zeta. cbn [fst snd].
  repeat match goal with E : ?a = (_, _) |- context [?a] => rewrite E; cbn [fst snd] end. done.
Qed.
End PredictTheorems.

Lemma map_wrap64_int64 (yt : list Z) : forallb in_int64 yt = true → map wrap64 yt = yt.
Proof.
  induction yt as [|z yt IH]; [done|]. cbn. intros [Hz Hyt]%andb_true_iff. rewrite IH by done.
  f_equal. unfold wrap64. unfold in_int64 in Hz. apply andb_true_iff in Hz as [_ Hz]. by rewrite Hz.
Qed.

Lemma to_int64_map_wrap64 (yt v : list Z) :
  int_array_dtype yt ≠ OBJ → mapM (to_int64 (int_array_dtype yt)) yt = Ok v → v = map wrap64 yt.
Proof.
  intros Hdt Hv. unfold int_array_dtype in *.
  destruct (forallb in_int64 yt) eqn:H64; [|destruct (forallb in_uint64 yt); [|done]].
  - rewrite (mapM_Ok_map _ id) in Hv by done. injection Hv as <-. by rewrite map_id, map_wrap64_int64.
  - rewrite (mapM_Ok_map _ wrap64) in Hv by done. by injection Hv as <-.
Qed.

Section EvaluateLemmas.
Context `{Outputs}.

(** The report [evaluate] returns is the repaired report of the cast
    labels and the predictions; the first repair loop changes nothing on
    it. *)
Lemma evaluate_report (yt : list Z) (pcs : list nat) (rep : jv) (img : option string) :
  evaluate yt pcs = Ok (Some rep, img) →
  ∃ r, classification_report (map wrap64 yt) (map Z.of_nat pcs) LABELS_ISCX = Ok r ∧
       fix_nan_recursive (JDict r) = Ok rep.
Proof.
  unfold evaluate. case_decide as Hobj; [discriminate|]. case_decide; [discriminate|].
  intros (v & Hv & Hrest)%bind_eq_Ok. case_decide; [discriminate|]. injection Hrest as Hrest.
  rewrite <- (to_int64_map_wrap64 yt v) by done.
  destruct (evaluation_block v (map Z.of_nat pcs)) as [out|] eqn:Hb; [|discriminate]. subst out.
  unfold evaluation_block in Hb.
  apply bind_eq_Ok in Hb as (r & Hr & (r' & Hr' & (_ & _ & (_ & _ & (fixed & Hfix & (img' & _ & [= ->])%bind_eq_Ok)%bind_eq_Ok)%bind_eq_Ok)%bind_eq_Ok)%bind_eq_Ok).
  rewrite finite_report_repair in Hr' by (by eapply classification_report_finite). injection Hr' as <-.
  eauto.
Qed.

Lemma evaluate_image (yt : list Z) (pcs : list nat) (rep : option jv) (img : string) :
  evaluate yt pcs = Ok (rep, Some img) →
  img = String.string_of_list_byte
          (b64encode (savefig_png (confusion_matrix (map wrap64 yt) (map Z.of_nat pcs)))).
Proof.
  unfold evaluate. case_decide as Hobj; [discriminate|]. case_decide; [discriminate|].
  intros (v & Hv & Hrest)%bind_eq_Ok. case_decide; [discriminate|]. injection Hrest as Hrest.
  rewrite <- (to_int64_map_wrap64 yt v) by done.
  destruct (evaluation_block v (map Z.of_nat pcs)) as [out|] eqn:Hb; [|discriminate]. subst out.
  unfold evaluation_block in Hb.
  apply bind_eq_Ok in Hb as (r & _ & (r' & _ & (_ & _ & (_ & _ & (fixed & _ & (img' & Hd & Hi)%bind_eq_Ok)%bind_eq_Ok)%bind_eq_Ok)%bind_eq_Ok)%bind_eq_Ok).
  injection Hi as _ <-. rewrite utf8_decode_ascii in Hd by apply b64encode_ascii.
  injection Hd as <-. apply str_of_codepoints_bytes.
Qed.

Lemma evaluate_report_Some (yt : list Z) (pcs : list nat) (rep : jv) (img : option string) :
  evaluate yt pcs = Ok (Some rep, img) →
  length (unique_labels (map wrap64 yt) (map Z.of_nat pcs)) = length LABELS_ISCX.
Proof. intros (r & Hr & _)%evaluate_report. by apply classification_report_lengths in Hr. Qed.
End EvaluateLemmas.

Section PipelineTheorems.
Context `{ScalerLaws} `{ClassifierLaws} `{Discriminator} `{GmmLaws} `{Generator} `{Outputs}.
Context {W : Type} `{World W}.

(** The row counts of a successful run. *)
Lemma predict_lengths (hs : handler) (df : frame) (w w' : W) (b : bundle) :
  predict hs df w = (Ok b, w') →
  ∃ pcs preds, mapM label_name pcs = Ok (predictions b) ∧ mapM np_argmax preds = Ok pcs ∧
    mapM np_max preds = Ok (confidence_scores b) ∧ length preds = length (rows df) ∧
    num_samples b = length (rows df) ∧ distribution_of pcs = Ok (distribution b) ∧ pcs ≠ [].
Proof.
  intros (_ & pre & preds & pcs & conf & disc & pseudo & ev & dist & t0 & t1 &
          Hpre & Hcl & Hpcs & Hconf & _ & _ & _ & _ & Hdist & Hnames & ->)%predict_Ok_inv.
  pose proof (distribution_of_Ok _ _ Hdist) as Hne.
  destruct (preprocess_data_rows df pre Hpre) as (HX & HR).
  exists pcs, preds. cbn. repeat split; try done.
  apply classifier_rows in Hcl. rewrite Hcl, HR. unfold expand_dims. by rewrite length_map.
Qed.

(** C1: a successful [predict] returns one prediction and one confidence
    per row of the table, [num_samples] is the number of rows, the
    distribution has one entry per label of [LABELS_ISCX] in order, and its
    counts add up to the number of rows. *)
Theorem predict_counts (hs : handler) (df : frame) (w w' : W) (b : bundle) :
  predict hs df w = (Ok b, w') →
  num_samples b = length (rows df) ∧
  length (predictions b) = num_samples b ∧ length (confidence_scores b) = num_samples b ∧
  map fst (distribution b) = LABELS_ISCX ∧ sum_list (map snd (distribution b)) = num_samples b.
Proof.
  intros Hp. destruct (predict_lengths hs df w w' b Hp)
    as (pcs & preds & Hnames & Hpcs & Hconf & Hlen & Hn & Hdist & _).
  pose proof (mapM_Ok_length _ _ _ Hnames) as Hl1.
  apply mapM_Ok_length in Hpcs, Hconf. rewrite Hn.
  unfold distribution_of in Hdist. case_decide; [discriminate|]. injection Hdist as <-.
  split; [done|]. split; [lia|]. split; [lia|]. split; [reflexivity|].
  change (sum_list (map (λ i, count_eq i pcs) (seq 0 5)) = length (rows df)).
  rewrite sum_count_eq_all; [lia|].
  apply Forall_forall. intros i Hi%list_elem_of_In. apply mapM_Ok_Forall2 in Hnames.
  apply list_elem_of_lookup in Hi as [j Hj].
  destruct (Forall2_lookup_l _ _ _ _ _ Hnames Hj) as (s & _ & Hs).
  exact (label_name_lt i s Hs).
Qed.

(** C2: every exception of [predict], whatever stage raised it, reaches
    the caller as one [ValueError] whose message starts with ["Error in
    prediction pipeline: "]. *)
Theorem predict_error_taxonomy (hs : handler) (df : frame) (w w' : W) (e : exn) :
  predict hs df w = (Err e, w') →
  exn_class e = ValueError ∧ ∃ s, exn_msg e = "Error in prediction pipeline: " +:+ s.
Proof.
  unfold predict, pm_reraise. destruct (_ w) as [[a|e0] w1]; [discriminate|].
  intros [= <- _]. cbn. eauto.
Qed.

(** C19: when the models did not load, [predict] fails at once with
    ["Error in prediction pipeline: Models not loaded properly"], before
    reading the clock or touching the table. *)
Theorem predict_not_loaded (hs : handler) (df : frame) (w : W) :
  models_loaded hs = false →
  predict hs df w =
    (Err (PyExn ValueError "Error in prediction pipeline: Models not loaded properly"), w).
Proof. intros Hl. unfold predict, pm_reraise. by rewrite Hl. Qed.

(** C20: the confusion-matrix image of a successful response is the
    base64 text of the PNG the plot saved for the confusion matrix of the
    int64 labels against the predicted classes: the RFC 4648 decoder gives
    those bytes back, and the text has [4 * ceil(n / 3)] characters for [n]
    bytes ([.decode('utf-8')] never raises on it); without a [label]
    column there is neither a report nor an image. *)
Theorem predict_image (hs : handler) (df : frame) (w w' : W) (b : bundle) :
  predict hs df w = (Ok b, w') →
  (label_column df = None → classification_report_out b = None ∧ confusion_matrix_img b = None) ∧
  ∀ img, confusion_matrix_img b = Some img →
    ∃ pre yt pcs, preprocess_data df = Ok pre ∧ y_true pre = Some yt ∧
      mapM label_name pcs = Ok (predictions b) ∧
      let png := savefig_png (confusion_matrix (map wrap64 yt) (map Z.of_nat pcs)) in
      rfc4648_decode (String.list_byte_of_string img) = Some png ∧
      List.length (String.list_byte_of_string img) = (4 * ((List.length png + 2) / 3))%nat.
Proof.
  intros (_ & pre & preds & pcs & conf & disc & pseudo & ev & dist & t0 & t1 &
          Hpre & _ & _ & _ & _ & _ & _ & Hev & _ & Hnames & Hb)%predict_Ok_inv.
  split.
  - intros Hn. destruct (preprocess_data_no_label df pre Hn Hpre) as [Hy _].
    rewrite Hy in Hev. rewrite Hb. cbn. by injection Hev as <-.
  - intros img Himg. rewrite Hb in Himg. cbn in Himg.
    destruct (y_true pre) as [yt|] eqn:Hy; [|injection Hev as <-; discriminate].
    destruct ev as [r i]. cbn in Himg. subst i. apply evaluate_image in Hev.
    exists pre, yt, pcs. split_and!; [done..|]. cbn zeta.
    rewrite Hev, String.list_byte_of_string_of_list_byte.
    split; [apply b64encode_decode|apply b64encode_length].
Qed.

(** C10: a classification report is returned only when the labels of the
    table (cast to [int64]) and the predicted classes together take
    exactly five distinct values; on any other batch the report and the
    image are silently [None] although the request succeeds. *)
Theorem predict_report_needs_five_labels (hs : handler) (df : frame) (w w' : W) (b : bundle) (rep : jv) :
  predict hs df w = (Ok b, w') → classification_report_out b = Some rep →
  ∃ k ys pcs, label_column df = Some k ∧ mapM py_int (column_values df k) = Ok ys ∧
    mapM label_name pcs = Ok (predictions b) ∧
    length (unique_labels (map wrap64 ys) (map Z.of_nat pcs)) = length LABELS_ISCX.
Proof.
  intros Hp Hrep. pose proof (predict_lengths hs df w w' b Hp) as (pcs' & _ & Hnames' & _).
  destruct (predict_Ok_inv hs df w w' b Hp) as (_ & pre & preds & pcs & conf & disc & pseudo & ev & dist & t0 & t1 &
             Hpre & _ & Hpcs & _ & _ & _ & _ & Hev & _ & Hnames & Hb).
  rewrite Hb in Hrep. cbn in Hrep.
  apply preprocess_data_Ok in Hpre as (lab & Xs & Hlab & _ & ->). cbn in Hev.
  unfold extract_labels in Hlab. destruct (label_column df) as [k|] eqn:Hk.
  - apply bind_eq_Ok in Hlab as (ys & Hys & (oh & _ & [= <-])%bind_eq_Ok). cbn in Hev.
    destruct ev as [ev1 ev2]. cbn in Hrep. subst ev1.
    exists k, ys, pcs. repeat split; try done. by eapply evaluate_report_Some.
  - injection Hlab as <-. cbn in Hev. injection Hev as <-. discriminate.
Qed.

(** C25: every pseudo-label of a successful response lies in [[0, 5)]: the
    unused [to_categorical(pseudo_labels, 5)] of line 168 makes the whole
    request fail as soon as the GMM assigns a row to a component numbered
    5 or more. *)
Theorem predict_pseudo_labels_range (hs : handler) (df : frame) (w w' : W) (b : bundle) :
  predict hs df w = (Ok b, w') → Forall (λ z, 0 <= z < 5)%Z (pseudo_labels b).
Proof.
  intros (_ & pre & preds & pcs & conf & disc & pseudo & ev & dist & t0 & t1 &
          _ & _ & _ & _ & _ & Hgmm & [oh Hoh] & _ & _ & _ & ->)%predict_Ok_inv. cbn.
  pose proof (gmm_labels _ _ Hgmm) as Hr. pose proof gmm_components_int64 as Hc.
  assert (H64 : Forall (λ z, in_int64 z = true) pseudo).
  { rewrite Forall_forall in Hr |- *. intros z Hz%Hr. unfold in_int64, int64_min, int64_max.
    apply andb_true_intro. rewrite !Z.leb_le. lia. }
  apply (to_categorical_Ok_range pseudo 5 oh H64) in Hoh as Hin.
  apply Forall_forall. intros z Hz. rewrite Forall_forall in Hr, Hin.
  specialize (Hr z Hz). specialize (Hin z Hz). cbn in Hin. lia.
Qed.

(** C26: [predict] never succeeds on a table without rows (the
    percentage printed for each class divides by the number of
    predictions, if nothing failed before). *)
Theorem predict_empty_table (hs : handler) (df : frame) (w : W) :
  rows df = [] → ∃ e w', predict hs df w = (Err e, w').
Proof.
  intros Hrows. destruct (predict hs df w) as [[b|e] w'] eqn:Hp; [|eauto].
  exfalso. destruct (predict_lengths hs df w w' b Hp) as (pcs & preds & _ & Hpcs & _ & Hlen & _ & _ & Hne).
  apply mapM_Ok_length in Hpcs. rewrite Hrows in Hlen. destruct pcs; cbn in *; [done|lia].
Qed.

(** With a softmax classifier, every confidence score of a successful
    response lies in [[0, 1]]. *)
Lemma predict_confidence_bounds `{!ProbabilisticClassifier} (hs : handler) (df : frame) (w w' : W) (b : bundle) :
  predict hs df w = (Ok b, w') → Forall (λ c, 0 <= c <= 1)%Q (confidence_scores b).
Proof.
  intros (_ & pre & preds & pcs & conf & disc & pseudo & ev & dist & t0 & t1 &
          _ & Hcl & _ & Hconf & _ & _ & _ & _ & _ & _ & ->)%predict_Ok_inv. cbn.
  apply classifier_probs in Hcl. apply mapM_Ok_Forall2 in Hconf.
  induction Hconf as [|r m rs ms Hm _ IH]; constructor.
  - inversion Hcl; subst. by eapply (np_max_Forall (λ x, 0 <= x <= 1)).
  - apply IH. by inversion Hcl.
Qed.
(** C32: the classification report of a successful response has the
    type [report_ty LABELS_ISCX]: a row of four floats for each of the
    five labels in order, [accuracy], and the two averages, which is what
    the frontend reads. *)
Theorem predict_report_type (hs : handler) (df : frame) (w w' : W) (b : bundle) (rep : jv) :
  predict hs df w = (Ok b, w') → classification_report_out b = Some rep →
  typeof rep = report_ty LABELS_ISCX.
Proof.
  intros (_ & pre & preds & pcs & conf & disc & pseudo & ev & dist & t0 & t1 &
          _ & _ & _ & _ & _ & _ & _ & Hev & _ & _ & ->)%predict_Ok_inv Hrep.
  cbn in Hrep. destruct (y_true pre) as [yt|]; [|injection Hev as <-; discriminate].
  destruct ev as [ev1 ev2]. cbn in Hrep. subst ev1.
  destruct (evaluate_report yt pcs rep ev2 Hev) as (r & Hr & Hfix).
  destruct (finite_report_clean r (classification_report_finite _ _ _ _ Hr)) as [Hn Hok].
  rewrite fix_nan_recursive_id in Hfix by done. injection Hfix as <-.
  by eapply classification_report_type.
Qed.
End PipelineTheorems.

(** ** A concrete run: the example of the specification *)

(** Artifacts small enough to compute with: a scaler that reads numeric
    cells as they are, a classifier that predicts [chat] when the first
    feature is below [0.2] and [email] otherwise, a one-component GMM, a
    clock that ticks once per read, and zero noise. *)
Module Scenario.

Definition probs_chat : list Q := [7 # 10; 1 # 10; 1 # 10; 1 # 20; 1 # 20].
Definition probs_email : list Q := [1 # 10; 7 # 10; 1 # 10; 1 # 20; 1 # 20].

#[export] Existing Instance numeric_scaler.
#[export] Existing Instance numeric_scaler_laws.

#[export] Instance ex_classifier : Classifier := {|
  classifier_predict := λ X, Ok (map (λ row, match row with
                                              | [q] :: _ => if Qlt_le_dec q (1 # 5) then probs_chat else probs_email
                                              | _ => probs_email
                                              end) X);
  classifier_params := 0 |}.
#[export] Instance ex_classifier_laws : ClassifierLaws.
Proof. constructor. intros X P [= <-]. apply length_map. Qed.
#[export] Instance ex_classifier_probs : ProbabilisticClassifier.
Proof.
  constructor. intros X P [= <-]. apply Forall_forall. intros r (row & <- & _)%in_map_iff.
  assert (Hc : Forall (λ x, 0 <= x <= 1) probs_chat) by (repeat constructor; unfold Qle; cbn; lia).
  assert (He : Forall (λ x, 0 <= x <= 1) probs_email) by (repeat constructor; unfold Qle; cbn; lia).
  destruct row as [|[|q []] ?]; try exact He. destruct (Qlt_le_dec q (1 # 5)); auto.
Qed.

#[export] Instance ex_discriminator : Discriminator := {|
  discriminator_predict := λ X, Ok (map (λ _, [1 # 2]) X); discriminator_params := 0 |}.
#[export] Instance ex_gmm : Gmm := {| gmm_predict := λ X, Ok (map (λ _, 0%Z) X); gmm_n_components := 1 |}.
#[export] Instance ex_gmm_laws : GmmLaws.
Proof.
  constructor; [|reflexivity]. intros X zs [= <-]. apply Forall_forall.
  intros z (x & <- & _)%in_map_iff. cbn. lia.
Qed.
#[export] Instance ex_generator : Generator := {| generator_predict := Ok; generator_params := 0 |}.
#[export] Instance ex_world : World nat := {|
  clock_now := λ t, (inject_Z (Z.of_nat t), S t);
  normal_draw := λ n d w, (repeat (repeat 0 d) n, w) |}.
(** The plot is the eight-byte PNG signature. *)
#[export] Instance ex_outputs : Outputs :=
  {| memory_usage := λ _, 0; savefig_png := λ _, [x89; x50; x4e; x47; x0d; x0a; x1a; x0a] |}.

(** The handler after a start-up on a CPU where every artifact loads. *)
Definition hs_ok : handler := init 0 true (λ _, true).
(** The handler after a start-up where the generator fails to load. *)
Definition hs_failed : handler := init 0 true (λ a, bool_decide (a ≠ AGenerator)).

(** The 3-row table of the specification: columns [id, f1, f2, label],
    labels [0, 1, 0]; the classifier predicts [0, 1, 1] on it. *)
Definition spec_table : frame :=
  mkFrame ["id"; "f1"; "f2"; "label"]
    [[CInt 0; CFloat (PFin (1 # 10)); CFloat (PFin (2 # 10)); CInt 0];
     [CInt 1; CFloat (PFin (3 # 10)); CFloat (PFin (4 # 10)); CInt 1];
     [CInt 2; CFloat (PFin (5 # 10)); CFloat (PFin (6 # 10)); CInt 0]].

(** The same table without its [label] column. *)
Definition unlabelled_table : frame :=
  mkFrame ["id"; "f1"; "f2"]
    [[CInt 0; CFloat (PFin (1 # 10)); CFloat (PFin (2 # 10))];
     [CInt 1; CFloat (PFin (3 # 10)); CFloat (PFin (4 # 10))]].

(** A table whose labels cover the five classes. *)
Definition five_class_table : frame :=
  mkFrame ["id"; "f1"; "label"]
    [[CInt 0; CFloat (PFin (1 # 10)); CInt 0]; [CInt 1; CFloat (PFin (3 # 10)); CInt 1];
     [CInt 2; CFloat (PFin (3 # 10)); CInt 2]; [CInt 3; CFloat (PFin (3 # 10)); CInt 3];
     [CInt 4; CFloat (PFin (3 # 10)); CInt 4]].

Definition empty_table : frame := mkFrame ["id"; "f1"] [].

Definition default_bundle : bundle := mkBundle [] [] [] [] 0 0 0 "" None None.

Definition result_of (r : res bundle * nat) : bundle :=
  match r.1 with Ok b => b | Err _ => default_bundle end.

Definition spec_run := predict hs_ok spec_table 0%nat.
Definition spec_bundle := result_of spec_run.
Definition five_run := predict hs_ok five_class_table 0%nat.
Definition five_bundle := result_of five_run.
Definition unlabelled_run := predict hs_ok unlabelled_table 0%nat.
Definition unlabelled_bundle := result_of unlabelled_run.

Lemma spec_run_Ok : spec_run = (Ok spec_bundle, 2%nat).
Proof. vm_compute. reflexivity. Qed.
Lemma five_run_Ok : five_run = (Ok five_bundle, 2%nat).
Proof. vm_compute. reflexivity. Qed.
Lemma unlabelled_run_Ok : unlabelled_run = (Ok unlabelled_bundle, 2%nat).
Proof. vm_compute. reflexivity. Qed.

(** On the example of the specification (labels [0, 1, 0], the
    model predicting [0, 1, 1]) the returned distribution is
    [{chat: 1, email: 2, ...}]: it counts the predictions, not the true
    labels as the specification's example says, and no classification
    report or confusion-matrix image is returned, because only two
    classes occur. *)
Example spec_example_distribution :
  predictions spec_bundle = ["chat"; "email"; "email"] ∧
  distribution spec_bundle = [("chat", 1%nat); ("email", 2%nat); ("file", 0%nat);
                              ("streaming", 0%nat); ("voip", 0%nat)] ∧
  classification_report_out spec_bundle = None ∧ confusion_matrix_img spec_bundle = None ∧
  spec_run = (Ok spec_bundle, 2%nat).
Proof. vm_compute. repeat split; reflexivity. Qed.
(** ** Witnesses *)

Definition five_report : jv := default JNone (classification_report_out five_bundle).

Lemma predict_counts_witness :
  predict hs_ok spec_table 0%nat = (Ok spec_bundle, 2%nat) ∧
  num_samples spec_bundle = length (rows spec_table) ∧
  length (predictions spec_bundle) = num_samples spec_bundle ∧
  length (confidence_scores spec_bundle) = num_samples spec_bundle ∧
  map fst (distribution spec_bundle) = LABELS_ISCX ∧
  sum_list (map snd (distribution spec_bundle)) = num_samples spec_bundle.
Proof.
  assert (H : predict hs_ok spec_table 0%nat = (Ok spec_bundle, 2%nat)) by (vm_compute; reflexivity).
  split; [exact H|]. exact (predict_counts _ _ _ _ _ H).
Defined.

Lemma predict_error_taxonomy_witness :
  predict hs_failed spec_table 0%nat =
    (Err (PyExn ValueError "Error in prediction pipeline: Models not loaded properly"), 0%nat) ∧
  ∃ s, "Error in prediction pipeline: Models not loaded properly" = "Error in prediction pipeline: " +:+ s.
Proof.
  assert (H : predict hs_failed spec_table 0%nat =
    (Err (PyExn ValueError "Error in prediction pipeline: Models not loaded properly"), 0%nat))
    by (vm_compute; reflexivity).
  split; [exact H|]. exact (proj2 (predict_error_taxonomy _ _ _ _ _ H)).
Defined.

Lemma predict_not_loaded_witness :
  models_loaded hs_failed = false ∧
  predict hs_failed spec_table 0%nat =
    (Err (PyExn ValueError "Error in prediction pipeline: Models not loaded properly"), 0%nat).
Proof.
  assert (H : models_loaded hs_failed = false) by (vm_compute; reflexivity).
  split; [exact H|]. exact (predict_not_loaded _ _ _ H).
Defined.

(** [base64.b64encode(b'\x89PNG\r\n\x1a\n')] is [b'iVBORw0KGgo=']. *)
Example five_image : confusion_matrix_img five_bundle = Some "iVBORw0KGgo=".
Proof. vm_compute. reflexivity. Qed.

Lemma predict_image_witness :
  predict hs_ok five_class_table 0%nat = (Ok five_bundle, 2%nat) ∧
  (label_column five_class_table = None →
   classification_report_out five_bundle = None ∧ confusion_matrix_img five_bundle = None) ∧
  ∀ img, confusion_matrix_img five_bundle = Some img →
    ∃ pre yt pcs, preprocess_data five_class_table = Ok pre ∧ y_true pre = Some yt ∧
      mapM label_name pcs = Ok (predictions five_bundle) ∧
      let png := savefig_png (confusion_matrix (map wrap64 yt) (map Z.of_nat pcs)) in
      rfc4648_decode (String.list_byte_of_string img) = Some png ∧
      List.length (String.list_byte_of_string img) = (4 * ((List.length png + 2) / 3))%nat.
Proof.
  assert (H : predict hs_ok five_class_table 0%nat = (Ok five_bundle, 2%nat)) by (vm_compute; reflexivity).
  split; [exact H|]. exact (predict_image _ _ _ _ _ H).
Defined.

Lemma predict_report_needs_five_labels_witness :
  predict hs_ok five_class_table 0%nat = (Ok five_bundle, 2%nat) ∧ classification_report_out five_bundle = Some five_report ∧
  ∃ k ys pcs, label_column five_class_table = Some k ∧
    mapM py_int (column_values five_class_table k) = Ok ys ∧
    mapM label_name pcs = Ok (predictions five_bundle) ∧
    length (unique_labels (map wrap64 ys) (map Z.of_nat pcs)) = length LABELS_ISCX.
Proof.
  assert (H1 : predict hs_ok five_class_table 0%nat = (Ok five_bundle, 2%nat)) by (vm_compute; reflexivity).
  assert (H2 : classification_report_out five_bundle = Some five_report) by (vm_compute; reflexivity).
  split; [exact H1|]. split; [exact H2|]. exact (predict_report_needs_five_labels _ _ _ _ _ _ H1 H2).
Defined.

Lemma predict_pseudo_labels_range_witness :
  predict hs_ok spec_table 0%nat = (Ok spec_bundle, 2%nat) ∧ Forall (λ z, 0 <= z < 5)%Z (pseudo_labels spec_bundle).
Proof.
  assert (H : predict hs_ok spec_table 0%nat = (Ok spec_bundle, 2%nat)) by (vm_compute; reflexivity).
  split; [exact H|]. exact (predict_pseudo_labels_range _ _ _ _ _ H).
Defined.

Lemma predict_empty_table_witness :
  rows empty_table = [] ∧ ∃ e w', predict hs_ok empty_table 0%nat = (Err e, w').
Proof.
  assert (H : rows empty_table = []) by reflexivity.
  split; [exact H|]. exact (predict_empty_table _ _ _ H).
Defined.

Lemma predict_report_type_witness :
  predict hs_ok five_class_table 0%nat = (Ok five_bundle, 2%nat) ∧
  classification_report_out five_bundle = Some five_report ∧
  typeof five_report = report_ty LABELS_ISCX.
Proof.
  assert (H1 : predict hs_ok five_class_table 0%nat = (Ok five_bundle, 2%nat)) by (vm_compute; reflexivity).
  assert (H2 : classification_report_out five_bundle = Some five_report) by (vm_compute; reflexivity).
  split; [exact H1|]. split; [exact H2|]. exact (predict_report_type _ _ _ _ _ _ H1 H2).
Defined.
Lemma predict_world_witness :
  predict hs_ok spec_table 0%nat = (Ok spec_bundle, 2%nat) ∧
  2%nat = (clock_now (normal_draw (Nat.min 100 (length (rows spec_table))) LATENT_DIM (clock_now 0%nat).2).2).2 ∧
  processing_time spec_bundle =
    (clock_now (normal_draw (Nat.min 100 (length (rows spec_table))) LATENT_DIM (clock_now 0%nat).2).2).1 -
    (clock_now 0%nat).1.
Proof.
  assert (H : predict hs_ok spec_table 0%nat = (Ok spec_bundle, 2%nat)) by (vm_compute; reflexivity).
  split; [exact H|]. exact (predict_world _ _ _ _ _ H).
Defined.
End Scenario.
