(* ===== verification/App.v ===== *)
(** The HTTP boundary, src/app.py: the configuration (lines 8-11),
    [allowed_file] (lines 19-21), the [/] route (lines 23-62), the
    [/model-info] route (lines 64-71) and the two error handlers (lines
    73-81), over the one [NetworkTrafficClassifier] built at start-up
    (line 17) and the upload folder every request writes to.

    The upload folder is a [gmap] from file paths to file contents.
    [index] is the route run as one uninterrupted call; [Server.v] cuts it
    into the steps concurrent requests interleave.  Werkzeug's
    [secure_filename] is the translation of [Werkzeug.v]; pandas'
    [read_csv] on the saved bytes is a library call, given by the
    [Uploads] interface, which [Demo] fixes for concrete requests. *)

From stdpp Require Import base list strings decidable gmap.
From Stdlib Require Import ZArith QArith Ascii.
From S2P Require Import Prelude PyScalar Werkzeug Labels Report Artifacts Handler Preprocess Pipeline.

Local Open Scope Z_scope.

(** ** Configuration (lines 9-11) *)

Definition UPLOAD_FOLDER : string := "uploads".
Definition MAX_CONTENT_LENGTH : Z := 200 * 1024 * 1024.
Definition ALLOWED_EXTENSIONS : list string := ["csv"].

(** ** [allowed_file] *)

(** [str.lower()] on a code point below 256: [A-Z] and the Latin-1
    capitals [À-Þ] other than [×] become their small letters. *)
Definition lower_ascii (c : ascii) : ascii :=
  let n := nat_of_ascii c in
  if ((65 <=? n) && (n <=? 90))%nat || ((192 <=? n) && (n <=? 222) && negb (n =? 215))%nat
  then ascii_of_nat (n + 32) else c.

Fixpoint lower (s : string) : string :=
  match s with
  | EmptyString => EmptyString
  | String c s' => String (lower_ascii c) (lower s')
  end.

(** ['.' in s] *)
Fixpoint has_dot (s : string) : bool :=
  match s with
  | EmptyString => false
  | String c s' => bool_decide (c = "."%char) || has_dot s'
  end.

(** [s.rsplit('.', 1)[1]]: the text after the last dot, when there is a
    dot. *)
Fixpoint rsplit_dot (s : string) : option string :=
  match s with
  | EmptyString => None
  | String c s' =>
      match rsplit_dot s' with
      | Some ext => Some ext
      | None => if decide (c = "."%char) then Some s' else None
      end
  end.

Definition allowed_file (filename : string) : bool :=
  has_dot filename &&
  match rsplit_dot filename with
  | Some ext => bool_decide (lower ext ∈ ALLOWED_EXTENSIONS)
  | None => false
  end.

(** [os.path.join(UPLOAD_FOLDER, name)]: an absolute [name] replaces the
    folder. *)
Definition path_join (dir name : string) : string :=
  match name with
  | String "/"%char _ => name
  | _ => dir +:+ "/" +:+ name
  end.

(** ** Requests and responses *)

Inductive method := GET | POST.

#[export] Instance method_eq_dec : EqDecision method.
Proof. solve_decision. Defined.

(** A part of [request.files]: the client's file name and the bytes. *)
Record file_storage := mkFile { filename : string; stream : string }.

Record request := mkRequest {
  req_method : method;
  content_length : Z;
  files : list (string * file_storage)
}.

(** [request.files['file']]: the first part named [file]. *)
Definition file_part (r : request) : option file_storage :=
  (λ p, p.2.2) <$> list_find (λ kv : string * file_storage, kv.1 = "file") (files r).

(** The JSON body of a response. *)
Inductive payload :=
  | PError (msg : string)
  | PResults (b : bundle)
  | PInfo (i : model_info)
  | PPage.

Record response := mkResponse { status : Z; payload_of : payload }.

(** [server_error] (lines 78-81), the answer to an exception the route
    does not catch. *)
Definition internal_error : response := mkResponse 500 (PError "Internal server error").

(** ** The upload folder *)

Abbreviation folder := (gmap string string).

Definition enoent (fp : string) : exn :=
  PyExn FileNotFoundError ("[Errno 2] No such file or directory: '" +:+ fp +:+ "'").

(** [open(fp).read()] *)
Definition fs_read (fp : string) (st : folder) : res string :=
  match st !! fp with Some c => Ok c | None => Err (enoent fp) end.

(** [os.remove(fp)] *)
Definition fs_remove (fp : string) (st : folder) : res folder :=
  match st !! fp with Some _ => Ok (delete fp st) | None => Err (enoent fp) end.

(** [os.path.exists(fp)] *)
Definition fs_exists (fp : string) (st : folder) : bool := bool_decide (is_Some (st !! fp)).

(** ** Libraries the route calls *)

Class Uploads := {
  read_csv : string → res frame
}.

Section Route.
Context `{Scaler} `{Classifier} `{Discriminator} `{Gmm} `{Generator} `{Outputs} `{Uploads}.
Context {W : Type} `{World W}.
Variable classifier : handler.

(** Lines 26-38: the checks before the file is saved.  [inl] is an early
    response, [inr] the file to save.  Reading [request.files] is what
    makes Flask compare the body with [MAX_CONTENT_LENGTH] and raise the
    413 that [request_entity_too_large] (lines 73-76) answers; [if file]
    holds because the file name is not empty. *)
Definition validate (r : request) : response + file_storage :=
  match req_method r with
  | GET => inl (mkResponse 200 PPage)
  | POST =>
      if decide (MAX_CONTENT_LENGTH < content_length r) then
        inl (mkResponse 413 (PError "File too large (max 200MB)"))
      else match file_part r with
      | None => inl (mkResponse 400 (PError "No file part"))
      | Some f =>
          if decide (filename f = "") then inl (mkResponse 400 (PError "No selected file"))
          else if allowed_file (filename f) then inr f
          else inl (mkResponse 400 (PError "Invalid file type"))
      end
  end.

Definition upload_path (f : file_storage) : string :=
  path_join UPLOAD_FOLDER (secure_filename (filename f)).

(** The [try] block of lines 44-52 on the saved file: [pd.read_csv],
    [classifier.predict], [os.remove]. *)
Definition process (fp : string) (st : folder) (w : W) : res (bundle * folder) * W :=
  match fs_read fp st with
  | Err e => (Err e, w)
  | Ok bytes =>
      match read_csv bytes with
      | Err e => (Err e, w)
      | Ok df =>
          match predict classifier df w with
          | (Err e, w') => (Err e, w')
          | (Ok b, w') =>
              match fs_remove fp st with
              | Ok st' => (Ok (b, st'), w')
              | Err e => (Err e, w')
              end
          end
      end
  end.

(** The [except] block of lines 53-57.  An [os.remove] that fails there
    is not caught and reaches [server_error]. *)
Definition cleanup (fp : string) (msg : string) (st : folder) : response * folder :=
  if fs_exists fp st then
    match fs_remove fp st with
    | Ok st' => (mkResponse 500 (PError msg), st')
    | Err _ => (internal_error, st)
    end
  else (mkResponse 500 (PError msg), st).

(** [index] (lines 23-62) as one uninterrupted call.  [file.save] into
    the folder itself (an empty secure name) raises [IsADirectoryError]
    outside the [try]. *)
Definition index (r : request) (st : folder) (w : W) : response * folder * W :=
  match validate r with
  | inl resp => (resp, st, w)
  | inr f =>
      if decide (secure_filename (filename f) = "") then (internal_error, st, w) else
      let fp := upload_path f in
      let st1 := <[fp := stream f]> st in
      match process fp st1 w with
      | (Ok (b, st2), w') => (mkResponse 200 (PResults b), st2, w')
      | (Err e, w') => let '(resp, st2) := cleanup fp (exn_msg e) st1 in (resp, st2, w')
      end
  end.

(** [model_info] (lines 64-71). *)
Definition model_info_route : response :=
  match get_model_info classifier with
  | Ok i => mkResponse 200 (PInfo i)
  | Err e => mkResponse 500 (PError (exn_msg e))
  end.

End Route.

(** ** [allowed_file] *)

Lemma rsplit_dot_None (s : string) : rsplit_dot s = None ↔ has_dot s = false.
Proof.
  induction s as [|c s IH]; [done|]. cbn.
  destruct (rsplit_dot s) as [ext|]; [split; [done|]|].
  - intros [_ Hs]%orb_false_elim. by apply IH in Hs.
  - rewrite orb_false_iff, <- IH. case_decide; case_bool_decide; intuition congruence.
Qed.

Lemma rsplit_dot_Some (s ext : string) :
  rsplit_dot s = Some ext ↔ ∃ base, s = base +:+ String "." ext ∧ has_dot ext = false.
Proof.
  revert ext. induction s as [|c s IH]; intros ext; cbn.
  - split; [done|]. intros ([|? ?] & ? & _); discriminate.
  - destruct (rsplit_dot s) as [ext'|] eqn:Hs.
    + split.
      * intros [= <-]. destruct (proj1 (IH ext') eq_refl) as (base & -> & Hd).
        by exists (String c base).
      * intros ([|c' base] & Heq & Hd); cbn in Heq; injection Heq as Hc Hs2; subst.
        -- by rewrite (proj2 (rsplit_dot_None _) Hd) in Hs.
        -- apply IH. eauto.
    + split.
      * case_decide; [|done]. intros [= <-]. subst c. exists "". split; [done|]. by apply rsplit_dot_None.
      * intros ([|c' base] & Heq & Hd); cbn in Heq; injection Heq as Hc Hs2; subst.
        -- by rewrite decide_True.
        -- exfalso. discriminate (proj2 (IH ext) (ex_intro _ base (conj eq_refl Hd))).
Qed.

Lemma has_dot_rsplit (s ext : string) : rsplit_dot s = Some ext → has_dot s = true.
Proof.
  intros Hs. destruct (has_dot s) eqn:Hd; [done|].
  apply rsplit_dot_None in Hd. congruence.
Qed.

(** C28: [allowed_file] accepts a name exactly when it has a dot and
    the text after its last dot is [csv] in any letter case. *)
Theorem allowed_file_spec (name : string) :
  allowed_file name = true ↔
  ∃ base ext, name = base +:+ String "." ext ∧ has_dot ext = false ∧ lower ext = "csv".
Proof.
  unfold allowed_file, ALLOWED_EXTENSIONS. destruct (rsplit_dot name) as [ext|] eqn:Hs.
  - rewrite (has_dot_rsplit _ _ Hs), andb_true_l, bool_decide_eq_true, list_elem_of_singleton.
    apply rsplit_dot_Some in Hs as (base & -> & Hd). split.
    + intros Hl. eauto.
    + intros (base' & ext' & Heq & Hd' & Hl).
      assert (Hx : rsplit_dot (base +:+ String "." ext) = Some ext') by (apply rsplit_dot_Some; eauto).
      rewrite (proj2 (rsplit_dot_Some _ _) (ex_intro _ base (conj eq_refl Hd))) in Hx. congruence.
  - rewrite andb_false_r. split; [done|]. intros (base & ext & -> & Hd & _).
    assert (Hx : rsplit_dot (base +:+ String "." ext) = Some ext) by (apply rsplit_dot_Some; eauto).
    congruence.
Qed.

(** ** The saved file's name *)

Lemma lower_c_core (c : ascii) : lower_ascii c = "c"%char → is_name_core c = true.
Proof. ascii_cases c. Qed.

(** An accepted name keeps a letter of its extension through
    [secure_filename]. *)
Lemma allowed_file_core (name : string) :
  allowed_file name = true → ∃ c, c ∈ String.list_ascii_of_string name ∧ is_name_core c = true.
Proof.
  unfold allowed_file, ALLOWED_EXTENSIONS. intros [_ Hext]%andb_prop.
  destruct (rsplit_dot name) as [ext|] eqn:Hs; [|done].
  apply bool_decide_eq_true, list_elem_of_singleton in Hext.
  apply rsplit_dot_Some in Hs as (base & -> & _).
  destruct ext as [|c ext]; [done|]. injection Hext as Hc _.
  exists c. split; [|by apply lower_c_core].
  rewrite list_ascii_of_string_app. apply elem_of_app. right. cbn.
  apply elem_of_cons. right. apply elem_of_cons. by left.
Qed.

Lemma allowed_secure_nonempty (name : string) : allowed_file name = true → secure_filename name ≠ "".
Proof.
  intros (c & Hc & Hcore)%allowed_file_core. unfold secure_filename.
  rewrite string_of_list_ascii_nil. exact (secure_name_keeps_core _ c Hc Hcore).
Qed.

Lemma validate_allowed (r : request) (f : file_storage) :
  validate r = inr f → allowed_file (filename f) = true.
Proof.
  unfold validate. destruct (req_method r); [done|]. case_decide; [done|].
  destruct (file_part r) as [f'|]; [|done]. case_decide; [done|].
  destruct (allowed_file (filename f')) eqn:E; [|done]. by intros [= <-].
Qed.

Lemma path_join_relative (dir name : string) :
  head (String.list_ascii_of_string name) ≠ Some "/"%char → path_join dir name = dir +:+ "/" +:+ name.
Proof.
  destruct name as [|c name]; [done|]. cbn. intros Hc.
  destruct c as [[] [] [] [] [] [] [] []]; try reflexivity. by destruct Hc.
Qed.

(** ** The route, one request at a time *)

Section RouteTheorems.
Context `{Scaler} `{Classifier} `{Discriminator} `{Gmm} `{Generator} `{Outputs} `{Uploads}.
Context {W : Type} `{World W}.
Variable classifier : handler.

Lemma fs_read_insert (fp v : string) (st : folder) : fs_read fp (<[fp := v]> st) = Ok v.
Proof. unfold fs_read. by rewrite lookup_insert_eq. Qed.

Lemma fs_remove_insert (fp v : string) (st : folder) :
  fs_remove fp (<[fp := v]> st) = Ok (delete fp st).
Proof. unfold fs_remove. rewrite lookup_insert_eq. f_equal. apply delete_insert_eq. Qed.

Lemma cleanup_insert (fp v msg : string) (st : folder) :
  cleanup fp msg (<[fp := v]> st) = (mkResponse 500 (PError msg), delete fp st).
Proof.
  unfold cleanup, fs_exists. rewrite lookup_insert_eq, bool_decide_eq_true_2 by done.
  by rewrite fs_remove_insert.
Qed.

#[local] Hint Rewrite fs_read_insert fs_remove_insert cleanup_insert : pyrt_rw.

(** The answer alone, for [Server.v]: what a request that passes the
    checks is answered. *)
Lemma index_response (r : request) (st : folder) (w : W) (f : file_storage) :
  validate r = inr f →
  (index classifier r st w).1.1 =
    match read_csv (stream f) with
    | Err e => mkResponse 500 (PError (exn_msg e))
    | Ok df =>
        match predict classifier df w with
        | (Ok b, _) => mkResponse 200 (PResults b)
        | (Err e, _) => mkResponse 500 (PError (exn_msg e))
        end
    end.
Proof.
  intros Hv. unfold index, process.
  rewrite Hv, decide_False by exact (allowed_secure_nonempty _ (validate_allowed r f Hv)).
  autorewrite with pyrt_rw. destruct (read_csv (stream f)) as [df|e]; [|by autorewrite with pyrt_rw].
  destruct (predict classifier df w) as [[b|e] w']; by autorewrite with pyrt_rw.
Qed.

(** C7: a request that passes the checks is answered from its own
    upload: 200 with the results of [predict] on the parsed table, or 500
    with [str(e)] when parsing or [predict] raises; in both cases the
    saved file is deleted, and [predict] is the only step that moves the
    world. *)
Theorem index_outcome (r : request) (st : folder) (w : W) (f : file_storage) :
  validate r = inr f →
  index classifier r st w =
    match read_csv (stream f) with
    | Err e => (mkResponse 500 (PError (exn_msg e)), delete (upload_path f) st, w)
    | Ok df =>
        match predict classifier df w with
        | (Ok b, w') => (mkResponse 200 (PResults b), delete (upload_path f) st, w')
        | (Err e, w') => (mkResponse 500 (PError (exn_msg e)), delete (upload_path f) st, w')
        end
    end.
Proof.
  intros Hv. unfold index, process.
  rewrite Hv, decide_False by exact (allowed_secure_nonempty _ (validate_allowed r f Hv)).
  autorewrite with pyrt_rw. destruct (read_csv (stream f)) as [df|e]; [|by autorewrite with pyrt_rw].
  destruct (predict classifier df w) as [[b|e] w']; by autorewrite with pyrt_rw.
Qed.

(** C12: a request that passes the checks saves its file inside the
    upload folder, whatever file name the client sent: at [uploads/]
    followed by the secure name, which is not empty, has no [/] and does
    not start with a dot, so it is neither an absolute path nor [.] or
    [..] and [os.path.join] does not leave the folder. *)
Theorem upload_path_in_folder (r : request) (f : file_storage) :
  validate r = inr f →
  let name := secure_filename (filename f) in
  upload_path f = UPLOAD_FOLDER +:+ "/" +:+ name ∧ name ≠ "" ∧
  "/"%char ∉ String.list_ascii_of_string name ∧
  head (String.list_ascii_of_string name) ≠ Some "."%char.
Proof.
  intros Hv%validate_allowed%allowed_secure_nonempty. cbn zeta. unfold upload_path.
  pose proof (clean_name_component _ (secure_name_clean (String.list_ascii_of_string (filename f))))
    as [Hs Hd].
  unfold secure_filename in *. rewrite String.list_ascii_of_string_of_list_ascii.
  split; [|split; [done|split; [done|]]].
  - apply path_join_relative. rewrite String.list_ascii_of_string_of_list_ascii.
    destruct (secure_name _) as [|c cs]; [done|]. intros [= ->]. apply Hs. by left.
  - intros Hc. by apply (Hd "."%char).
Qed.

(** C18: a body over 200 MiB is answered 413 and a file whose name
    does not end in [.csv] is answered 400, in both cases before anything
    is written to the upload folder and without running the pipeline. *)
Theorem index_rejections (r : request) (st : folder) (w : W) :
  req_method r = POST →
  (MAX_CONTENT_LENGTH < content_length r →
     index classifier r st w = (mkResponse 413 (PError "File too large (max 200MB)"), st, w)) ∧
  (∀ f, content_length r <= MAX_CONTENT_LENGTH → file_part r = Some f → filename f ≠ "" →
     allowed_file (filename f) = false →
     index classifier r st w = (mkResponse 400 (PError "Invalid file type"), st, w)).
Proof.
  intros Hm. unfold index, validate. rewrite Hm. split.
  - intros Hl. by rewrite decide_True.
  - intros f Hl Hf Hn Ha. rewrite decide_False by lia. by rewrite Hf, decide_False, Ha.
Qed.

(** C34: after start-up, [/model-info] answers 200 exactly when the three
    Keras models loaded; when the generator failed to load it answers 500
    with the [AttributeError] message, instead of the [status: false] the
    route exists to report. *)
Theorem model_info_after_start (n_gpus : nat) (growth : bool) (load_ok : artifact → bool) :
  let resp := model_info_route (init n_gpus growth load_ok) in
  (status resp = 200 ↔ load_ok AGenerator && load_ok ADiscriminator && load_ok AClassifier = true) ∧
  (load_ok AGenerator = false →
   resp = mkResponse 500 (PError "'NetworkTrafficClassifier' object has no attribute 'generator'")).
Proof.
  cbn zeta. unfold model_info_route, get_model_info. rewrite !init_loaded.
  unfold load_order. cbn [take forallb].
  destruct (load_ok AGenerator) eqn:G; destruct (load_ok ADiscriminator) eqn:D;
    destruct (load_ok AClassifier) eqn:C; cbn; rewrite ?G, ?D, ?C; cbn;
    (split; [split; intros; (done || discriminate)|intros; (done || discriminate)]).
Qed.
End RouteTheorems.

(** ** Concrete requests *)

(** The artifacts of [Pipeline.Scenario]; the CSV reader maps the bytes
    ["A"] to the labelled example table, ["B"] to the unlabelled one, and
    anything else to pandas' error on an empty file. *)
Module Demo.
Import Scenario.

#[export] Instance ex_uploads : Uploads := {|
  read_csv := λ bytes, if decide (bytes = "A") then Ok spec_table
                       else if decide (bytes = "B") then Ok unlabelled_table
                       else raise ValueError "No columns to parse from file" |}.

Definition upload_as (name bytes : string) : request := mkRequest POST 100 [("file", mkFile name bytes)].

Definition upload (bytes : string) : request := upload_as "traffic.csv" bytes.

(** The 500 answers do not share one generic message: bytes pandas
    cannot parse are answered with pandas' own message, and a request to a
    service whose models did not load with the pipeline's prefixed one. *)
Example error_messages_differ :
  index hs_ok (upload "C") ∅ 0%nat = (mkResponse 500 (PError "No columns to parse from file"), ∅, 0%nat) ∧
  index hs_failed (upload "A") ∅ 0%nat =
    (mkResponse 500 (PError "Error in prediction pipeline: Models not loaded properly"), ∅, 0%nat).
Proof. split; vm_compute; reflexivity. Qed.

(** ** Witnesses *)

Lemma index_outcome_witness :
  validate (upload "A") = inr (mkFile "traffic.csv" "A") ∧
  index hs_ok (upload "A") ∅ 0%nat =
    match read_csv "A" with
    | Err e => (mkResponse 500 (PError (exn_msg e)), delete "uploads/traffic.csv" ∅, 0%nat)
    | Ok df =>
        match predict hs_ok df 0%nat with
        | (Ok b, w') => (mkResponse 200 (PResults b), delete "uploads/traffic.csv" ∅, w')
        | (Err e, w') => (mkResponse 500 (PError (exn_msg e)), delete "uploads/traffic.csv" ∅, w')
        end
    end.
Proof.
  assert (H1 : validate (upload "A") = inr (mkFile "traffic.csv" "A")) by reflexivity.
  split; [exact H1|]. exact (index_outcome hs_ok (upload "A") ∅ 0%nat _ H1).
Defined.

Lemma upload_path_in_folder_witness :
  validate (upload_as "../../traffic.csv" "A") = inr (mkFile "../../traffic.csv" "A") ∧
  upload_path (mkFile "../../traffic.csv" "A") = "uploads/traffic.csv" ∧
  let name := secure_filename "../../traffic.csv" in
  upload_path (mkFile "../../traffic.csv" "A") = UPLOAD_FOLDER +:+ "/" +:+ name ∧ name ≠ "" ∧
  "/"%char ∉ String.list_ascii_of_string name ∧
  head (String.list_ascii_of_string name) ≠ Some "."%char.
Proof.
  assert (H : validate (upload_as "../../traffic.csv" "A") = inr (mkFile "../../traffic.csv" "A"))
    by reflexivity.
  split; [exact H|]. split; [vm_compute; reflexivity|].
  exact (upload_path_in_folder _ _ H).
Defined.

Definition large_upload : request := mkRequest POST (300 * 1024 * 1024) [("file", mkFile "traffic.txt" "A")].

Lemma index_rejections_witness :
  req_method large_upload = POST ∧
  (MAX_CONTENT_LENGTH < content_length large_upload →
     index hs_ok large_upload ∅ 0%nat = (mkResponse 413 (PError "File too large (max 200MB)"), ∅, 0%nat)) ∧
  (∀ f, content_length large_upload <= MAX_CONTENT_LENGTH → file_part large_upload = Some f →
     filename f ≠ "" → allowed_file (filename f) = false →
     index hs_ok large_upload ∅ 0%nat = (mkResponse 400 (PError "Invalid file type"), ∅, 0%nat)).
Proof.
  assert (H : req_method large_upload = POST) by reflexivity.
  split; [exact H|]. exact (index_rejections hs_ok large_upload ∅ 0%nat H).
Defined.
End Demo.
