(* ===== verification/Server.v ===== *)
(** The server running the [/] route of src/app.py for several requests
    at once.  Flask's development server ([app.run], line 84) handles each
    request in its own thread, and all of them use the one upload folder.
    The route of [App.index] is cut at the operations that touch the
    folder ([file.save], [pd.read_csv], [os.remove], [os.path.exists]):
    a [thread] is where one request is, [step_thread] its next atomic
    step, a [config] the folder, the world and the requests in flight, and
    [step] lets any request in flight move.

    The theorems: the step machine run alone refines [App.index]; under
    every interleaving no upload outlives its request (an invariant of
    [step]); every run of [step] that makes progress is finite
    (termination, by a rank that each step of a request decreases); and a
    request that is given five turns is answered whatever the others do
    (liveness); when no two requests save at the same path, every answer
    is one the route gives that request alone (isolation, by the
    invariant [isolated], which relates each request in flight to its own
    file); when two requests do save at one path, the interleaving in
    which A saves, B saves and A reads answers A with the results of B's
    table and B with a 500 (the race of [same_path_race]).  [Race] runs
    two uploads whose names have one secure name, and the same
    interleaving with two different names. *)

From stdpp Require Import base list strings decidable gmap relations.
From Stdlib Require Import ZArith QArith.
From S2P Require Import Prelude Werkzeug Artifacts Handler Preprocess Pipeline App.

Local Open Scope Z_scope.

Section Server.
Context `{Scaler} `{Classifier} `{Discriminator} `{Gmm} `{Generator} `{Outputs} `{Uploads}.
Context {W : Type} `{World W}.
Variable classifier : handler.

(** Where a request is: before the checks, after [file.save], after
    [predict] (the [os.remove] of line 50 next), in the [except] block
    (the [os.path.exists] of line 55 next), before the [os.remove] of
    line 56, or answered. *)
Inductive thread :=
  | TStart (r : request)
  | TSaved (fp : string)
  | TPredicted (fp : string) (b : bundle)
  | TExcept (fp : string) (msg : string)
  | TRemoving (fp : string) (msg : string)
  | TDone (resp : response).

(** One atomic step of a request.  Reading the file, parsing it and
    running [predict] is one step: only the read touches the folder. *)
Definition step_thread (t : thread) (st : folder) (w : W) : thread * folder * W :=
  match t with
  | TStart r =>
      match validate r with
      | inl resp => (TDone resp, st, w)
      | inr f =>
          if decide (secure_filename (filename f) = "") then (TDone internal_error, st, w)
          else (TSaved (upload_path f), <[upload_path f := stream f]> st, w)
      end
  | TSaved fp =>
      match fs_read fp st with
      | Err e => (TExcept fp (exn_msg e), st, w)
      | Ok bytes =>
          match read_csv bytes with
          | Err e => (TExcept fp (exn_msg e), st, w)
          | Ok df =>
              match predict classifier df w with
              | (Err e, w') => (TExcept fp (exn_msg e), st, w')
              | (Ok b, w') => (TPredicted fp b, st, w')
              end
          end
      end
  | TPredicted fp b =>
      match fs_remove fp st with
      | Ok st' => (TDone (mkResponse 200 (PResults b)), st', w)
      | Err e => (TExcept fp (exn_msg e), st, w)
      end
  | TExcept fp msg =>
      if fs_exists fp st then (TRemoving fp msg, st, w) else (TDone (mkResponse 500 (PError msg)), st, w)
  | TRemoving fp msg =>
      match fs_remove fp st with
      | Ok st' => (TDone (mkResponse 500 (PError msg)), st', w)
      | Err _ => (TDone internal_error, st, w)
      end
  | TDone resp => (TDone resp, st, w)
  end.

(** The server: the folder, the world, and the requests in flight. *)
Record config := mkConfig { cfg_folder : folder; cfg_world : W; cfg_threads : list thread }.

(** Start-up (lines 13-17) and [app.run] (line 84):
    [os.makedirs(UPLOAD_FOLDER, exist_ok=True)] keeps an existing upload
    folder as it is and creates an empty one otherwise; then the requests
    [rs] arrive, none of them started. *)
Definition boot (existing : option folder) (w : W) (rs : list request) : config :=
  mkConfig (default ∅ existing) w (map TStart rs).

Definition step_at (i : nat) (c : config) : config :=
  match cfg_threads c !! i with
  | Some t =>
      let '(t', st', w') := step_thread t (cfg_folder c) (cfg_world c) in
      mkConfig st' w' (<[i := t']> (cfg_threads c))
  | None => c
  end.

(** Any request in flight may take its next step. *)
Inductive step : config → config → Prop :=
  | step_thread_at (i : nat) (c : config) : is_Some (cfg_threads c !! i) → step c (step_at i c).

(** A schedule: the requests that move, in order. *)
Definition run_schedule (sched : list nat) (c : config) : config :=
  foldl (λ c i, step_at i c) c sched.

End Server.

(** ** The route cut into steps *)

(** The file a request has saved and not yet cleaned up. *)
Definition pending (t : thread) : option string :=
  match t with
  | TSaved fp | TPredicted fp _ | TExcept fp _ | TRemoving fp _ => Some fp
  | TStart _ | TDone _ => None
  end.

Section Threads.
Context `{Scaler} `{Classifier} `{Discriminator} `{Gmm} `{Generator} `{Outputs} `{Uploads}.
Context {W : Type} `{World W}.
Variable classifier : handler.

(** Every entry of the folder was there at the start, or belongs to a
    request that has saved its file and not yet cleaned up. *)
Definition no_leftover (s0 : folder) (c : @config W) : Prop :=
  ∀ p v, cfg_folder c !! p = Some v →
    s0 !! p = Some v ∨ ∃ j t, cfg_threads c !! j = Some t ∧ pending t = Some p.

Lemma run_single (n : nat) (t : thread) (st : folder) (w : W) :
  run_schedule classifier (repeat 0%nat (S n)) (mkConfig st w [t]) =
  let '(t', st', w') := step_thread classifier t st w in
  run_schedule classifier (repeat 0%nat n) (mkConfig st' w' [t']).
Proof. unfold run_schedule, step_at. cbn. by destruct (step_thread classifier t st w) as [[t' st'] w']. Qed.

Lemma run_done (n : nat) (resp : response) (st : folder) (w : W) :
  run_schedule classifier (repeat 0%nat n) (mkConfig st w [TDone resp]) = mkConfig st w [TDone resp].
Proof. induction n as [|n IH]; [done|]. by rewrite run_single. Qed.

Lemma run_schedule_rtc (sched : list nat) (c : config) : rtc (step classifier) c (run_schedule classifier sched c).
Proof.
  revert c. induction sched as [|i sched IH]; intros c; [done|]. cbn.
  destruct (cfg_threads c !! i) eqn:Hi.
  - eapply rtc_l; [by constructor; rewrite Hi|]. apply IH.
  - replace (step_at classifier i c) with c by (unfold step_at; by rewrite Hi). apply IH.
Qed.

(** How one step of a request changes the folder: not at all (and a
    request with a file to clean up keeps it while the file is there),
    by deleting its own file, or by saving a new one. *)
Lemma step_thread_shape (t : thread) (st : folder) (w : W) t' st' w' :
  step_thread classifier t st w = (t', st', w') →
  (st' = st ∧ ∀ p, pending t = Some p → is_Some (st !! p) → pending t' = Some p) ∨
  (∃ p, pending t = Some p ∧ st' = delete p st) ∨
  (∃ p v, pending t = None ∧ pending t' = Some p ∧ st' = <[p := v]> st).
Proof.
  destruct t as [r|fp|fp b|fp msg|fp msg|resp]; cbn -[predict].
  - destruct (validate r) as [resp|f]; [intros [= <- <- <-]; by left|].
    case_decide; intros [= <- <- <-]; [by left|]. right; right. eauto.
  - repeat case_match; intros [= <- <- <-]; left; (split; [done|by intros p [= <-]]).
  - unfold fs_remove. destruct (st !! fp) eqn:Hs; intros [= <- <- <-]; [right; left; eauto|].
    left. split; [done|]. intros p [= <-]. by rewrite Hs.
  - unfold fs_exists. case_bool_decide; intros [= <- <- <-]; left; (split; [done|by intros p [= <-]]).
  - unfold fs_remove. destruct (st !! fp) eqn:Hs; intros [= <- <- <-]; [right; left; eauto|].
    left. split; [done|]. intros p [= <-]. by rewrite Hs.
  - intros [= <- <- <-]. by left.
Qed.
Lemma step_at_no_leftover (s0 : folder) (i : nat) (c : config) :
  no_leftover s0 c → no_leftover s0 (step_at classifier i c).
Proof.
  intros Hinv. unfold step_at. destruct (cfg_threads c !! i) as [t|] eqn:Hi; [|done].
  destruct (step_thread classifier t (cfg_folder c) (cfg_world c)) as [[t' st'] w'] eqn:Hs.
  intros p v Hp. cbn in Hp |- *.
  assert (Hlt : (i < length (cfg_threads c))%nat) by (eapply lookup_lt_Some; eauto).
  destruct (step_thread_shape _ _ _ _ _ _ Hs) as [[-> Hkeep] | [(q & Hq & ->) | (q & u & Hq & Hq' & ->)]].
  - destruct (Hinv p v Hp) as [Hs0 | (j & tj & Hj & Hpj)]; [by left|right].
    destruct (decide (j = i)) as [->|Hji].
    + rewrite Hi in Hj. injection Hj as <-. exists i, t'.
      rewrite list_lookup_insert_eq by done. split; [done|]. apply Hkeep; eauto.
    + exists j, tj. by rewrite list_lookup_insert_ne.
  - destruct (decide (q = p)) as [<-|Hqp]; [by rewrite lookup_delete_eq in Hp|].
    rewrite lookup_delete_ne in Hp by done.
    destruct (Hinv p v Hp) as [Hs0 | (j & tj & Hj & Hpj)]; [by left|right].
    exists j, tj. rewrite list_lookup_insert_ne; [done|]. intros ->. congruence.
  - destruct (decide (q = p)) as [<-|Hqp].
    + right. exists i, t'. by rewrite list_lookup_insert_eq.
    + rewrite lookup_insert_ne in Hp by done.
      destruct (Hinv p v Hp) as [Hs0 | (j & tj & Hj & Hpj)]; [by left|right].
      exists j, tj. rewrite list_lookup_insert_ne; [done|]. intros ->. congruence.
Qed.

Lemma rtc_step_no_leftover (s0 : folder) (c c' : config) :
  no_leftover s0 c → rtc (step classifier) c c' → no_leftover s0 c'.
Proof. intros Hc Hr. induction Hr as [|x y z [i x' _] _ IH]; [done|]. by apply IH, step_at_no_leftover. Qed.

(** C3: under every interleaving of concurrent requests, once no
    request is between saving its upload and cleaning it up, the upload
    folder holds nothing that was not in it at start-up: no upload
    outlives its request, and a folder created at start-up is empty
    again. *)
Theorem uploads_cleaned_up (existing : option folder) (w0 : W) (rs : list request) (c : config) :
  rtc (step classifier) (boot existing w0 rs) c →
  Forall (λ t, pending t = None) (cfg_threads c) →
  cfg_folder c ⊆ default ∅ existing.
Proof.
  intros Hr Hdone. apply map_subseteq_spec. intros p v Hp.
  assert (Hinv : no_leftover (default ∅ existing) c) by (eapply rtc_step_no_leftover; [|exact Hr]; by left).
  destruct (Hinv p v Hp) as [Hs0 | (j & t & Hj & Hpj)]; [done|].
  rewrite Forall_lookup in Hdone. by rewrite (Hdone j t Hj) in Hpj.
Qed.

(** Run alone, the stepped route ends after four steps (and stays there)
    in the answer, folder and world of [index]: four steps are enough for
    any request. *)
Lemma index_refined (r : request) (st : folder) (w : W) (n : nat) :
  (4 <= n)%nat →
  run_schedule classifier (repeat 0%nat n) (mkConfig st w [TStart r]) =
  let '(resp, st', w') := index classifier r st w in mkConfig st' w' [TDone resp].
Proof.
  intros Hn. do 4 (destruct n as [|n]; [lia|]).
  unfold index. rewrite run_single. cbn -[predict repeat].
  destruct (validate r) as [resp|f]; [by rewrite run_done|].
  case_decide; [by rewrite run_done|]. unfold process.
  rewrite run_single. cbn -[predict repeat]. rewrite fs_read_insert.
  destruct (read_csv (stream f)) as [df|e].
  - destruct (predict classifier df w) as [[b|e] w'].
    + rewrite run_single. cbn -[predict repeat]. rewrite fs_remove_insert. by rewrite run_done.
    + rewrite cleanup_insert, run_single. cbn -[predict repeat].
      unfold fs_exists. rewrite lookup_insert_eq, bool_decide_eq_true_2 by done.
      rewrite run_single. cbn -[predict repeat]. rewrite fs_remove_insert. by rewrite run_done.
  - rewrite cleanup_insert, run_single. cbn -[predict repeat].
    unfold fs_exists. rewrite lookup_insert_eq, bool_decide_eq_true_2 by done.
    rewrite run_single. cbn -[predict repeat]. rewrite fs_remove_insert. by rewrite run_done.
Qed.
(** ** Progress *)

(** How many steps a request has left at most: a request answered 200
    takes three, one whose [os.remove] on the success path finds the file
    gone takes five. *)
Definition rank (t : thread) : nat :=
  match t with
  | TStart _ => 5
  | TSaved _ => 4
  | TPredicted _ _ => 3
  | TExcept _ _ => 2
  | TRemoving _ _ => 1
  | TDone _ => 0
  end.

Lemma rank_0 (t : thread) : rank t = 0%nat ↔ ∃ resp, t = TDone resp.
Proof. split; [destruct t; cbn; naive_solver|by intros [? ->]]. Qed.

(** The sum of the ranks of the requests in flight. *)
Definition total_rank (c : @config W) : nat := sum_list (map rank (cfg_threads c)).

Definition thread_rank (c : @config W) (i : nat) : nat := default 0%nat (rank <$> cfg_threads c !! i).

Lemma sum_list_insert (l : list thread) (i : nat) (t t' : thread) :
  l !! i = Some t → (sum_list (map rank (<[i := t']> l)) + rank t = sum_list (map rank l) + rank t')%nat.
Proof.
  revert i. induction l as [|x l IH]; intros [|i] Hi; cbn in Hi; try done.
  - injection Hi as ->. cbn. lia.
  - specialize (IH i Hi). change (<[S i:=t']> (x :: l)) with (x :: <[i:=t']> l).
    cbn [map sum_list_with]. lia.
Qed.

(** Each step of a request lowers its rank, whatever the folder holds. *)
Lemma step_thread_rank (t : thread) (st : folder) (w : W) :
  (rank (step_thread classifier t st w).1.1 ≤ rank t - 1)%nat.
Proof. destruct t; cbn -[predict]; repeat case_match; cbn; lia. Qed.

Lemma step_at_done (i : nat) (c : config) (resp : response) :
  cfg_threads c !! i = Some (TDone resp) → step_at classifier i c = c.
Proof.
  intros Hi. unfold step_at. rewrite Hi. cbn. destruct c as [st w ts]. cbn in *.
  f_equal. by apply list_insert_id.
Qed.

Lemma step_at_rank (i j : nat) (c : config) :
  (thread_rank (step_at classifier j c) i ≤ thread_rank c i - (if decide (j = i) then 1 else 0))%nat.
Proof.
  unfold thread_rank, step_at. destruct (cfg_threads c !! j) as [t|] eqn:Hj; [|case_decide; [subst; rewrite Hj; cbn; lia|lia]].
  destruct (step_thread classifier t (cfg_folder c) (cfg_world c)) as [[t' st'] w'] eqn:Hs. cbn.
  pose proof (step_thread_rank t (cfg_folder c) (cfg_world c)) as Hr. rewrite Hs in Hr. cbn in Hr.
  case_decide as Hji.
  - subst j. rewrite list_lookup_insert_eq by (eapply lookup_lt_Some; eauto). rewrite Hj. cbn. lia.
  - rewrite list_lookup_insert_ne by done. lia.
Qed.

Lemma run_schedule_rank (sched : list nat) (c : config) (i : nat) :
  (thread_rank (run_schedule classifier sched c) i ≤ thread_rank c i - count_eq i sched)%nat.
Proof.
  revert c. induction sched as [|j sched IH]; intros c; unfold run_schedule in *; cbn [foldl].
  - rewrite count_eq_nil. lia.
  - specialize (IH (step_at classifier j c)). pose proof (step_at_rank i j c).
    rewrite count_eq_cons. lia.
Qed.

Lemma run_schedule_lookup (sched : list nat) (c : config) (i : nat) :
  is_Some (cfg_threads c !! i) → is_Some (cfg_threads (run_schedule classifier sched c) !! i).
Proof.
  revert c. induction sched as [|j sched IH]; intros c Hi; cbn [run_schedule foldl]; [done|].
  apply IH. unfold step_at. destruct (cfg_threads c !! j) eqn:Hj; [|done].
  destruct (step_thread _ _ _ _) as [[t' st'] w']. cbn. by apply list_lookup_insert_is_Some.
Qed.

(** A request given five turns in a schedule is answered, whatever the
    other requests do in between and in whatever state the upload folder
    is. *)
Lemma request_answered (sched : list nat) (c : config) (i : nat) :
  is_Some (cfg_threads c !! i) → (5 ≤ count_eq i sched)%nat →
  ∃ resp, cfg_threads (run_schedule classifier sched c) !! i = Some (TDone resp).
Proof.
  intros Hi Hn. destruct (run_schedule_lookup sched c i Hi) as [t Ht].
  pose proof (run_schedule_rank sched c i) as Hr. unfold thread_rank in Hr. rewrite Ht in Hr.
  destruct Hi as [t0 Ht0]. rewrite Ht0 in Hr. cbn in Hr.
  assert (rank t0 ≤ 5)%nat by (destruct t0; cbn; lia).
  destruct (proj1 (rank_0 t) ltac:(lia)) as [resp ->]. eauto.
Qed.

(** No run of the server makes progress forever: every sequence of steps
    that each change the server's state is finite, from any state. *)
Lemma requests_terminate (c : config) :
  sn (λ c1 c2, step classifier c1 c2 ∧ c2 ≠ c1) c.
Proof.
  remember (total_rank c) as n eqn:Hn. revert c Hn.
  induction (lt_wf n) as [n _ IH]; intros c ->.
  constructor. intros c' [Hstep Hne]. inversion Hstep as [i c0 [t Ht] Hc0 Hc']; subst c0 c'.
  apply (IH (total_rank (step_at classifier i c))); [|done].
  destruct (decide (rank t = 0%nat)) as [Hz|Hz].
  - apply rank_0 in Hz as [resp ->]. by rewrite (step_at_done i c resp Ht) in Hne.
  - unfold total_rank, step_at. rewrite Ht.
    pose proof (step_thread_rank t (cfg_folder c) (cfg_world c)) as Hr.
    destruct (step_thread classifier t (cfg_folder c) (cfg_world c)) as [[t' st'] w']. cbn in *.
    pose proof (sum_list_insert (cfg_threads c) i t t' Ht). lia.
Qed.

End Threads.

(** ** Requests with different paths do not interfere *)

(** The path request [r] saves its upload at, when it gets that far
    (lines 38-41). *)
Definition saved_path (r : request) : option string :=
  match validate r with
  | inr f => if decide (secure_filename (filename f) = "") then None else Some (upload_path f)
  | inl _ => None
  end.

(** No two requests save at the same path. *)
Definition paths_distinct (rs : list request) : Prop :=
  ∀ i j ri rj p, rs !! i = Some ri → rs !! j = Some rj →
    saved_path ri = Some p → saved_path rj = Some p → i = j.

Lemma saved_path_accepted (r : request) (f : file_storage) :
  validate r = inr f → saved_path r = Some (upload_path f).
Proof.
  intros Hv. unfold saved_path.
  by rewrite Hv, decide_False by exact (allowed_secure_nonempty _ (validate_allowed r f Hv)).
Qed.

Section Isolation.
Context `{Scaler} `{Classifier} `{Discriminator} `{Gmm} `{Generator} `{Outputs} `{Uploads}.
Context {W : Type} `{World W}.
Variable classifier : handler.

(** [str(e)] of an exception raised while [f]'s own table is parsed or,
    from some world, run through [predict]. *)
Definition own_failure (f : file_storage) (msg : string) : Prop :=
  (∃ e, read_csv (stream f) = Err e ∧ msg = exn_msg e) ∨
  (∃ df (w w' : W) e, read_csv (stream f) = Ok df ∧ predict classifier df w = (Err e, w') ∧
     msg = exn_msg e).

(** Request [r] is at [t] as it would be alone: its file is in the folder
    from [file.save] to the cleanup, what it computed comes from its own
    bytes, and an answer is one [index] gives [r] from some folder and
    world. *)
Definition alone (r : request) (st : folder) (t : thread) : Prop :=
  match t with
  | TStart r' => r' = r
  | TSaved fp => ∃ f, validate r = inr f ∧ saved_path r = Some fp ∧ st !! fp = Some (stream f)
  | TPredicted fp b =>
      ∃ f df (w w' : W), validate r = inr f ∧ saved_path r = Some fp ∧ is_Some (st !! fp) ∧
        read_csv (stream f) = Ok df ∧ predict classifier df w = (Ok b, w')
  | TExcept fp msg | TRemoving fp msg =>
      ∃ f, validate r = inr f ∧ saved_path r = Some fp ∧ is_Some (st !! fp) ∧ own_failure f msg
  | TDone resp => ∃ st (w : W), (index classifier r st w).1.1 = resp
  end.

Definition isolated (rs : list request) (c : @config W) : Prop :=
  Forall2 (λ r t, alone r (cfg_folder c) t) rs (cfg_threads c).

Lemma alone_frame (r : request) (st st' : folder) (t : thread) :
  (∀ p, saved_path r = Some p → st' !! p = st !! p) → alone r st t → alone r st' t.
Proof.
  intros Hfr. destruct t; cbn; [tauto| | | | |tauto].
  - intros (f & Hv & Hp & Hs). exists f. by rewrite (Hfr _ Hp).
  - intros (f & df & w & w' & Hv & Hp & Hs & Hr). exists f, df, w, w'. by rewrite (Hfr _ Hp).
  - intros (f & Hv & Hp & Hs & Ho). exists f. by rewrite (Hfr _ Hp).
  - intros (f & Hv & Hp & Hs & Ho). exists f. by rewrite (Hfr _ Hp).
Qed.

(** A request's own step keeps it as it would be alone, and changes the
    folder only at its own path. *)
Lemma step_thread_alone (r : request) (t : thread) (st : folder) (w : W) t' st' w' :
  alone r st t → step_thread classifier t st w = (t', st', w') →
  alone r st' t' ∧ ∀ p, saved_path r ≠ Some p → st' !! p = st !! p.
Proof.
  intros Ha Hst. destruct t as [r'|fp|fp b|fp msg|fp msg|resp];
    cbn [alone] in Ha; cbn [step_thread] in Hst.
  - subst r'. destruct (validate r) as [resp|f] eqn:Hv.
    + injection Hst as <- <- <-. split; [|done]. exists st, w. unfold index. by rewrite Hv.
    + rewrite decide_False in Hst by exact (allowed_secure_nonempty _ (validate_allowed r f Hv)).
      injection Hst as <- <- <-. pose proof (saved_path_accepted r f Hv) as Hp. split.
      * exists f. split_and!; [done..|]. by rewrite lookup_insert_eq.
      * intros p Hne. rewrite lookup_insert_ne; [done|]. intros <-. by apply Hne.
  - destruct Ha as (f & Hv & Hp & Hs). unfold fs_read in Hst. rewrite Hs in Hst.
    assert (Hsome : is_Some (st !! fp)) by (rewrite Hs; eauto).
    destruct (read_csv (stream f)) as [df|e] eqn:Hr.
    + destruct (predict classifier df w) as [[b|e] w''] eqn:Hpr;
        injection Hst as <- <- <-; (split; [|done]).
      * by exists f, df, w, w''.
      * exists f. split_and!; [done..|]. right. by exists df, w, w'', e.
    + injection Hst as <- <- <-. split; [|done]. exists f. split_and!; [done..|]. left. eauto.
  - destruct Ha as (f & df & w0 & w0' & Hv & Hp & [v Hs] & Hr & Hpr).
    unfold fs_remove in Hst. rewrite Hs in Hst. injection Hst as <- <- <-. split.
    + exists st, w0. by rewrite (index_response classifier _ _ _ f Hv), Hr, Hpr.
    + intros p Hne. apply lookup_delete_ne. intros ->. congruence.
  - destruct Ha as (f & Hv & Hp & Hsome & Ho).
    unfold fs_exists in Hst. rewrite bool_decide_eq_true_2 in Hst by done.
    injection Hst as <- <- <-. split; [|done]. by exists f.
  - destruct Ha as (f & Hv & Hp & [v Hs] & Ho).
    unfold fs_remove in Hst. rewrite Hs in Hst. injection Hst as <- <- <-. split.
    + destruct Ho as [(e & Hr & ->)|(df & w0 & w0' & e & Hr & Hpr & ->)].
      * exists st, w. by rewrite (index_response classifier _ _ _ f Hv), Hr.
      * exists st, w0. by rewrite (index_response classifier _ _ _ f Hv), Hr, Hpr.
    + intros p Hne. apply lookup_delete_ne. intros ->. congruence.
  - injection Hst as <- <- <-. done.
Qed.

Lemma step_at_isolated (rs : list request) (i : nat) (c : config) :
  paths_distinct rs → isolated rs c → isolated rs (step_at classifier i c).
Proof.
  intros Hd Hiso. unfold step_at. destruct (cfg_threads c !! i) as [t|] eqn:Hi; [|done].
  destruct (step_thread classifier t (cfg_folder c) (cfg_world c)) as [[t' st'] w'] eqn:Hs.
  unfold isolated in *. cbn. apply Forall2_same_length_lookup in Hiso as [Hlen Hall].
  assert (Hlt : (i < length (cfg_threads c))%nat) by (eapply lookup_lt_Some; eauto).
  destruct (lookup_lt_is_Some_2 rs i) as [r Hr]; [lia|].
  destruct (step_thread_alone r t _ _ _ _ _ (Hall i r t Hr Hi) Hs) as [Ht' Hfr].
  apply Forall2_same_length_lookup. split; [by rewrite length_insert|].
  intros j rj tj Hrj Htj. destruct (decide (j = i)) as [->|Hji].
  - rewrite list_lookup_insert_eq in Htj by done. injection Htj as <-.
    rewrite Hr in Hrj. by injection Hrj as <-.
  - rewrite list_lookup_insert_ne in Htj by done.
    apply (alone_frame rj (cfg_folder c)); [|by apply (Hall j)].
    intros p Hp. apply Hfr. intros Hp'. apply Hji. exact (Hd j i rj r p Hrj Hr Hp Hp').
Qed.

Lemma rtc_step_isolated (rs : list request) (c c' : config) :
  paths_distinct rs → isolated rs c → rtc (step classifier) c c' → isolated rs c'.
Proof. intros Hd Hc Hr. induction Hr as [|x y z [i x' _] _ IH]; [done|]. by apply IH, step_at_isolated. Qed.

Lemma boot_isolated (existing : option folder) (w0 : W) (rs : list request) :
  isolated rs (boot existing w0 rs).
Proof. unfold isolated, boot. cbn. induction rs as [|r rs IH]; constructor; [done|exact IH]. Qed.

(** C13: requests that save at different paths do not interfere: under
    every interleaving, every answered request has an answer [index]
    gives that request run alone, from some folder and world (the
    world only moves the clock and the noise of [predict]). *)
Theorem requests_isolated (existing : option folder) (w0 : W) (rs : list request) (c : config) :
  paths_distinct rs → rtc (step classifier) (boot existing w0 rs) c →
  ∀ i resp, cfg_threads c !! i = Some (TDone resp) →
  ∃ r st (w : W), rs !! i = Some r ∧ (index classifier r st w).1.1 = resp.
Proof.
  intros Hd Hr i resp Hi.
  pose proof (rtc_step_isolated rs _ _ Hd (boot_isolated existing w0 rs) Hr) as Hiso.
  apply Forall2_same_length_lookup in Hiso as [Hlen Hall].
  destruct (lookup_lt_is_Some_2 rs i) as [r Hri].
  { rewrite Hlen. eapply lookup_lt_Some; eauto. }
  destruct (Hall i r _ Hri Hi) as (st & w & Hresp). eauto.
Qed.
End Isolation.

(** ** Two requests that save at one path *)

Section Collision.
Context `{Scaler} `{Classifier} `{Discriminator} `{Gmm} `{Generator} `{Outputs} `{Uploads}.
Context {W : Type} `{World W}.
Variable classifier : handler.

Lemma step_thread_start (r : request) (f : file_storage) (st : folder) (w : W) :
  validate r = inr f →
  step_thread classifier (TStart r) st w = (TSaved (upload_path f), <[upload_path f := stream f]> st, w).
Proof.
  intros Hv. cbn [step_thread]. rewrite Hv.
  by rewrite decide_False by exact (allowed_secure_nonempty _ (validate_allowed r f Hv)).
Qed.

Lemma step_at_some (i : nat) (c : @config W) (t t' : thread) (st' : folder) (w' : W) :
  cfg_threads c !! i = Some t → step_thread classifier t (cfg_folder c) (cfg_world c) = (t', st', w') →
  step_at classifier i c = mkConfig st' w' (<[i := t']> (cfg_threads c)).
Proof. intros Hi Hs. unfold step_at. by rewrite Hi, Hs. Qed.

Lemma run_schedule_cons (i : nat) (sched : list nat) (c : @config W) :
  run_schedule classifier (i :: sched) c = run_schedule classifier sched (step_at classifier i c).
Proof. done. Qed.

#[local] Ltac step_with i t H :=
  rewrite run_schedule_cons; erewrite (step_at_some i _ t); [|reflexivity|exact H];
  cbn [cfg_threads cfg_folder cfg_world insert list_insert].

(** C15: two accepted uploads whose file names have one secure name
    (the same name, or [traffic.csv] and [../traffic.csv]) share one path.
    If A saves, B saves over it, and A reads, A is answered 200 with the
    results of B's table, whatever A uploaded; A's [os.remove] deletes
    B's file, so B, whose table [predict] accepts, is answered 500 with
    the [FileNotFoundError] of its read; and the folder ends without the
    path. *)
Theorem same_path_race (rA rB : request) (fA fB : file_storage) (st : folder) (w w' : W)
    (df : frame) (b : bundle) :
  validate rA = inr fA → validate rB = inr fB → upload_path fA = upload_path fB →
  read_csv (stream fB) = Ok df → predict classifier df w = (Ok b, w') →
  run_schedule classifier [0; 1; 0; 0; 1; 1]%nat (mkConfig st w [TStart rA; TStart rB]) =
  mkConfig (delete (upload_path fA) st) w'
    [TDone (mkResponse 200 (PResults b));
     TDone (mkResponse 500 (PError (exn_msg (enoent (upload_path fA)))))].
Proof.
  intros HA HB Hp Hdf Hpr. set (p := upload_path fA).
  step_with 0%nat (TStart rA) (step_thread_start rA fA st w HA).
  step_with 1%nat (TStart rB) (step_thread_start rB fB (<[p := stream fA]> st) w HB).
  rewrite <- Hp. fold p.
  assert (Hs3 : step_thread classifier (TSaved p) (<[p:=stream fB]> (<[p:=stream fA]> st)) w =
               (TPredicted p b, <[p:=stream fB]> (<[p:=stream fA]> st), w')).
  { cbn [step_thread]. by rewrite fs_read_insert, Hdf, Hpr. }
  step_with 0%nat (TSaved p) Hs3.
  assert (Hs4 : step_thread classifier (TPredicted p b) (<[p:=stream fB]> (<[p:=stream fA]> st)) w' =
               (TDone (mkResponse 200 (PResults b)), delete p st, w')).
  { cbn [step_thread]. by rewrite fs_remove_insert, delete_insert_eq. }
  step_with 0%nat (TPredicted p b) Hs4.
  assert (Hs5 : step_thread classifier (TSaved p) (delete p st) w' =
               (TExcept p (exn_msg (enoent p)), delete p st, w')).
  { cbn [step_thread]. unfold fs_read. by rewrite lookup_delete_eq. }
  step_with 1%nat (TSaved p) Hs5.
  assert (Hs6 : step_thread classifier (TExcept p (exn_msg (enoent p))) (delete p st) w' =
               (TDone (mkResponse 500 (PError (exn_msg (enoent p)))), delete p st, w')).
  { cbn [step_thread]. unfold fs_exists. rewrite lookup_delete_eq. by rewrite bool_decide_eq_false_2 by (intros [? ?]; done). }
  step_with 1%nat (TExcept p (exn_msg (enoent p))) Hs6.
  done.
Qed.
End Collision.

(** ** Two uploads with the same name *)

(** The artifacts of [Pipeline.Scenario] and the uploads of [App.Demo]. *)
Module Race.
Import Scenario Demo.

(** A uploads [traffic.csv], B uploads [../traffic.csv]. *)
Definition two_uploads : config := boot None 0%nat [upload "A"; upload_as "../traffic.csv" "B"].

(** A saves, B saves over it, A reads B's bytes, runs [predict] and
    removes the file, then B finds nothing to read. *)
Definition race_schedule : list nat := [0; 1; 0; 0; 1; 1]%nat.

(** The race on concrete tables: alone, A is answered with the results
    of its own labelled table; interleaved with B, with those of B's
    unlabelled table. *)
Example same_name_race :
  index hs_ok (upload "A") ∅ 0%nat = (mkResponse 200 (PResults spec_bundle), ∅, 2%nat) ∧
  cfg_threads (run_schedule hs_ok race_schedule two_uploads) =
    [TDone (mkResponse 200 (PResults unlabelled_bundle));
     TDone (mkResponse 500 (PError "[Errno 2] No such file or directory: 'uploads/traffic.csv'"))].
Proof. split; vm_compute; reflexivity. Qed.

(** ** Witnesses *)

Lemma uploads_cleaned_up_witness :
  rtc (step hs_ok) two_uploads (run_schedule hs_ok race_schedule two_uploads) ∧
  Forall (λ t, pending t = None) (cfg_threads (run_schedule hs_ok race_schedule two_uploads)) ∧
  cfg_folder (run_schedule hs_ok race_schedule two_uploads) ⊆ default ∅ None.
Proof.
  assert (H1 : rtc (step hs_ok) two_uploads (run_schedule hs_ok race_schedule two_uploads))
    by apply run_schedule_rtc.
  assert (H2 : Forall (λ t, pending t = None) (cfg_threads (run_schedule hs_ok race_schedule two_uploads)))
    by (vm_compute; repeat constructor).
  split; [exact H1|]. split; [exact H2|]. exact (uploads_cleaned_up hs_ok _ _ _ _ H1 H2).
Defined.




Lemma same_path_race_witness :
  validate (upload "A") = inr (mkFile "traffic.csv" "A") ∧
  validate (upload_as "../traffic.csv" "B") = inr (mkFile "../traffic.csv" "B") ∧
  upload_path (mkFile "traffic.csv" "A") = upload_path (mkFile "../traffic.csv" "B") ∧
  read_csv (stream (mkFile "../traffic.csv" "B")) = Ok unlabelled_table ∧
  predict hs_ok unlabelled_table 0%nat = (Ok unlabelled_bundle, 2%nat) ∧
  run_schedule hs_ok [0; 1; 0; 0; 1; 1]%nat
    (mkConfig ∅ 0%nat [TStart (upload "A"); TStart (upload_as "../traffic.csv" "B")]) =
  mkConfig (delete (upload_path (mkFile "traffic.csv" "A")) ∅) 2%nat
    [TDone (mkResponse 200 (PResults unlabelled_bundle));
     TDone (mkResponse 500 (PError (exn_msg (enoent (upload_path (mkFile "traffic.csv" "A"))))))].
Proof.
  assert (H1 : validate (upload "A") = inr (mkFile "traffic.csv" "A")) by (vm_compute; reflexivity).
  assert (H2 : validate (upload_as "../traffic.csv" "B") = inr (mkFile "../traffic.csv" "B"))
    by (vm_compute; reflexivity).
  assert (H3 : upload_path (mkFile "traffic.csv" "A") = upload_path (mkFile "../traffic.csv" "B"))
    by (vm_compute; reflexivity).
  assert (H4 : read_csv (stream (mkFile "../traffic.csv" "B")) = Ok unlabelled_table)
    by (vm_compute; reflexivity).
  assert (H5 : predict hs_ok unlabelled_table 0%nat = (Ok unlabelled_bundle, 2%nat))
    by (vm_compute; reflexivity).
  split_and!; [exact H1|exact H2|exact H3|exact H4|exact H5|].
  exact (same_path_race hs_ok _ _ _ _ ∅ 0%nat 2%nat _ _ H1 H2 H3 H4 H5).
Defined.
(** The same interleaving with two different names. *)
Definition distinct_uploads : config := boot None 0%nat [upload "A"; upload_as "other.csv" "B"].

Lemma distinct_uploads_paths : paths_distinct [upload "A"; upload_as "other.csv" "B"].
Proof.
  intros [|[|i]] [|[|j]] ri rj p Hi Hj Hpi Hpj; cbn in Hi, Hj; try done;
    injection Hi as <-; injection Hj as <-; vm_compute in Hpi, Hpj; congruence.
Qed.

Lemma requests_isolated_witness :
  paths_distinct [upload "A"; upload_as "other.csv" "B"] ∧
  rtc (step hs_ok) distinct_uploads (run_schedule hs_ok race_schedule distinct_uploads) ∧
  (∀ i resp, cfg_threads (run_schedule hs_ok race_schedule distinct_uploads) !! i = Some (TDone resp) →
   ∃ r st w, [upload "A"; upload_as "other.csv" "B"] !! i = Some r ∧ (index hs_ok r st w).1.1 = resp).
Proof.
  assert (H1 : paths_distinct [upload "A"; upload_as "other.csv" "B"]) by exact distinct_uploads_paths.
  assert (H2 : rtc (step hs_ok) distinct_uploads (run_schedule hs_ok race_schedule distinct_uploads))
    by apply run_schedule_rtc.
  split; [exact H1|]. split; [exact H2|]. exact (requests_isolated hs_ok None 0%nat _ _ H1 H2).
Defined.
End Race.
